(** * Connect 4: the board engine of [connect4_game.py] and the win check of
      [connect4_integrated.py].
    The Python sources are embedded shallowly.  A [Connect4Game] object is a
    record; its methods are computations in a state-and-exception monad over
    that record, so that a method which only reads [self.board] is shown, and
    not assumed, to leave the object alone.  Python lists are [list]s indexed
    by [Z] with Python's rules (a negative index counts from the end, an index
    out of range raises [IndexError]).  Loops are written with one combinator,
    [for_in], whose body says how the iteration ends: fall through to the next
    element, [break], or [return]. *)

From stdpp Require Import base tactics option list list_numbers numbers strings.
From Stdlib Require Import ZArith Ascii Lia.

Open Scope string_scope.
Open Scope Z_scope.

(** * Part I: the programs and the notions used to specify them *)

(** ** Python values and exceptions *)

Inductive exn : Type := IndexError | ValueError.

Inductive result (A : Type) : Type :=
| Ok (a : A)
| Raise (e : exn).
Arguments Ok {A} a.
Arguments Raise {A} e.

Module Py.

(** [l[i]]: the position an index denotes in a list of length [n]. *)
Definition norm_index (n : nat) (i : Z) : option nat :=
  let j := if i <? 0 then i + Z.of_nat n else i in
  if (0 <=? j) && (j <? Z.of_nat n) then Some (Z.to_nat j) else None.

Definition getitem {A} (l : list A) (i : Z) : result A :=
  match norm_index (length l) i with
  | Some k => match l !! k with Some x => Ok x | None => Raise IndexError end
  | None => Raise IndexError
  end.

(** [l[i] = x] *)
Definition setitem {A} (l : list A) (i : Z) (x : A) : result (list A) :=
  match norm_index (length l) i with
  | Some k => Ok (<[k := x]> l)
  | None => Raise IndexError
  end.

(** [range(n)] and [range(a, b)] *)
Definition range (n : Z) : list Z := seqZ 0 n.
Definition range2 (a b : Z) : list Z := seqZ a (b - a).
(** [range(a, b, -1)] *)
Definition range_down (a b : Z) : list Z := reverse (seqZ (b + 1) (a - b)).

(** [s.lower()] on ASCII text (the mode names are ASCII). *)
Definition lower_ascii (c : ascii) : ascii :=
  let n := nat_of_ascii c in
  if ((65 <=? n) && (n <=? 90))%nat then ascii_of_nat (n + 32) else c.

Fixpoint lower (s : string) : string :=
  match s with
  | EmptyString => EmptyString
  | String c s' => String (lower_ascii c) (lower s')
  end.

(** [s.startswith(p)] *)
Definition startswith (s p : string) : bool := String.prefix p s.

(** Truth value of a method result that is [None] or a string. *)
Definition truthy (o : option string) : bool :=
  match o with
  | None => false
  | Some s => negb (String.eqb s "")
  end.

End Py.

(** ** The game object of [connect4_game.py] *)

Abbreviation Board := (list (list string)).

Record Game : Type := mkGame {
  mode : string;
  board : Board;
  players : list string;
  current_player_index : Z;
  game_over : bool;
  winner : option string
}.

Definition ROWS : Z := 6.
Definition COLS : Z := 7.

(** The marker of a free cell, two blanks. *)
Definition EMPTY : string := "  ".

Definition set_board (b : Board) (g : Game) : Game :=
  mkGame (mode g) b (players g) (current_player_index g) (game_over g) (winner g).
Definition set_current_player_index (i : Z) (g : Game) : Game :=
  mkGame (mode g) (board g) (players g) i (game_over g) (winner g).
Definition set_game_over (v : bool) (g : Game) : Game :=
  mkGame (mode g) (board g) (players g) (current_player_index g) v (winner g).
Definition set_winner (w : option string) (g : Game) : Game :=
  mkGame (mode g) (board g) (players g) (current_player_index g) (game_over g) w.

(** ** Methods run in a state-and-exception monad over the object *)

Definition M (A : Type) : Type := Game -> result (A * Game).

Definition ret {A} (a : A) : M A := fun g => Ok (a, g).

Definition bind {A B} (m : M A) (k : A -> M B) : M B :=
  fun g => match m g with
           | Ok (a, g') => k a g'
           | Raise e => Raise e
           end.

Definition get_self : M Game := fun g => Ok (g, g).
Definition modify (f : Game -> Game) : M unit := fun g => Ok (tt, f g).

Definition lift {A} (r : result A) : M A :=
  fun g => match r with Ok a => Ok (a, g) | Raise e => Raise e end.

Declare Scope py_scope.
Delimit Scope py_scope with py.
Notation "x <- m ;; k" := (bind m (fun x => k))
  (at level 100, m at next level, right associativity) : py_scope.
Notation "m ;; k" := (bind m (fun _ => k))
  (at level 100, right associativity) : py_scope.
Open Scope py_scope.

(** ** Loops *)

(** How one iteration of a loop body ends. *)
Inductive ctl (S R : Type) : Type :=
| Next (s : S)      (* reach the end of the body, or [continue] *)
| Break (s : S)     (* [break] *)
| Return (r : R).   (* [return r] from the enclosing method *)
Arguments Next {S R} s.
Arguments Break {S R} s.
Arguments Return {S R} r.

(** [for x in xs: body], with [s] the variables the loop updates.  The result
    is [inl s] when the loop is left normally or by [break], and [inr r] when
    the body returned [r]. *)
Fixpoint for_in {A S R} (xs : list A) (s : S) (body : A -> S -> M (ctl S R))
  : M (S + R) :=
  match xs with
  | [] => ret (inl s)
  | x :: xs' =>
      k <- body x s ;;
      match k with
      | Next s' => for_in xs' s' body
      | Break s' => ret (inl s')
      | Return r => ret (inr r)
      end
  end.

(** After an inner loop: a [return] inside it leaves the outer body too. *)
Definition after {S S' R} (l : S + R) (k : S -> M (ctl S' R)) : M (ctl S' R) :=
  match l with
  | inl s => k s
  | inr r => ret (Return r)
  end.

(** After the outermost loop of a method. *)
Definition finish {S R} (l : S + R) (k : S -> M R) : M R :=
  match l with
  | inl s => k s
  | inr r => ret r
  end.

(** [self.board[row][col]] and [self.board[row][col] = v] *)
Definition board_get (row col : Z) : M string :=
  g <- get_self ;;
  r <- lift (Py.getitem (board g) row) ;;
  lift (Py.getitem r col).

Definition board_set (row col : Z) (v : string) : M unit :=
  g <- get_self ;;
  r <- lift (Py.getitem (board g) row) ;;
  r' <- lift (Py.setitem r col v) ;;
  b' <- lift (Py.setitem (board g) row r') ;;
  modify (set_board b').

(** ** The methods of [Connect4Game] *)

Definition init_board : Board :=
  (fun _ => (fun _ => EMPTY) <$> Py.range COLS) <$> Py.range ROWS.

Definition init (mode0 : string) : result Game :=
  let m := Py.lower mode0 in
  let mk ps := Ok (mkGame m init_board ps 0 false None) in
  if String.eqb m "pvp" then mk ["p1"; "p2"]
  else if String.eqb m "ava" then mk ["a1"; "a2"]
  else if String.eqb m "pva" then mk ["p1"; "a1"]
  else Raise ValueError.

Definition get_current_player : M string :=
  g <- get_self ;;
  lift (Py.getitem (players g) (current_player_index g)).

Definition is_ai_turn : M bool :=
  p <- get_current_player ;;
  ret (Py.startswith p "a").

Definition is_valid_column (col : Z) : M bool :=
  if (0 <=? col) && (col <? COLS) then
    c <- board_get 0 col ;;
    ret (String.eqb c EMPTY)
  else ret false.

Definition drop_piece (col : Z) (player : string) : M bool :=
  valid <- is_valid_column col ;;
  if negb valid then ret false
  else
    l <- for_in (Py.range_down (ROWS - 1) (-1)) tt (fun row _ =>
           c <- board_get row col ;;
           if String.eqb c EMPTY then
             board_set row col player ;;
             ret (Return true)
           else ret (Next tt)) ;;
    finish l (fun _ => ret false).

Definition directions : list (Z * Z) :=
  [ (0, 1);    (* horizontal *)
    (1, 0);    (* vertical *)
    (1, 1);    (* diagonal down-right *)
    (1, -1) ]. (* diagonal down-left *)

Definition check_winner : M (option string) :=
  l <- for_in (Py.range ROWS) tt (fun row _ =>
    l1 <- for_in (Py.range COLS) tt (fun col _ =>
      c0 <- board_get row col ;;
      if String.eqb c0 EMPTY then ret (Next tt)
      else
        player <- board_get row col ;;
        l2 <- for_in directions tt (fun '(dr, dc) _ =>
          l3 <- for_in (Py.range2 1 4) 1 (fun i count =>
            let r := row + dr * i in
            let c := col + dc * i in
            same <- (if (0 <=? r) && (r <? ROWS) && (0 <=? c) && (c <? COLS)
                     then x <- board_get r c ;; ret (String.eqb x player)
                     else ret false) ;;
            if same then ret (Next (count + 1)) else ret (Break count)) ;;
          after l3 (fun count =>
            if 4 <=? count then ret (Return (Some player)) else ret (Next tt))) ;;
        after l2 (fun _ => ret (Next tt))) ;;
    after l1 (fun _ => ret (Next tt))) ;;
  finish l (fun _ => ret None).

Definition is_board_full : M bool :=
  l <- for_in (Py.range COLS) tt (fun col _ =>
         c <- board_get 0 col ;;
         if negb (String.eqb c EMPTY) then ret (Next tt) else ret (Return false)) ;;
  finish l (fun _ => ret true).

(** [play_turn], with the column the current player chose ([get_ai_move] or
    [get_player_input]) given as [col]; printing is left out. *)
Definition play_turn (col : Z) : M unit :=
  current_player <- get_current_player ;;
  _ <- is_ai_turn ;;
  ok <- drop_piece col current_player ;;
  if negb ok then ret tt
  else
    w <- check_winner ;;
    if Py.truthy w then
      modify (set_game_over true) ;;
      modify (set_winner w)
    else
      full <- is_board_full ;;
      if full then modify (set_game_over true)
      else
        g <- get_self ;;
        modify (set_current_player_index
                  ((current_player_index g + 1) `mod` Z.of_nat (length (players g)))).

(** [play]: [while not self.game_over: self.play_turn()], run on the columns
    chosen turn after turn. *)
Fixpoint play (cols : list Z) : M unit :=
  match cols with
  | [] => ret tt
  | col :: cols' =>
      g <- get_self ;;
      if game_over g then ret tt
      else play_turn col ;; play cols'
  end.

(** ** [connect4_integrated.py] *)

Module Integrated.

(** Functions of this module take the grid as an argument and only read
    it; they run in the exception monad. *)
Definition rbind {A B} (r : result A) (k : A -> result B) : result B :=
  match r with
  | Ok a => k a
  | Raise e => Raise e
  end.

Notation "x <-r m ;; k" := (rbind m (fun x => k))
  (at level 100, m at next level, right associativity) : py_scope.

(** [for x in xs: body], where the body either returns ([Some v]) or
    reaches its end ([None]). *)
Fixpoint for_ret {A R} (xs : list A) (body : A -> result (option R))
  : result (option R) :=
  match xs with
  | [] => Ok None
  | x :: xs' =>
      v <-r body x ;;
      match v with
      | Some r => Ok (Some r)
      | None => for_ret xs' body
      end
  end.

(** After a loop, unless it returned. *)
Definition or_else {R} (l : result (option R)) (k : result (option R))
  : result (option R) :=
  v <-r l ;;
  match v with
  | Some r => Ok (Some r)
  | None => k
  end.

(** The free cell, one blank. *)
Definition BLANK : string := " ".

(** [gameboard[j][i]] *)
Definition at_ (gameboard : Board) (j i : Z) : result string :=
  row <-r Py.getitem gameboard j ;;
  Py.getitem row i.

(** [e0 == e1 == e2 == e3 and e0 != ' '], operands read left to right and
    only as far as needed. *)
Definition four_equal (e0 e1 e2 e3 : result string) : result bool :=
  a <-r e0 ;;
  b <-r e1 ;;
  if negb (String.eqb a b) then Ok false
  else
    c <-r e2 ;;
    if negb (String.eqb b c) then Ok false
    else
      d <-r e3 ;;
      if negb (String.eqb c d) then Ok false
      else
        a' <-r e0 ;;
        Ok (negb (String.eqb a' BLANK)).

(** [if <four equal>: return e0] *)
Definition return_if_four (e0 e1 e2 e3 : result string) : result (option string) :=
  t <-r four_equal e0 e1 e2 e3 ;;
  if t then v <-r e0 ;; Ok (Some v) else Ok None.

Definition checkwin (gameboard : Board) : result (option string) :=
  (* horizontal *)
  or_else
    (for_ret gameboard (fun row =>
       for_ret (Py.range 4) (fun i =>
         return_if_four (Py.getitem row i) (Py.getitem row (i + 1))
                        (Py.getitem row (i + 2)) (Py.getitem row (i + 3)))))
  (* diagonal, "down-right" *)
  (or_else
    (for_ret (Py.range 4) (fun i =>
       for_ret (Py.range2 3 6) (fun j =>
         return_if_four (at_ gameboard j i) (at_ gameboard (j - 1) (i + 1))
                        (at_ gameboard (j - 2) (i + 2)) (at_ gameboard (j - 3) (i + 3)))))
  (* diagonal, "down-left" *)
  (or_else
    (for_ret (Py.range2 3 7) (fun i =>
       for_ret (Py.range2 3 6) (fun j =>
         return_if_four (at_ gameboard j i) (at_ gameboard (j - 1) (i - 1))
                        (at_ gameboard (j - 2) (i - 2)) (at_ gameboard (j - 3) (i - 3)))))
  (* vertical *)
  (or_else
    (for_ret (Py.range 7) (fun i =>
       for_ret (Py.range 3) (fun j =>
         return_if_four (at_ gameboard j i) (at_ gameboard (j + 1) i)
                        (at_ gameboard (j + 2) i) (at_ gameboard (j + 3) i))))
    (Ok None)))).

(** One cell of [convert_board_to_baml_format]: the [if]/[elif]/[else]. *)
Definition convert_cell (cell : string) : string :=
  if String.eqb cell "x" then "p1"
  else if String.eqb cell "o" then "a1"
  else "  ".

Definition convert_board_to_baml_format (gameboard : Board) : Board :=
  (λ row : list string, convert_cell <$> row) <$> gameboard.

(** A grid whose cells are ['x'], ['o'] or [' ']. *)
Definition xo_board (b : Board) : Prop :=
  Forall (Forall (λ s, s = "x" ∨ s = "o" ∨ s = BLANK)) b.

End Integrated.

(** ** Boards, runs and gravity as the specification states them *)

Definition p1 : string := "p1".
Definition p2 : string := "p2".

Definition new_game : Game := mkGame "pvp" init_board [p1; p2] 0 false None.

(** A board of [ROWS] rows of [COLS] cells each. *)
Definition wf_board (b : Board) : Prop :=
  length b = Z.to_nat ROWS ∧ Forall (λ r, length r = Z.to_nat COLS) b.

(** The cell at row [r], column [c]; [None] off the board. *)
Definition cell (b : Board) (r c : Z) : option string :=
  if (0 <=? r) && (0 <=? c) then
    b !! Z.to_nat r ≫= λ row, row !! Z.to_nat c
  else None.

(** [owned b p r c]: the cell is on the board and holds [p]. *)
Definition owned (b : Board) (p : string) (r c : Z) : bool :=
  match cell b r c with
  | Some x => String.eqb x p
  | None => false
  end.

(** The board with [v] written at row [r], column [c]. *)
Definition place (b : Board) (r c : Z) (v : string) : Board :=
  alter (λ row, <[Z.to_nat c := v]> row) (Z.to_nat r) b.

(** ** What the scans compute *)

(** First hit of a search over a list, in list order. *)
Definition search {A R} (f : A -> option R) (xs : list A) : option R :=
  head (omap f xs).

(** The owner of cell [(row, col)] if that cell is taken and the three cells
    after it along [d] are on the board and have the same owner. *)
Definition run_owner (b : Board) (row col : Z) (d : Z * Z) : option string :=
  match cell b row col with
  | Some p =>
      if String.eqb p EMPTY then None
      else if forallb (λ i, owned b p (row + d.1 * i) (col + d.2 * i)) [1; 2; 3]
           then Some p else None
  | None => None
  end.

(** Origins in row-major order, and at each origin the four directions in
    the order horizontal, vertical, down-right, down-left. *)
Definition scan_order : list (Z * Z * (Z * Z)) :=
  row ← Py.range ROWS; col ← Py.range COLS; d ← directions; [(row, col, d)].

Definition first_win (b : Board) : option string :=
  search (λ '(row, col, d), run_owner b row col d) scan_order.

(** Player [p] holds the [n] cells that start at [(r, c)] and follow
    direction [d]; all of them are on the board. *)
Definition run (b : Board) (p : string) (r c : Z) (d : Z * Z) (n : Z) : Prop :=
  ∀ i, 0 <= i < n -> cell b (r + d.1 * i) (c + d.2 * i) = Some p.

(** Some cell starts a run of at least four cells of player [p] along one of
    the four directions. *)
Definition four_in_a_row (b : Board) (p : string) : Prop :=
  p ≠ EMPTY ∧ ∃ r c d n, d ∈ directions ∧ 4 <= n ∧ run b p r c d n.

(** The free cell of column [col] nearest to the bottom row. *)
Definition lowest_empty (b : Board) (col : Z) : option Z :=
  search (λ row, if owned b EMPTY row col then Some row else None)
         (Py.range_down (ROWS - 1) (-1)).

(** No free cell lies below a taken cell of the same column. *)
Definition gravity (b : Board) : Prop :=
  ∀ r r' c s, cell b r c = Some s -> s ≠ EMPTY -> r < r' < ROWS ->
              cell b r' c ≠ Some EMPTY.

(** Every taken cell of the grid belongs to [A]. *)
Definition only_player (A : string) (b : Board) : Prop :=
  Forall (Forall (λ s, s = EMPTY ∨ s = A)) b.

(** The top cell of every column is taken. *)
Definition top_row_taken (b : Board) : Prop :=
  ∀ c, 0 <= c < COLS -> ∃ s, cell b 0 c = Some s ∧ s ≠ EMPTY.

(** All 42 cells are taken. *)
Definition all_taken (b : Board) : Prop :=
  ∀ r c, 0 <= r < ROWS -> 0 <= c < COLS -> ∃ s, cell b r c = Some s ∧ s ≠ EMPTY.

(** The state [play_turn] leaves when the current player [cp] chooses
    column [col] on grid [board g]. *)
Definition after_turn (g : Game) (col : Z) (cp : string) : Game :=
  match (if owned (board g) EMPTY 0 col then lowest_empty (board g) col else None) with
  | None => g
  | Some r =>
      let g2 := set_board (place (board g) r col cp) g in
      let w := first_win (board g2) in
      if Py.truthy w then set_winner w (set_game_over true g2)
      else if forallb (λ c, negb (owned (board g2) EMPTY 0 c)) (Py.range COLS)
           then set_game_over true g2
           else set_current_player_index
                  ((current_player_index g2 + 1) `mod` Z.of_nat (length (players g2))) g2
  end.

(** What holds of every session: the grid is 6x7, and a session that ended
    without a winner has a full top row. *)
Definition session_inv (g : Game) : Prop :=
  wf_board (board g)
  ∧ (game_over g = true -> winner g = None -> top_row_taken (board g)).

(** The owner of four cells that are on the board, hold the same thing and
    are not blank. *)
Definition quad (c0 c1 c2 c3 : option string) : option string :=
  match c0, c1, c2, c3 with
  | Some a, Some b, Some c, Some d =>
      if String.eqb a b && String.eqb b c && String.eqb c d
         && negb (String.eqb a Integrated.BLANK)
      then Some a else None
  | _, _, _, _ => None
  end.

Definition first_of {R} (o1 o2 : option R) : option R :=
  match o1 with
  | Some r => Some r
  | None => o2
  end.

(** What [checkwin] finds, loop after loop. *)
Definition checkwin_found (b : Board) : option string :=
  first_of
    (search (λ row : list string, search (λ i,
       quad (row !! Z.to_nat i) (row !! Z.to_nat (i + 1))
            (row !! Z.to_nat (i + 2)) (row !! Z.to_nat (i + 3))) (Py.range 4)) b)
  (first_of
    (search (λ i, search (λ j,
       quad (cell b j i) (cell b (j - 1) (i + 1))
            (cell b (j - 2) (i + 2)) (cell b (j - 3) (i + 3))) (Py.range2 3 6)) (Py.range 4))
  (first_of
    (search (λ i, search (λ j,
       quad (cell b j i) (cell b (j - 1) (i - 1))
            (cell b (j - 2) (i - 2)) (cell b (j - 3) (i - 3))) (Py.range2 3 6)) (Py.range2 3 7))
    (search (λ i, search (λ j,
       quad (cell b j i) (cell b (j + 1) i)
            (cell b (j + 2) i) (cell b (j + 3) i)) (Py.range 3)) (Py.range 7)))).

(** Player [p], not the blank, holds four cells in a row of the grid of
    [connect4_integrated.py]. *)
Definition blank_four (b : Board) (p : string) : Prop :=
  p ≠ Integrated.BLANK ∧ ∃ r c d, d ∈ directions ∧ run b p r c d 4.

(** What a cell of that grid may hold. *)
Definition xo (s : string) : Prop := s = "x" ∨ s = "o" ∨ s = Integrated.BLANK.

(** [gravity], decided on a 6x7 grid. *)
Definition gravityb (b : Board) : bool :=
  forallb (λ c,
    forallb (λ r,
      owned b EMPTY r c
      || forallb (λ r', negb (owned b EMPTY r' c)) (Py.range2 (r + 1) ROWS))
      (Py.range ROWS))
    (Py.range COLS).

(** ** Concrete grids and sessions *)

(** The pvp game whose grid is [b]. *)
Definition game_on (b : Board) : Game := set_board b new_game.

Definition blank_row : list string := replicate 7 EMPTY.

(** Column [c] of the grid, top row first. *)
Definition column (b : Board) (c : Z) : list (option string) :=
  (λ r, cell b r c) <$> Py.range ROWS.

(** Column 0 after [n] pieces were dropped into it, [A] first, then [B],
    and so on in turn; the other columns are free. *)
Definition column_0_filled (A B : string) (n : nat) : Board :=
  (λ r, (if (6 - Z.of_nat n <=? r) then (if Z.even r then B else A) else EMPTY)
        :: replicate 6 EMPTY) <$> Py.range ROWS.

(** The bottom row holds [A] in its first [k] columns; all else is free. *)
Definition bottom_row_filled (A : string) (k : nat) : Board :=
  (replicate 5 blank_row ++ [(replicate k A ++ replicate (7 - k) EMPTY)%list])%list.

(** Four cells of [A] from [(2, 0)] down to the right, and four from
    [(2, 6)] down to the left; all else is free. *)
Definition diagonal_down_right (A : string) : Board :=
  [ blank_row; blank_row;
    [A; EMPTY; EMPTY; EMPTY; EMPTY; EMPTY; EMPTY];
    [EMPTY; A; EMPTY; EMPTY; EMPTY; EMPTY; EMPTY];
    [EMPTY; EMPTY; A; EMPTY; EMPTY; EMPTY; EMPTY];
    [EMPTY; EMPTY; EMPTY; A; EMPTY; EMPTY; EMPTY] ].

Definition diagonal_down_left (A : string) : Board :=
  [ blank_row; blank_row;
    [EMPTY; EMPTY; EMPTY; EMPTY; EMPTY; EMPTY; A];
    [EMPTY; EMPTY; EMPTY; EMPTY; EMPTY; A; EMPTY];
    [EMPTY; EMPTY; EMPTY; EMPTY; A; EMPTY; EMPTY];
    [EMPTY; EMPTY; EMPTY; A; EMPTY; EMPTY; EMPTY] ].

(** A full grid on which nobody has four in a row. *)
Definition draw_board : Board :=
  [ [p1; p1; p2; p2; p1; p1; p2];
    [p2; p2; p1; p1; p2; p2; p1];
    [p1; p1; p2; p2; p1; p1; p2];
    [p2; p2; p1; p1; p2; p2; p1];
    [p1; p1; p2; p2; p1; p1; p2];
    [p2; p2; p1; p1; p2; p2; p1] ].

(** The session after p1 has played column 0 four times and p2 column 1
    three times: p1 has won. *)
Definition won_game : Game :=
  mkGame "pvp"
    [ blank_row; blank_row;
      [p1; EMPTY; EMPTY; EMPTY; EMPTY; EMPTY; EMPTY];
      [p1; p2; EMPTY; EMPTY; EMPTY; EMPTY; EMPTY];
      [p1; p2; EMPTY; EMPTY; EMPTY; EMPTY; EMPTY];
      [p1; p2; EMPTY; EMPTY; EMPTY; EMPTY; EMPTY] ]
    [p1; p2] 0 true (Some p1).

(** Three in a row on the bottom row, the fourth cell held by the other
    player. *)
Definition blocked_board : Board :=
  (replicate 5 blank_row ++ [[p1; p1; p1; p2; EMPTY; EMPTY; EMPTY]])%list.

(** Moves of a whole game that nobody wins, and the session it ends in. *)
Definition draw_moves : list Z :=
  [2; 0; 0; 0; 0; 0; 0; 1; 1; 1; 1; 1; 1; 2; 2; 2; 2; 2; 3; 3; 3;
   3; 3; 3; 6; 4; 4; 4; 4; 4; 4; 5; 5; 5; 5; 5; 5; 6; 6; 6; 6; 6].

Definition drawn_game : Game := mkGame "pvp" draw_board [p1; p2] 1 true None.

(** A grid of [connect4_integrated.py] on which ['x'] has a column of four. *)
Definition xo_won_board : Board :=
  [ replicate 7 " "; replicate 7 " ";
    ["x"; " "; " "; " "; " "; " "; " "];
    ["x"; "o"; " "; " "; " "; " "; " "];
    ["x"; "o"; " "; " "; " "; " "; " "];
    ["x"; "o"; " "; " "; " "; " "; " "] ].

(** ** Sessions reached by play *)

(** A session that [play] can leave, started by [__init__]. *)
Definition reachable (g : Game) : Prop :=
  ∃ mode0 g0 cols, init mode0 = Ok g0 ∧ play cols g0 = Ok (tt, g).

(** Two different players, neither the empty marker nor the empty string. *)
Definition two_players (ps : list string) : Prop :=
  ∃ A B, ps = [A; B] ∧ A ≠ B ∧ A ≠ EMPTY ∧ B ≠ EMPTY ∧ A ≠ "" ∧ B ≠ "".

(** Every cell is free or holds one of [ps]. *)
Definition cells_of (ps : list string) (b : Board) : Prop :=
  Forall (Forall (λ s, s = EMPTY ∨ s ∈ ps)) b.

(** The player at index [current_player_index]. *)
Definition mover (g : Game) : option string :=
  players g !! Z.to_nat (current_player_index g).

(** What every reachable session satisfies. *)
Definition session_ok (g : Game) : Prop :=
  wf_board (board g)
  ∧ gravity (board g)
  ∧ two_players (players g)
  ∧ 0 <= current_player_index g < 2
  ∧ cells_of (players g) (board g)
  ∧ (game_over g = false ->
     winner g = None ∧ first_win (board g) = None ∧ ¬ top_row_taken (board g))
  ∧ (game_over g = true ->
     (∃ w, winner g = Some w ∧ four_in_a_row (board g) w ∧ mover g = Some w)
     ∨ (winner g = None ∧ top_row_taken (board g) ∧ first_win (board g) = None)).

(** The number of cells of the grid that hold [p]. *)
Definition pieces (p : string) (b : Board) : nat :=
  length (filter (λ s, s = p) (concat b)).

(** ** Input and the AI of [connect4_game.py] *)

(** Reading from the keyboard.  The input is the list of what the calls of
    [int(input(...))] give one after the other: [Some n], or [None] for a
    line that [int] refuses with [ValueError].  A read ends with a value and
    the unread rest, or finds the input at its end, where [input] raises
    [EOFError]; no method of the class catches that. *)
Inductive read (A : Type) : Type :=
| Got (a : A) (rest : list (option Z))
| EndOfInput.
Arguments Got {A} a rest.
Arguments EndOfInput {A}.

(** [get_player_input]: ask again until [is_valid_column] accepts. *)
Fixpoint get_player_input (inputs : list (option Z)) : M (read Z) :=
  match inputs with
  | [] => ret EndOfInput
  | None :: rest => get_player_input rest
  | Some col :: rest =>
      valid <- is_valid_column col ;;
      if valid then ret (Got col rest) else get_player_input rest
  end.

(** [try: body except Exception: handler], for a body that changes nothing
    before it raises. *)
Definition try_except {A} (body handler : M A) : M A :=
  fun g => match body g with
           | Ok r => Ok r
           | Raise _ => handler g
           end.

(** [get_ai_move], where [answer] is what building the [GameState] and
    calling [b.GetAIMove(...).column] comes to: a column or an exception. *)
Definition get_ai_move (answer : result Z) : M Z :=
  try_except
    (_ <- get_current_player ;;
     lift answer)
    (ret 3).

(** The rest of [play_turn] once the column is known. *)
Definition finish_turn (col : Z) (current_player : string) : M unit :=
  ok <- drop_piece col current_player ;;
  if negb ok then ret tt
  else
    w <- check_winner ;;
    if Py.truthy w then
      modify (set_game_over true) ;;
      modify (set_winner w)
    else
      full <- is_board_full ;;
      if full then modify (set_game_over true)
      else
        g <- get_self ;;
        modify (set_current_player_index
                  ((current_player_index g + 1) `mod` Z.of_nat (length (players g)))).

(** [play_turn] with its two sources of a column. *)
Definition play_turn_io (inputs : list (option Z)) (answer : result Z) : M (read unit) :=
  current_player <- get_current_player ;;
  ai <- is_ai_turn ;;
  if ai then
    col <- get_ai_move answer ;;
    finish_turn col current_player ;;
    ret (Got tt inputs)
  else
    r <- get_player_input inputs ;;
    match r with
    | Got col rest => finish_turn col current_player ;; ret (Got tt rest)
    | EndOfInput => ret EndOfInput
    end.

(** How a run of the game loop stands when it is left. *)
Inductive ended : Type :=
| GameOver (rest : list (option Z))
| StillRunning (rest : list (option Z))
| StdinClosed.

(** [play], one element of [answers] per pass of the loop: the AI's answer
    should that pass be an AI's turn.  The run is cut when [answers] ends. *)
Fixpoint play_io (answers : list (result Z)) (inputs : list (option Z)) : M ended :=
  match answers with
  | [] =>
      g <- get_self ;;
      ret (if game_over g then GameOver inputs else StillRunning inputs)
  | answer :: answers' =>
      g <- get_self ;;
      if game_over g then ret (GameOver inputs)
      else
        r <- play_turn_io inputs answer ;;
        match r with
        | Got _ rest => play_io answers' rest
        | EndOfInput => ret StdinClosed
        end
  end.


(** The column an AI turn plays: the AI's answer, or 3 when the call fails. *)
Definition ai_column (answer : result Z) : Z :=
  match answer with
  | Ok c => c
  | Raise _ => 3
  end.

(** An AI-vs-AI session after six moves into column 3. *)
Definition stuck_game : Game :=
  mkGame "ava"
    ((λ r, <[3%nat := if Z.even r then "a2" else "a1"]> blank_row) <$> Py.range ROWS)
    ["a1"; "a2"] 0 false None.

(** ** The moves of [connect4_integrated.py] *)

Module IntegratedMoves.
Import Integrated.

(** One cell of [convert_board_from_baml_format]. *)
Definition unconvert_cell (cell : string) : string :=
  if String.eqb cell "p1" then "x"
  else if String.eqb cell "a1" then "o"
  else " ".

Definition convert_board_from_baml_format (baml_board : Board) : Board :=
  (λ row : list string, unconvert_cell <$> row) <$> baml_board.

(** [gameboard[i][c] = v], on the list the caller passed in. *)
Definition set_at (gameboard : Board) (i c : Z) (v : string) : result Board :=
  row <-r Py.getitem gameboard i ;;
  row' <-r Py.setitem row c v ;;
  Py.setitem gameboard i row'.

(** The loop that lets a piece fall,
    [for i in range(5, -1, -1): if gameboard[i][c] == ' ': gameboard[i][c] = v; break],
    over the rows still to visit: [Some] of the new grid when the loop was
    left after writing, [None] when it ran to its end. *)
Fixpoint drop_rows (rows : list Z) (gameboard : Board) (c : Z) (v : string)
  : result (option Board) :=
  match rows with
  | [] => Ok None
  | i :: rows' =>
      x <-r at_ gameboard i c ;;
      if String.eqb x BLANK then
        b' <-r set_at gameboard i c v ;;
        Ok (Some b')
      else drop_rows rows' gameboard c v
  end.

(** The fallback of [make_ai_move]:
    [for col in range(7): if gameboard[0][col] == ' ': <let 'o' fall>; return]. *)
Fixpoint first_available (cols : list Z) (gameboard : Board) : result (option Board) :=
  match cols with
  | [] => Ok None
  | col :: cols' =>
      top <-r at_ gameboard 0 col ;;
      if String.eqb top BLANK then
        r <-r drop_rows (Py.range_down 5 (-1)) gameboard col "o" ;;
        match r with
        | Some b' => Ok (Some b')
        | None => first_available cols' gameboard
        end
      else first_available cols' gameboard
  end.

(** [make_ai_move], where [answer] is what building the [GameState] and
    [b.GetAIMove(...).column] come to.  The result is the grid as the
    function leaves it. *)
Definition make_ai_move (answer : result Z) (gameboard : Board) : result Board :=
  let attempt :=
    ai_column <-r answer ;;
    let playercolumnmove := ai_column + 1 in
    valid <-r (if (1 <=? playercolumnmove) && (playercolumnmove <=? 7)
               then top <-r at_ gameboard 0 (playercolumnmove - 1) ;;
                    Ok (String.eqb top BLANK)
               else Ok false) ;;
    if valid then
      r <-r drop_rows (Py.range_down 5 (-1)) gameboard (playercolumnmove - 1) "o" ;;
      Ok (default gameboard r)
    else
      r <-r first_available (Py.range 7) gameboard ;;
      Ok (default gameboard r) in
  match attempt with
  | Ok b' => Ok b'
  | Raise _ =>
      r <-r first_available (Py.range 7) gameboard ;;
      Ok (default gameboard r)
  end.

(** A line typed at the prompt of [makeamove], by what [isdigit] and [int]
    make of it. *)
Inductive line : Type :=
| Digits (n : Z)   (* [isdigit()] holds and [int] gives [n] *)
| NoInt            (* [isdigit()] holds and [int] raises [ValueError] *)
| NotDigits.       (* [isdigit()] does not hold *)

(** [makeamove] on the lines typed.  The result is the grid as the function
    leaves it and the unread lines, or [None] when the lines end before a
    move is accepted, where [input] raises [EOFError].  The function catches
    [KeyboardInterrupt] only. *)
Fixpoint makeamove (inputs : list line) (gameboard : Board) (player : string)
  : result (option (Board * list line)) :=
  match inputs with
  | [] => Ok None
  | NotDigits :: rest => makeamove rest gameboard player
  | NoInt :: _ => Raise ValueError
  | Digits playercolumnmove :: rest =>
      valid <-r (if (1 <=? playercolumnmove) && (playercolumnmove <=? 7)
                 then top <-r at_ gameboard 0 (playercolumnmove - 1) ;;
                      Ok (String.eqb top BLANK)
                 else Ok false) ;;
      if valid then
        r <-r drop_rows (Py.range_down 5 (-1)) gameboard (playercolumnmove - 1) player ;;
        Ok (Some (default gameboard r, rest))
      else makeamove rest gameboard player
  end.

(** A grid whose cells are ['p1'], ['a1'] or two blanks. *)
Definition baml_board (b : Board) : Prop :=
  Forall (Forall (λ s, s = "p1" ∨ s = "a1" ∨ s = EMPTY)) b.

End IntegratedMoves.

(** The blank cell of column [c] nearest to the bottom row, and the
    leftmost column whose top cell is blank. *)
Definition lowest_blank (b : Board) (c : Z) : option Z :=
  search (λ row, if owned b Integrated.BLANK row c then Some row else None)
         (Py.range_down 5 (-1)).

Definition first_free (b : Board) : option Z :=
  search (λ col, if owned b Integrated.BLANK 0 col then Some col else None)
         (Py.range 7).

(** The column [make_ai_move] plays: the AI's when that is on the board and
    not full, else the leftmost column that is not full. *)
Definition ai_choice (answer : result Z) (b : Board) : option Z :=
  match answer with
  | Ok a => if owned b Integrated.BLANK 0 a then Some a else first_free b
  | Raise _ => first_free b
  end.

(** A line that [makeamove] turns down on grid [b] and asks again. *)
Definition turned_down (b : Board) (e : IntegratedMoves.line) : Prop :=
  match e with
  | IntegratedMoves.Digits n => ¬ (1 <= n <= 7 ∧ cell b 0 (n - 1) = Some Integrated.BLANK)
  | IntegratedMoves.NoInt => False
  | IntegratedMoves.NotDigits => True
  end.

(** Player [p] holds four cells in a row of the 6x7 grid [b], decided. *)
Definition holds_four (b : Board) (p : string) : bool :=
  existsb (λ '(r, c, d),
             forallb (λ i, owned b p (r + d.1 * i) (c + d.2 * i)) [0; 1; 2; 3])
          scan_order.

(** A grid on which both players hold a four: x a column, o a row. *)
Definition xo_two_winners : Board :=
  [ ["x"; " "; " "; " "; " "; " "; " "];
    ["x"; " "; " "; " "; " "; " "; " "];
    ["x"; " "; " "; " "; " "; " "; " "];
    ["x"; " "; " "; " "; " "; " "; " "];
    [" "; " "; " "; " "; " "; " "; " "];
    [" "; "o"; "o"; "o"; "o"; " "; " "] ].

(** ** The game loop of [connect4_integrated.py] *)

Module IntegratedLoop.
Import Integrated IntegratedMoves.

(** [all(gameboard[0][col] != ' ' for col in cols)] *)
Fixpoint top_row_full (cols : list Z) (gameboard : Board) : result bool :=
  match cols with
  | [] => Ok true
  | col :: cols' =>
      top <-r at_ gameboard 0 col ;;
      if negb (String.eqb top BLANK) then top_row_full cols' gameboard else Ok false
  end.

(** Where [startgame] leaves its loop: at one of its four [break]s, or
    because [input] raises [EOFError] inside [makeamove], or because the
    run is cut. *)
Inductive left_at : Type :=
| YouWin
| DrawAfterYou
| AIWins
| DrawAfterAI
| InputEnds
| Cut.

(** [startgame], one element of [answers] per pass of the loop: what the
    AI answers in that pass.  The run is cut when [answers] ends.  The
    result says where the loop was left and gives the grid then. *)
Fixpoint startgame (answers : list (result Z)) (inputs : list line) (gameboard : Board)
  : result (left_at * Board) :=
  match answers with
  | [] => Ok (Cut, gameboard)
  | answer :: answers' =>
      m <-r makeamove inputs gameboard "x" ;;
      match m with
      | None => Ok (InputEnds, gameboard)
      | Some (gameboard, inputs') =>
          win <-r checkwin gameboard ;;
          if Py.truthy win then Ok (YouWin, gameboard)
          else
            draw <-r top_row_full (Py.range 7) gameboard ;;
            if draw then Ok (DrawAfterYou, gameboard)
            else
              gameboard <-r make_ai_move answer gameboard ;;
              win <-r checkwin gameboard ;;
              if Py.truthy win then Ok (AIWins, gameboard)
              else
                draw <-r top_row_full (Py.range 7) gameboard ;;
                if draw then Ok (DrawAfterAI, gameboard)
                else startgame answers' inputs' gameboard
      end
  end.

(** The grid the module starts with. *)
Definition gameboard : Board :=
  [ [" "; " "; " "; " "; " "; " "; " "];
    [" "; " "; " "; " "; " "; " "; " "];
    [" "; " "; " "; " "; " "; " "; " "];
    [" "; " "; " "; " "; " "; " "; " "];
    [" "; " "; " "; " "; " "; " "; " "];
    [" "; " "; " "; " "; " "; " "; " "] ].

(** The winner the engine records for each way out of the loop, whether
    the engine's game is over then, and who moved last. *)
Definition verdict (out : left_at) : option string :=
  match out with
  | YouWin => Some "p1"
  | AIWins => Some "a1"
  | _ => None
  end.

Definition is_break (out : left_at) : bool :=
  match out with
  | InputEnds | Cut => false
  | _ => true
  end.

Definition last_index (out : left_at) : Z :=
  match out with
  | AIWins | DrawAfterAI => 1
  | _ => 0
  end.

End IntegratedLoop.

(** The human-vs-AI session of the engine as [__init__] makes it. *)
Definition pva_game : Game := mkGame "pva" init_board ["p1"; "a1"] 0 false None.

(** Session [g] of the engine stands for grid [b] at the head of the loop of
    [startgame]: the human is to move. *)
Definition loop_head (b : Board) (g : Game) : Prop :=
  wf_board b ∧ Integrated.xo_board b
  ∧ board g = Integrated.convert_board_to_baml_format b
  ∧ session_ok g ∧ players g = ["p1"; "a1"]
  ∧ game_over g = false ∧ current_player_index g = 0.

(** Session [g] of the engine stands for grid [b] where the loop of
    [startgame] is left at [out]. *)
Definition loop_left (out : IntegratedLoop.left_at) (b : Board) (g : Game) : Prop :=
  wf_board b ∧ Integrated.xo_board b
  ∧ board g = Integrated.convert_board_to_baml_format b
  ∧ session_ok g ∧ players g = ["p1"; "a1"]
  ∧ game_over g = IntegratedLoop.is_break out
  ∧ winner g = IntegratedLoop.verdict out
  ∧ current_player_index g = IntegratedLoop.last_index out
  ∧ (∀ q, blank_four b q -> winner g = Some (Integrated.convert_cell q)).

(** A whole game of [connect4_integrated.py] that nobody wins: the lines
    the human types, the columns the AI answers, and the grid at the end. *)
Definition draw_lines : list IntegratedMoves.line :=
  IntegratedMoves.Digits
    <$> [3; 1; 1; 1; 2; 2; 2; 3; 3; 4; 4; 4; 7; 5; 5; 5; 6; 6; 6; 7; 7].

Definition draw_answers : list (result Z) :=
  Ok <$> [0; 0; 0; 1; 1; 1; 2; 2; 2; 3; 3; 3; 4; 4; 4; 5; 5; 5; 6; 6; 6].

Definition xo_draw_board : Board :=
  (λ row : list string, (λ s, if String.eqb s p1 then "x" else "o") <$> row) <$> draw_board.

(** ** Choosing the mode *)

(** [choose_game_mode], on the list of what [input(...).strip()] gives call
    after call.  The result is the mode returned and the unread input;
    [None] when the input ends first, where [input] raises [EOFError]. *)
Fixpoint choose_game_mode (choices : list string) : option (string * list string) :=
  match choices with
  | [] => None
  | choice :: rest =>
      if String.eqb choice "1" then Some ("pvp", rest)
      else if String.eqb choice "2" then Some ("ava", rest)
      else if String.eqb choice "3" then Some ("pva", rest)
      else choose_game_mode rest
  end.

(** The answers [choose_game_mode] takes, each with the mode it stands for. *)
Definition mode_choices : list (string * string) :=
  [("1", "pvp"); ("2", "ava"); ("3", "pva")].

(** * Part II: facts about the embedding *)

(** ** The embedding runs *)

Example init_pvp : init "PvP" = Ok new_game.
Proof. reflexivity. Qed.

Example drop_first :
  (drop_piece 0 p1 ;; drop_piece 0 p2 ;; check_winner) new_game
  = Ok (None, set_board
         [ [EMPTY; EMPTY; EMPTY; EMPTY; EMPTY; EMPTY; EMPTY];
           [EMPTY; EMPTY; EMPTY; EMPTY; EMPTY; EMPTY; EMPTY];
           [EMPTY; EMPTY; EMPTY; EMPTY; EMPTY; EMPTY; EMPTY];
           [EMPTY; EMPTY; EMPTY; EMPTY; EMPTY; EMPTY; EMPTY];
           [p2; EMPTY; EMPTY; EMPTY; EMPTY; EMPTY; EMPTY];
           [p1; EMPTY; EMPTY; EMPTY; EMPTY; EMPTY; EMPTY] ] new_game).
Proof. vm_compute. reflexivity. Qed.

(** Three in a row with a gap before the fourth piece is no win. *)
Example gap_no_winner :
  check_winner (game_on (replicate 5 blank_row ++ [[p1; p1; p1; EMPTY; p1; EMPTY; EMPTY]])%list)
  = Ok (None, game_on (replicate 5 blank_row ++ [[p1; p1; p1; EMPTY; p1; EMPTY; EMPTY]])%list).
Proof. vm_compute. reflexivity. Qed.

(** Two games played by the rules in which p1 completes a diagonal, one
    going down to the right from [(2, 0)], one going down to the left from
    [(2, 6)]; p2's pieces carry p1's. *)
Example diagonal_down_right_game :
  ∃ g, play [3; 2; 2; 1; 6; 1; 1; 0; 6; 0; 5; 0; 0] new_game = Ok (tt, g)
       ∧ game_over g = true ∧ winner g = Some p1
       ∧ run_owner (board g) 2 0 (1, 1) = Some p1
       ∧ gravityb (board g) = true.
Proof. eexists. vm_compute. by repeat split. Qed.

Example diagonal_down_left_game :
  ∃ g, play [3; 4; 4; 5; 0; 5; 5; 6; 0; 6; 1; 6; 6] new_game = Ok (tt, g)
       ∧ game_over g = true ∧ winner g = Some p1
       ∧ run_owner (board g) 2 6 (1, -1) = Some p1
       ∧ gravityb (board g) = true.
Proof. eexists. vm_compute. by repeat split. Qed.

(** Rows are separate lists, as [__init__] builds them: writing one cell
    changes one row. *)
Example board_set_one_row :
  board_set 5 0 p1 new_game = Ok (tt, game_on (bottom_row_filled p1 1)).
Proof. vm_compute. reflexivity. Qed.

(** ** The monad and Python lists *)

Section monad_facts.
Context {A B : Type}.

Lemma bind_ok (m : M A) (k : A -> M B) g a g' :
  m g = Ok (a, g') -> bind m k g = k a g'.
Proof. intros H. unfold bind. by rewrite H. Qed.

Lemma bind_raise (m : M A) (k : A -> M B) g e :
  m g = Raise e -> bind m k g = Raise e.
Proof. intros H. unfold bind. by rewrite H. Qed.

Lemma bind_inv (m : M A) (k : A -> M B) g b g'' :
  bind m k g = Ok (b, g'') -> ∃ a g', m g = Ok (a, g') ∧ k a g' = Ok (b, g'').
Proof.
  unfold bind. destruct (m g) as [[a g']|e]; [|done]. eauto.
Qed.
End monad_facts.

Section py_facts.
Context {A : Type}.
Implicit Types l : list A.

Lemma norm_index_nonneg n i :
  0 <= i -> Py.norm_index n i = if i <? Z.of_nat n then Some (Z.to_nat i) else None.
Proof.
  intros Hi. unfold Py.norm_index.
  destruct (Z.ltb_spec i 0); [lia|].
  destruct (Z.leb_spec 0 i); [|lia]. done.
Qed.

Lemma getitem_lookup l i x :
  0 <= i -> l !! Z.to_nat i = Some x -> Py.getitem l i = Ok x.
Proof.
  intros Hi Hx. unfold Py.getitem. rewrite norm_index_nonneg by done.
  apply lookup_lt_Some in Hx as Hlt.
  destruct (Z.ltb_spec i (Z.of_nat (length l))); [|lia]. by rewrite Hx.
Qed.

Lemma getitem_ge l i :
  Z.of_nat (length l) <= i -> Py.getitem l i = Raise IndexError.
Proof.
  intros Hi. unfold Py.getitem. rewrite norm_index_nonneg by lia.
  destruct (Z.ltb_spec i (Z.of_nat (length l))); [lia|done].
Qed.

Lemma setitem_lookup l i x y :
  0 <= i -> l !! Z.to_nat i = Some y -> Py.setitem l i x = Ok (<[Z.to_nat i := x]> l).
Proof.
  intros Hi Hy. unfold Py.setitem. rewrite norm_index_nonneg by done.
  apply lookup_lt_Some in Hy as Hlt.
  destruct (Z.ltb_spec i (Z.of_nat (length l))); [done|lia].
Qed.
End py_facts.

Lemma range_offsets : Py.range2 1 4 = [1; 2; 3].
Proof. reflexivity. Qed.

Lemma range_down_ROWS : Py.range_down (ROWS - 1) (-1) = [5; 4; 3; 2; 1; 0].
Proof. reflexivity. Qed.

Lemma elem_of_range n x : x ∈ Py.range n ↔ 0 <= x < n.
Proof. unfold Py.range. rewrite elem_of_seqZ. lia. Qed.

Lemma elem_of_range_down a b x : x ∈ Py.range_down a b ↔ b < x <= a.
Proof. unfold Py.range_down. rewrite elem_of_reverse, elem_of_seqZ. lia. Qed.

(** ** Cells of a 6x7 board *)

Section cells.
Implicit Types (b : Board) (r c : Z).

Lemma cell_Some_nonneg b r c s : cell b r c = Some s -> 0 <= r ∧ 0 <= c.
Proof.
  unfold cell. destruct (Z.leb_spec 0 r), (Z.leb_spec 0 c); simpl; try done.
Qed.

Lemma cell_lookup b r c :
  0 <= r -> 0 <= c -> cell b r c = b !! Z.to_nat r ≫= λ row, row !! Z.to_nat c.
Proof.
  intros. unfold cell.
  destruct (Z.leb_spec 0 r), (Z.leb_spec 0 c); simpl; try lia; done.
Qed.

Lemma wf_row b i row : wf_board b -> b !! i = Some row -> length row = Z.to_nat COLS.
Proof.
  intros [_ Hall] Hi. rewrite Forall_lookup in Hall. by apply (Hall i).
Qed.

Lemma cell_is_Some b r c :
  wf_board b -> is_Some (cell b r c) ↔ (0 <= r < ROWS ∧ 0 <= c < COLS).
Proof.
  intros Hwf. split.
  - intros [s Hs]. destruct (cell_Some_nonneg _ _ _ _ Hs) as [Hr Hc].
    rewrite cell_lookup in Hs by done.
    destruct (b !! Z.to_nat r) as [row|] eqn:Hrow; [|done]. simpl in Hs.
    apply lookup_lt_Some in Hrow as Hlt. apply lookup_lt_Some in Hs as Hlt'.
    rewrite (wf_row _ _ _ Hwf Hrow) in Hlt'. destruct Hwf as [Hlen _].
    rewrite Hlen in Hlt. lia.
  - intros [Hr Hc]. rewrite cell_lookup by lia.
    destruct (lookup_lt_is_Some_2 b (Z.to_nat r)) as [row Hrow].
    { destruct Hwf as [-> _]. lia. }
    rewrite Hrow. simpl. apply lookup_lt_is_Some_2.
    rewrite (wf_row _ _ _ Hwf Hrow). lia.
Qed.

Lemma cell_None b r c :
  wf_board b -> ¬ (0 <= r < ROWS ∧ 0 <= c < COLS) -> cell b r c = None.
Proof.
  intros Hwf Hn. apply eq_None_not_Some. by rewrite cell_is_Some.
Qed.

Lemma board_get_cell g r c s :
  cell (board g) r c = Some s -> board_get r c g = Ok (s, g).
Proof.
  intros Hs. destruct (cell_Some_nonneg _ _ _ _ Hs) as [Hr Hc].
  rewrite cell_lookup in Hs by done.
  destruct (board g !! Z.to_nat r) as [row|] eqn:Hrow; [|done]. simpl in Hs.
  unfold board_get, bind, get_self, lift.
  rewrite (getitem_lookup _ _ _ Hr Hrow).
  by rewrite (getitem_lookup _ _ _ Hc Hs).
Qed.

Lemma board_set_cell g r c s v :
  cell (board g) r c = Some s ->
  board_set r c v g = Ok (tt, set_board (place (board g) r c v) g).
Proof.
  intros Hs. destruct (cell_Some_nonneg _ _ _ _ Hs) as [Hr Hc].
  rewrite cell_lookup in Hs by done.
  destruct (board g !! Z.to_nat r) as [row|] eqn:Hrow; [|done]. simpl in Hs.
  unfold board_set, bind, get_self, lift, modify.
  rewrite (getitem_lookup _ _ _ Hr Hrow).
  rewrite (setitem_lookup _ _ _ _ Hc Hs).
  rewrite (setitem_lookup _ _ _ _ Hr Hrow).
  do 3 f_equal. unfold place.
  apply list_eq. intros i. destruct (decide (i = Z.to_nat r)) as [->|Hne].
  - rewrite list_lookup_insert_eq by (by eapply lookup_lt_Some).
    by rewrite list_lookup_alter_eq, Hrow.
  - by rewrite list_lookup_insert_ne, list_lookup_alter_ne.
Qed.

Lemma place_wf b r c v : wf_board b -> wf_board (place b r c v).
Proof.
  intros [Hlen Hall]. split; unfold place.
  - by rewrite length_alter.
  - apply Forall_alter; [done|]. intros row _ Hrow. by rewrite length_insert.
Qed.

Lemma cell_place_eq b r c v s :
  cell b r c = Some s -> cell (place b r c v) r c = Some v.
Proof.
  intros Hs. destruct (cell_Some_nonneg _ _ _ _ Hs) as [Hr Hc].
  rewrite cell_lookup in * by done. unfold place.
  rewrite list_lookup_alter_eq.
  destruct (b !! Z.to_nat r) as [row|]; [|done]. simpl in *.
  apply list_lookup_insert_eq. by eapply lookup_lt_Some.
Qed.

Lemma cell_place_ne b r c v r' c' :
  0 <= r -> 0 <= c -> (r', c') ≠ (r, c) ->
  cell (place b r c v) r' c' = cell b r' c'.
Proof.
  intros Hr Hc Hne. unfold cell.
  destruct (Z.leb_spec 0 r'), (Z.leb_spec 0 c'); simpl; try done.
  unfold place. destruct (decide (Z.to_nat r' = Z.to_nat r)) as [Heq|Hner].
  - rewrite Heq, list_lookup_alter_eq.
    destruct (b !! Z.to_nat r) as [row|]; [|done]. simpl.
    apply list_lookup_insert_ne. intros Heq'.
    apply Hne. f_equal; lia.
  - by rewrite list_lookup_alter_ne.
Qed.
End cells.

(** ** Searches and loops *)

Section search_facts.
Context {A R : Type}.
Implicit Types (f : A -> option R) (xs : list A).

Lemma search_nil f : search f [] = None.
Proof. done. Qed.

Lemma search_cons f x xs :
  search f (x :: xs) = match f x with Some r => Some r | None => search f xs end.
Proof. unfold search. simpl. by destruct (f x). Qed.

Lemma search_app f xs ys :
  search f (xs ++ ys) = match search f xs with Some r => Some r | None => search f ys end.
Proof.
  induction xs as [|x xs IH]; [done|].
  rewrite <- app_comm_cons, !search_cons. by destruct (f x).
Qed.

Lemma search_Some f xs r :
  search f xs = Some r -> ∃ x, x ∈ xs ∧ f x = Some r.
Proof.
  induction xs as [|x xs IH]; [done|]. rewrite search_cons.
  destruct (f x) as [r'|] eqn:Hx.
  - intros [= <-]. exists x. split; [left|done].
  - intros (y & Hy & Hfy)%IH. exists y. split; [by right|done].
Qed.

Lemma search_None f xs :
  search f xs = None ↔ ∀ x, x ∈ xs -> f x = None.
Proof.
  induction xs as [|x xs IH].
  - split; [|done]. intros _ x Hx. by apply elem_of_nil in Hx.
  - rewrite search_cons. split.
    + destruct (f x) eqn:Hx; [done|]. intros Hs y [->|Hy]%elem_of_cons; [done|].
      by apply IH.
    + intros Hall. rewrite (Hall x) by left. apply IH. intros y Hy.
      apply Hall. by right.
Qed.

Lemma search_is_Some f xs :
  is_Some (search f xs) ↔ ∃ x, x ∈ xs ∧ is_Some (f x).
Proof.
  split.
  - intros [r (x & Hx & Hr)%search_Some]. exists x. by rewrite Hr.
  - intros (x & Hx & r & Hr). destruct (search f xs) eqn:Hs; [done|].
    rewrite search_None in Hs. specialize (Hs x Hx). congruence.
Qed.

Lemma search_ext f f' xs :
  (∀ x, x ∈ xs -> f x = f' x) -> search f xs = search f' xs.
Proof.
  induction xs as [|x xs IH]; [done|]. intros Hext.
  rewrite !search_cons, (Hext x) by left.
  rewrite IH; [done|]. intros y Hy. apply Hext. by right.
Qed.
End search_facts.

Lemma search_bind {A B R} (f : B -> option R) (k : A -> list B) (xs : list A) :
  search f (xs ≫= k) = search (λ x, search f (k x)) xs.
Proof.
  induction xs as [|x xs IH]; [done|].
  rewrite bind_cons, search_app, search_cons, IH. done.
Qed.

(** A loop that only looks for something: the body leaves the object as it
    is and either returns or goes on. *)
Lemma for_in_search {A R} (xs : list A) (body : A -> unit -> M (ctl unit R))
    (f : A -> option R) g :
  (∀ x, x ∈ xs -> body x tt g = Ok (from_option Return (Next tt) (f x), g)) ->
  for_in xs tt body g = Ok (from_option inr (inl tt) (search f xs), g).
Proof.
  induction xs as [|x xs IH]; intros Hbody; [done|].
  simpl. rewrite (bind_ok _ _ _ _ _ (Hbody x ltac:(left))), search_cons.
  destruct (f x) as [r|]; [done|]. simpl. apply IH.
  intros y Hy. apply Hbody. by right.
Qed.

(** ** What [check_winner] computes *)

Section check_winner_facts.
Variable g : Game.
Hypothesis Hwf : wf_board (board g).

Lemma same_owner r c p :
  (if (0 <=? r) && (r <? ROWS) && (0 <=? c) && (c <? COLS)
   then x <- board_get r c ;; ret (String.eqb x p)
   else ret false) g = Ok (owned (board g) p r c, g).
Proof.
  unfold owned.
  destruct (Z.leb_spec 0 r), (Z.ltb_spec r ROWS), (Z.leb_spec 0 c),
           (Z.ltb_spec c COLS); simpl;
    try (rewrite cell_None by (done || lia); done).
  destruct (proj2 (cell_is_Some (board g) r c Hwf)) as [s Hs]; [lia|].
  rewrite (bind_ok _ _ _ _ _ (board_get_cell _ _ _ _ Hs)). by rewrite Hs.
Qed.

Lemma count_loop row col dr dc p :
  ∃ count,
    for_in (R := option string) (Py.range2 1 4) 1 (fun i count =>
      let r := row + dr * i in
      let c := col + dc * i in
      same <- (if (0 <=? r) && (r <? ROWS) && (0 <=? c) && (c <? COLS)
               then x <- board_get r c ;; ret (String.eqb x p)
               else ret false) ;;
      if same then ret (Next (count + 1)) else ret (Break count)) g
    = Ok (inl count, g)
    ∧ (4 <=? count) = forallb (λ i, owned (board g) p (row + dr * i) (col + dc * i)) [1; 2; 3].
Proof.
  rewrite range_offsets. cbn [for_in forallb].
  unfold bind at 1. rewrite (bind_ok _ _ _ _ _ (same_owner _ _ _)).
  destruct (owned (board g) p (row + dr * 1) (col + dc * 1)); [|by eexists].
  unfold ret at 1. cbv beta iota.
  unfold bind at 1. rewrite (bind_ok _ _ _ _ _ (same_owner _ _ _)).
  destruct (owned (board g) p (row + dr * 2) (col + dc * 2)); [|by eexists].
  unfold ret at 1. cbv beta iota.
  unfold bind at 1. rewrite (bind_ok _ _ _ _ _ (same_owner _ _ _)).
  destruct (owned (board g) p (row + dr * 3) (col + dc * 3)); by eexists.
Qed.

Lemma check_winner_scan : check_winner g = Ok (first_win (board g), g).
Proof.
  unfold check_winner.
  erewrite bind_ok; last first.
  { apply (for_in_search _ _ (λ row,
      search (λ col, Some <$> search (run_owner (board g) row col) directions)
             (Py.range COLS))).
    intros row Hrow%elem_of_range.
    erewrite bind_ok; last first.
    { apply (for_in_search _ _ (λ col,
        Some <$> search (run_owner (board g) row col) directions)).
      intros col Hcol%elem_of_range.
      destruct (proj2 (cell_is_Some (board g) row col Hwf)) as [p Hp]; [done|].
      rewrite (bind_ok _ _ _ _ _ (board_get_cell _ _ _ _ Hp)).
      destruct (String.eqb p EMPTY) eqn:Hpe.
      { rewrite (search_ext _ (λ _, None)).
        - by rewrite (proj2 (search_None _ _)).
        - intros d _. unfold run_owner. by rewrite Hp, Hpe. }
      rewrite (bind_ok _ _ _ _ _ (board_get_cell _ _ _ _ Hp)).
      erewrite bind_ok; last first.
      { apply (for_in_search _ _ (λ d, Some <$> run_owner (board g) row col d)).
        intros [dr dc] _.
        destruct (count_loop row col dr dc p) as (count & Hloop & Hcount).
        rewrite (bind_ok _ _ _ _ _ Hloop). cbn [after].
        unfold run_owner. rewrite Hp, Hpe, Hcount. cbn [fst snd].
        by destruct (forallb _ [1; 2; 3]). }
      assert (Hfmap : ∀ xs, search (λ d, Some <$> run_owner (board g) row col d) xs
                      = Some <$> search (run_owner (board g) row col) xs).
      { induction xs as [|d xs IH]; [done|].
        rewrite !search_cons, IH. by destruct (run_owner _ _ _ d). }
      rewrite Hfmap. by destruct (search _ directions). }
    by destruct (search _ (Py.range COLS)). }
  unfold first_win, scan_order. rewrite search_bind.
  assert (Hrows : ∀ rows,
    search (λ row, search (λ col, Some <$> search (run_owner (board g) row col) directions)
                          (Py.range COLS)) rows
    = Some <$> search (λ row, search (λ '(row, col, d), run_owner (board g) row col d)
                 (col ← Py.range COLS; d ← directions; [(row, col, d)])) rows).
  { induction rows as [|row rows IH]; [done|].
    rewrite !search_cons, IH. rewrite search_bind.
    assert (Hcols : ∀ cols,
      search (λ col, Some <$> search (run_owner (board g) row col) directions) cols
      = Some <$> search (λ col, search (λ '(row, col, d), run_owner (board g) row col d)
                   (d ← directions; [(row, col, d)])) cols).
    { induction cols as [|col cols IHc]; [done|].
      rewrite !search_cons, IHc, search_bind.
      rewrite (search_ext (λ d, search _ [(row, col, d)])
                          (run_owner (board g) row col)).
      - by destruct (search _ directions).
      - intros d _. rewrite search_cons. by destruct (run_owner _ _ _ d). }
    rewrite Hcols. by destruct (search _ (Py.range COLS)). }
  rewrite Hrows. by destruct (search _ (Py.range ROWS)).
Qed.
End check_winner_facts.

Lemma owned_true b p r c : owned b p r c = true ↔ cell b r c = Some p.
Proof.
  unfold owned. destruct (cell b r c) as [x|]; [|done].
  rewrite String.eqb_eq. naive_solver.
Qed.

Lemma run_4 b p r c d :
  run b p r c d 4 ↔
    cell b r c = Some p ∧
    forallb (λ i, owned b p (r + d.1 * i) (c + d.2 * i)) [1; 2; 3] = true.
Proof.
  cbn [forallb]. rewrite !andb_true_iff, !owned_true. split.
  - intros Hrun. pose proof (Hrun 0 ltac:(lia)) as H0.
    rewrite !Z.mul_0_r, !Z.add_0_r in H0.
    repeat split; (done || apply Hrun; lia).
  - intros (H0 & H1 & H2 & H3 & _) i Hi.
    assert (i = 0 ∨ i = 1 ∨ i = 2 ∨ i = 3) as Hcases by lia.
    destruct Hcases as [->|[->|[->| ->]]]; rewrite ?Z.mul_0_r, ?Z.add_0_r; done.
Qed.

Lemma run_owner_Some b r c d p :
  run_owner b r c d = Some p ↔ p ≠ EMPTY ∧ run b p r c d 4.
Proof.
  rewrite run_4. unfold run_owner.
  destruct (cell b r c) as [q|]; [|split; [done|intros (_ & [=] & _)]].
  destruct (String.eqb q EMPTY) eqn:Hq.
  { apply String.eqb_eq in Hq as ->. split; [done|]. intros (Hp & [= <-] & _). done. }
  apply String.eqb_neq in Hq.
  destruct (forallb _ [1; 2; 3]) eqn:Hall.
  - split; [intros [= <-]; done|]. intros (_ & [= ->] & _). done.
  - split; [done|]. intros (_ & [= ->] & Hp). congruence.
Qed.

Lemma elem_of_scan_order r c d :
  (r, c, d) ∈ scan_order ↔ 0 <= r < ROWS ∧ 0 <= c < COLS ∧ d ∈ directions.
Proof.
  unfold scan_order. rewrite list_elem_of_bind. split.
  - intros (r' & (c' & (d' & Hd%list_elem_of_singleton & Hd')%list_elem_of_bind
                     & Hc%elem_of_range)%list_elem_of_bind & Hr%elem_of_range).
    by simplify_eq.
  - intros (Hr & Hc & Hd). exists r. rewrite elem_of_range. split; [|done].
    apply list_elem_of_bind. exists c. rewrite elem_of_range. split; [|done].
    apply list_elem_of_bind. exists d. split; [left|done].
Qed.

Lemma first_win_Some b p :
  first_win b = Some p ->
  ∃ r c d, (r, c, d) ∈ scan_order ∧ run_owner b r c d = Some p.
Proof.
  intros ([[r c] d] & Hin & Hp)%search_Some. eauto.
Qed.

Lemma first_win_sound b p : first_win b = Some p -> four_in_a_row b p.
Proof.
  intros (r & c & d & Hin%elem_of_scan_order & [Hp Hrun]%run_owner_Some)%first_win_Some.
  split; [done|]. exists r, c, d, 4. split_and!; [apply Hin|lia|done].
Qed.

Lemma first_win_complete b p :
  wf_board b -> four_in_a_row b p -> is_Some (first_win b).
Proof.
  intros Hwf (Hp & r & c & d & n & Hd & Hn & Hrun).
  apply search_is_Some. exists (r, c, d). split.
  - apply elem_of_scan_order.
    pose proof (Hrun 0 ltac:(lia)) as H0. rewrite !Z.mul_0_r, !Z.add_0_r in H0.
    destruct (proj1 (cell_is_Some b r c Hwf)) as [Hr Hc]; [by rewrite H0|done].
  - exists p. apply run_owner_Some. split; [done|].
    intros i Hi. apply Hrun. lia.
Qed.

(** Whether some player has four in a row is decided by [first_win]. *)
Lemma four_in_a_row_first_win b :
  wf_board b -> (∃ p, four_in_a_row b p) ↔ is_Some (first_win b).
Proof.
  intros Hwf. split.
  - intros [p Hp]. by eapply first_win_complete.
  - intros [p Hp]. exists p. by apply first_win_sound.
Qed.

(** ** What [is_valid_column] and [drop_piece] do *)

Lemma owned_false b p r c s : cell b r c = Some s -> s ≠ p -> owned b p r c = false.
Proof.
  intros Hs Hne. unfold owned. rewrite Hs. by apply String.eqb_neq.
Qed.

Lemma is_valid_column_outside g col :
  ¬ (0 <= col < COLS) -> is_valid_column col g = Ok (false, g).
Proof.
  intros Hcol. unfold is_valid_column.
  destruct (Z.leb_spec 0 col), (Z.ltb_spec col COLS); simpl; (done || lia).
Qed.

Lemma is_valid_column_top g col s :
  col < COLS -> cell (board g) 0 col = Some s ->
  is_valid_column col g = Ok (String.eqb s EMPTY, g).
Proof.
  intros Hcol Hs. unfold is_valid_column.
  destruct (cell_Some_nonneg _ _ _ _ Hs) as [_ H0].
  destruct (Z.leb_spec 0 col), (Z.ltb_spec col COLS); try lia. cbn [andb].
  by rewrite (bind_ok _ _ _ _ _ (board_get_cell _ _ _ _ Hs)).
Qed.

Lemma is_valid_column_wf g col :
  wf_board (board g) ->
  is_valid_column col g = Ok (owned (board g) EMPTY 0 col, g).
Proof.
  intros Hwf. destruct (cell (board g) 0 col) as [s|] eqn:Hs.
  - rewrite (is_valid_column_top _ _ s); [|by apply (cell_is_Some _ 0 col Hwf)|done].
    unfold owned. by rewrite Hs.
  - unfold owned. rewrite Hs. apply is_valid_column_outside. intros Hcol.
    destruct (proj2 (cell_is_Some (board g) 0 col Hwf)) as [s' Hs']; [done|].
    congruence.
Qed.

Lemma drop_piece_rejected g col p :
  is_valid_column col g = Ok (false, g) -> drop_piece col p g = Ok (false, g).
Proof.
  intros Hv. unfold drop_piece. by rewrite (bind_ok _ _ _ _ _ Hv).
Qed.

(** The loop of [drop_piece] over any rows of the board. *)
Lemma drop_loop g col p rows :
  wf_board (board g) -> 0 <= col < COLS ->
  (∀ row, row ∈ rows -> 0 <= row < ROWS) ->
  for_in rows tt (fun row _ =>
      c <- board_get row col ;;
      if String.eqb c EMPTY then
        board_set row col p ;; ret (Return true)
      else ret (Next tt)) g
  = Ok (match search (λ row, if owned (board g) EMPTY row col then Some row else None) rows with
        | Some r => (inr true, set_board (place (board g) r col p) g)
        | None => (inl tt, g)
        end).
Proof.
  intros Hwf Hcol. induction rows as [|row rows IH]; intros Hrows; [done|].
  destruct (proj2 (cell_is_Some (board g) row col Hwf)) as [s Hs].
  { split; [|done]. apply Hrows. left. }
  cbn [for_in]. unfold bind at 1.
  rewrite (bind_ok _ _ _ _ _ (board_get_cell _ _ _ _ Hs)).
  rewrite search_cons. unfold owned at 1. rewrite Hs.
  destruct (String.eqb s EMPTY).
  - by rewrite (bind_ok _ _ _ _ _ (board_set_cell _ _ _ _ p Hs)).
  - unfold ret at 1. cbv beta iota. apply IH. intros r Hr. apply Hrows. by right.
Qed.

Lemma lowest_empty_spec b col r :
  lowest_empty b col = Some r ↔
    0 <= r < ROWS ∧ cell b r col = Some EMPTY ∧
    ∀ r', r < r' < ROWS -> cell b r' col ≠ Some EMPTY.
Proof.
  unfold lowest_empty. rewrite range_down_ROWS, !search_cons, search_nil.
  split.
  - destruct (owned b EMPTY 5 col) eqn:H5;
      [|destruct (owned b EMPTY 4 col) eqn:H4;
        [|destruct (owned b EMPTY 3 col) eqn:H3;
          [|destruct (owned b EMPTY 2 col) eqn:H2;
            [|destruct (owned b EMPTY 1 col) eqn:H1;
              [|destruct (owned b EMPTY 0 col) eqn:H0; [|done]]]]]];
      intros [= <-]; (split; [done|]); (split; [by apply owned_true|]);
      intros r' Hr' Hc; unfold ROWS in Hr';
      assert (r' = 1 ∨ r' = 2 ∨ r' = 3 ∨ r' = 4 ∨ r' = 5) as Hcases by lia;
      destruct Hcases as [->|[->|[->|[->| ->]]]]; try lia;
      apply owned_true in Hc; congruence.
  - intros (Hr & Hc%owned_true & Hbelow). unfold ROWS in *.
    assert (Hnot : ∀ r', r < r' < 6 -> owned b EMPTY r' col = false).
    { intros r' Hr'. destruct (owned b EMPTY r' col) eqn:Ho; [|done].
      apply owned_true in Ho. by destruct (Hbelow r' Hr'). }
    assert (r = 0 ∨ r = 1 ∨ r = 2 ∨ r = 3 ∨ r = 4 ∨ r = 5) as Hcases by lia.
    destruct Hcases as [->|[->|[->|[->|[->| ->]]]]];
      rewrite ?(Hnot 5), ?(Hnot 4), ?(Hnot 3), ?(Hnot 2), ?(Hnot 1) by lia;
      by rewrite Hc.
Qed.

Lemma lowest_empty_top b col :
  wf_board b -> cell b 0 col = Some EMPTY -> is_Some (lowest_empty b col).
Proof.
  intros Hwf Htop. destruct (lowest_empty b col) as [r|] eqn:Hr; [done|].
  unfold lowest_empty in Hr. rewrite search_None in Hr.
  specialize (Hr 0). rewrite elem_of_range_down in Hr.
  apply owned_true in Htop. rewrite Htop in Hr. unfold ROWS in Hr.
  discriminate Hr. lia.
Qed.

Lemma drop_piece_accepted g col p :
  wf_board (board g) -> cell (board g) 0 col = Some EMPTY ->
  ∃ r, lowest_empty (board g) col = Some r ∧
       drop_piece col p g = Ok (true, set_board (place (board g) r col p) g).
Proof.
  intros Hwf Htop. destruct (lowest_empty_top _ _ Hwf Htop) as [r Hr].
  exists r. split; [done|]. unfold drop_piece.
  assert (Hcol : 0 <= col < COLS).
  { apply (cell_is_Some (board g) 0 col Hwf). by rewrite Htop. }
  rewrite (bind_ok _ _ _ _ _ (is_valid_column_top _ _ _ (proj2 Hcol) Htop)).
  rewrite String.eqb_refl. cbn [negb].
  pose proof (drop_loop g col p (Py.range_down (ROWS - 1) (-1)) Hwf Hcol) as Hloop.
  fold (lowest_empty (board g) col) in Hloop. rewrite Hr in Hloop.
  rewrite (bind_ok _ _ _ _ _ (Hloop ltac:(intros row Hrow%elem_of_range_down; lia))).
  done.
Qed.

(** [drop_piece] on a 6x7 board, in one equation. *)
Lemma drop_piece_wf g col p :
  wf_board (board g) ->
  drop_piece col p g =
    Ok (match (if owned (board g) EMPTY 0 col then lowest_empty (board g) col else None) with
        | Some r => (true, set_board (place (board g) r col p) g)
        | None => (false, g)
        end).
Proof.
  intros Hwf. destruct (owned (board g) EMPTY 0 col) eqn:Htop.
  - apply owned_true in Htop.
    destruct (drop_piece_accepted g col p Hwf Htop) as (r & -> & ->). done.
  - apply drop_piece_rejected. by rewrite is_valid_column_wf, Htop.
Qed.

(** ** Gravity *)

Lemma cell_init_board r c s : cell init_board r c = Some s -> s = EMPTY.
Proof.
  intros Hs. destruct (cell_Some_nonneg _ _ _ _ Hs) as [Hr Hc].
  rewrite cell_lookup in Hs by done. unfold init_board in Hs.
  rewrite (list_lookup_fmap _ (Py.range ROWS) (Z.to_nat r)) in Hs.
  destruct (Py.range ROWS !! Z.to_nat r); [|done].
  cbn [fmap option_fmap option_map mbind option_bind] in Hs.
  rewrite (list_lookup_fmap _ (Py.range COLS) (Z.to_nat c)) in Hs.
  destruct (Py.range COLS !! Z.to_nat c); simpl in Hs; congruence.
Qed.

Lemma init_board_wf : wf_board init_board.
Proof. split; [done|]. by repeat constructor. Qed.

Lemma gravity_init_board : gravity init_board.
Proof. intros r r' c s Hs Hne. by apply cell_init_board in Hs. Qed.

Lemma gravity_place b r col p :
  wf_board b -> gravity b -> lowest_empty b col = Some r ->
  gravity (place b r col p).
Proof.
  intros Hwf Hg (Hr & Hc & Hlow)%lowest_empty_spec.
  assert (Hcol : 0 <= col < COLS).
  { apply (cell_is_Some b r col Hwf). by rewrite Hc. }
  intros r1 r1' c s Hs Hne Hlt.
  destruct (decide ((r1', c) = (r, col))) as [[= -> ->]|Hne'].
  - rewrite cell_place_ne in Hs by (lia || intros [= ?]; lia).
    destruct (Hg r1 r col s Hs Hne Hlt Hc).
  - rewrite (cell_place_ne _ _ _ _ r1' c) by (lia || done).
    destruct (decide ((r1, c) = (r, col))) as [[= -> ->]|Hne1].
    + by apply Hlow.
    + rewrite cell_place_ne in Hs by (lia || done). by eapply Hg.
Qed.

Lemma init_board_fresh mode0 g : init mode0 = Ok g -> board g = init_board.
Proof. unfold init. intros Hg. repeat case_match; by simplify_eq. Qed.

(** ** Grids written out cell by cell *)

Lemma drop_piece_to b col p r b' :
  wf_board b -> cell b 0 col = Some EMPTY ->
  lowest_empty b col = Some r -> place b r col p = b' ->
  drop_piece col p (game_on b) = Ok (true, game_on b').
Proof.
  intros Hwf Htop Hr <-.
  destruct (drop_piece_accepted (game_on b) col p Hwf Htop) as (r' & Hr' & ->).
  simpl in Hr'. by simplify_eq.
Qed.

Lemma column_refused g col p :
  col < 0 ∨ COLS <= col ∨ (∃ s, cell (board g) 0 col = Some s ∧ s ≠ EMPTY) ->
  is_valid_column col g = Ok (false, g) ∧ drop_piece col p g = Ok (false, g).
Proof.
  intros Hbad.
  assert (Hv : is_valid_column col g = Ok (false, g)).
  { destruct (decide (0 <= col < COLS)) as [Hcol|Hcol].
    - destruct Hbad as [?|[?|(s & Hs & Hne)]]; [lia..|].
      rewrite (is_valid_column_top _ _ _ (proj2 Hcol) Hs).
      by apply String.eqb_neq in Hne as ->.
    - by apply is_valid_column_outside. }
  split; [done|]. by apply drop_piece_rejected.
Qed.

(** Goals about one column of a grid written out cell by cell. *)
Ltac rows_cases r H :=
  unfold ROWS in H;
  let Hc := fresh "Hc" in
  assert (r = 0 ∨ r = 1 ∨ r = 2 ∨ r = 3 ∨ r = 4 ∨ r = 5) as Hc by lia;
  destruct Hc as [->|[->|[->|[->|[->| ->]]]]]; try lia.

Ltac solve_wf := split; [reflexivity | vm_compute; repeat constructor].

Ltac solve_lowest :=
  apply lowest_empty_spec; split; [unfold ROWS; lia|]; split; [reflexivity|];
  let r' := fresh "r'" in let Hr' := fresh "Hr'" in
  intros r' Hr'; rows_cases r' Hr'; vm_compute; intros [= ?]; done.

Ltac solve_drop r :=
  apply (drop_piece_to _ _ _ r); [solve_wf | reflexivity | solve_lowest | reflexivity].

Lemma cell_elem_of b r c s : cell b r c = Some s -> ∃ row, row ∈ b ∧ s ∈ row.
Proof.
  intros Hs. destruct (cell_Some_nonneg _ _ _ _ Hs) as [Hr Hc].
  rewrite cell_lookup in Hs by done.
  destruct (b !! Z.to_nat r) as [row|] eqn:Hrow; [|done]. simpl in Hs.
  exists row. split; by eapply list_elem_of_lookup_2.
Qed.

Lemma only_player_first_win A b r c d :
  wf_board b -> only_player A b -> A ≠ EMPTY ->
  d ∈ directions -> run b A r c d 4 ->
  first_win b = Some A.
Proof.
  intros Hwf Honly HA Hd Hrun.
  destruct (first_win_complete b A Hwf) as [p Hp].
  { split; [done|]. exists r, c, d, 4. split_and!; [done|lia|done]. }
  rewrite Hp. f_equal.
  apply first_win_sound in Hp as (Hne & r' & c' & d' & n & _ & Hn & Hrun').
  pose proof (Hrun' 0 ltac:(lia)) as (row & Hrow & Hin)%cell_elem_of.
  unfold only_player in Honly. rewrite Forall_forall in Honly.
  specialize (Honly row Hrow). rewrite Forall_forall in Honly.
  by destruct (Honly p Hin).
Qed.

Ltac solve_only :=
  repeat match goal with
         | |- Forall _ _ => constructor
         | |- _ ∨ _ => first [left; reflexivity | right; reflexivity]
         end.

Ltac solve_run :=
  let i := fresh "i" in let Hi := fresh "Hi" in
  intros i Hi;
  let Hc := fresh "Hc" in
  assert (i = 0 ∨ i = 1 ∨ i = 2 ∨ i = 3) as Hc by lia;
  destruct Hc as [->|[->|[->| ->]]]; reflexivity.

Ltac solve_winner r c d :=
  rewrite check_winner_scan by solve_wf;
  do 2 f_equal;
  apply (only_player_first_win _ _ r c d);
  [solve_wf | vm_compute; solve_only | done | repeat constructor | solve_run].

(** ** A full board *)

Lemma is_board_full_wf g :
  wf_board (board g) ->
  is_board_full g
  = Ok (forallb (λ col, negb (owned (board g) EMPTY 0 col)) (Py.range COLS), g).
Proof.
  intros Hwf. unfold is_board_full.
  erewrite bind_ok; last first.
  { apply (for_in_search _ _
      (λ col, if negb (owned (board g) EMPTY 0 col) then None else Some false)).
    intros col Hcol%elem_of_range.
    destruct (proj2 (cell_is_Some (board g) 0 col Hwf)) as [s Hs].
    { split; [done|]. apply Hcol. }
    rewrite (bind_ok _ _ _ _ _ (board_get_cell _ _ _ _ Hs)).
    unfold owned. rewrite Hs. by destruct (String.eqb s EMPTY). }
  generalize (Py.range COLS). intros cols.
  induction cols as [|col cols IH]; [done|].
  rewrite search_cons. cbn [forallb].
  destruct (owned (board g) EMPTY 0 col); [done|]. cbn [negb andb].
  apply IH.
Qed.

Lemma forallb_top_row b :
  wf_board b ->
  forallb (λ col, negb (owned b EMPTY 0 col)) (Py.range COLS) = true ↔ top_row_taken b.
Proof.
  intros Hwf. rewrite forallb_forall. unfold top_row_taken.
  split.
  - intros Hall c Hc.
    destruct (proj2 (cell_is_Some b 0 c Hwf)) as [s Hs].
    { split; [done|]. apply Hc. }
    exists s. split; [done|]. intros ->.
    specialize (Hall c). rewrite <- list_elem_of_In, elem_of_range in Hall.
    apply owned_true in Hs. rewrite Hs in Hall. by specialize (Hall Hc).
  - intros Htop c Hc. rewrite <- list_elem_of_In, elem_of_range in Hc.
    destruct (Htop c Hc) as (s & Hs & Hne).
    by rewrite (owned_false _ _ _ _ _ Hs Hne).
Qed.

(** ** The order of the scan *)

Lemma search_first {A R} (f : A -> option R) (xs : list A) (r : R) :
  search f xs = Some r ↔
    ∃ i x, xs !! i = Some x ∧ f x = Some r
           ∧ ∀ j y, (j < i)%nat -> xs !! j = Some y -> f y = None.
Proof.
  induction xs as [|x xs IH].
  - split; [done|]. by intros (i & y & Hy & _).
  - rewrite search_cons. destruct (f x) as [r'|] eqn:Hx.
    + split.
      * intros [= ->]. exists 0%nat, x. split_and!; [done..|]. intros j y Hj. lia.
      * intros ([|i] & y & Hy & Hfy & Hbefore).
        -- simpl in Hy. by simplify_eq.
        -- specialize (Hbefore 0%nat x ltac:(lia) eq_refl). congruence.
    + rewrite IH. split.
      * intros (i & y & Hy & Hfy & Hbefore). exists (S i), y.
        split_and!; [done..|]. intros [|j] z Hj Hz.
        -- simpl in Hz. by simplify_eq.
        -- apply (Hbefore j); [lia|done].
      * intros ([|i] & y & Hy & Hfy & Hbefore).
        -- simpl in Hy. simplify_eq.
        -- exists i, y. split_and!; [done..|]. intros j z Hj Hz.
           apply (Hbefore (S j)); [lia|done].
Qed.

Lemma scan_order_lookup r c k d :
  0 <= r < ROWS -> 0 <= c < COLS -> directions !! k = Some d ->
  scan_order !! (Z.to_nat ((r * COLS + c) * 4) + k)%nat = Some (r, c, d).
Proof.
  intros Hr Hc Hk. unfold ROWS in Hr. unfold COLS in Hc.
  assert (k < 4)%nat as Hk4 by (by apply lookup_lt_Some in Hk).
  assert (r = 0 ∨ r = 1 ∨ r = 2 ∨ r = 3 ∨ r = 4 ∨ r = 5) as Hrc by lia.
  assert (c = 0 ∨ c = 1 ∨ c = 2 ∨ c = 3 ∨ c = 4 ∨ c = 5 ∨ c = 6) as Hcc by lia.
  destruct Hrc as [->|[->|[->|[->|[->| ->]]]]];
    destruct Hcc as [->|[->|[->|[->|[->|[->| ->]]]]]];
    (destruct k as [|[|[|[|k]]]]; [..|lia]); injection Hk as <-; reflexivity.
Qed.

(** ** Sessions *)

Lemma get_current_player_inv g cp g' :
  get_current_player g = Ok (cp, g') -> g' = g.
Proof.
  unfold get_current_player, bind, get_self, lift.
  destruct (Py.getitem _ _); [|done]. by intros [= _ <-].
Qed.

Lemma play_turn_wf g col g' :
  wf_board (board g) ->
  play_turn col g = Ok (tt, g') ->
  ∃ cp, get_current_player g = Ok (cp, g) ∧ g' = after_turn g col cp.
Proof.
  intros Hwf. unfold play_turn.
  intros (cp & g1 & Hcp & Hrest)%bind_inv.
  pose proof (get_current_player_inv _ _ _ Hcp) as ->.
  exists cp. split; [done|]. revert Hrest.
  unfold is_ai_turn. rewrite (bind_ok _ _ _ _ _ (bind_ok _ _ _ _ _ Hcp)).
  pose proof (drop_piece_wf g col cp Hwf) as Hdrop.
  unfold after_turn.
  destruct (if owned (board g) EMPTY 0 col then lowest_empty (board g) col else None)
    as [r|]; rewrite (bind_ok _ _ _ _ _ Hdrop); [|by intros [= <-]].
  cbn [negb]. set (g2 := set_board (place (board g) r col cp) g).
  assert (Hwf2 : wf_board (board g2)) by by apply place_wf.
  rewrite (bind_ok _ _ _ _ _ (check_winner_scan _ Hwf2)). cbv zeta.
  destruct (Py.truthy (first_win (board g2))); [by intros [= <-]|].
  rewrite (bind_ok _ _ _ _ _ (is_board_full_wf _ Hwf2)).
  destruct (forallb _ (Py.range COLS)); by intros [= <-].
Qed.

Lemma after_turn_inv g col cp :
  session_inv g -> session_inv (after_turn g col cp).
Proof.
  intros [Hwf Hdraw]. unfold after_turn.
  destruct (owned (board g) EMPTY 0 col) eqn:Htop; [|done].
  destruct (lowest_empty (board g) col) as [r|]; [|done].
  set (g2 := set_board (place (board g) r col cp) g).
  assert (Hwf2 : wf_board (board g2)) by by apply place_wf.
  cbv zeta. destruct (Py.truthy (first_win (board g2))) eqn:Hw.
  - split; [done|]. intros _ Hnone. cbn [winner set_winner] in Hnone.
    rewrite Hnone in Hw. done.
  - destruct (forallb _ (Py.range COLS)) eqn:Hfull.
    + split; [done|]. intros _ _. by apply forallb_top_row.
    + split; [done|]. simpl. intros Hover Hnone.
      destruct (Hdraw Hover Hnone col) as (s & Hs & Hne).
      { apply owned_true in Htop. apply (cell_is_Some _ 0 col Hwf). by rewrite Htop. }
      apply owned_true in Htop. congruence.
Qed.

Lemma play_inv cols g g' :
  session_inv g -> play cols g = Ok (tt, g') -> session_inv g'.
Proof.
  revert g. induction cols as [|col cols IH]; intros g Hinv.
  - by intros [= <-].
  - cbn [play]. unfold bind at 1, get_self at 1.
    destruct (game_over g); [by intros [= <-]|].
    intros ([] & g1 & Hturn & Hrest)%bind_inv.
    apply play_turn_wf in Hturn as (cp & _ & ->); [|apply Hinv].
    apply (IH _ (after_turn_inv _ _ _ Hinv) Hrest).
Qed.

Lemma init_inv mode0 g : init mode0 = Ok g -> session_inv g.
Proof.
  unfold init. intros Hg.
  assert (board g = init_board ∧ game_over g = false) as [Hb Ho].
  { repeat case_match; by simplify_eq. }
  split; [rewrite Hb; apply init_board_wf|]. by rewrite Ho.
Qed.

Lemma play_terminal cols g : game_over g = true -> play cols g = Ok (tt, g).
Proof.
  intros Hover. destruct cols as [|col cols]; [done|].
  cbn [play]. unfold bind, get_self. by rewrite Hover.
Qed.

(** ** The win check of [connect4_integrated.py] *)

Example checkwin_column :
  Integrated.checkwin
    [ [" "; " "; " "; " "; " "; " "; " "];
      [" "; " "; " "; " "; " "; " "; " "];
      ["x"; " "; " "; " "; " "; " "; " "];
      ["x"; "o"; " "; " "; " "; " "; " "];
      ["x"; "o"; " "; " "; " "; " "; " "];
      ["x"; "o"; " "; " "; " "; " "; " "] ] = Ok (Some "x").
Proof. reflexivity. Qed.

Example checkwin_none :
  Integrated.checkwin
    [ [" "; " "; " "; " "; " "; " "; " "];
      [" "; " "; " "; " "; " "; " "; " "];
      [" "; " "; " "; " "; " "; " "; " "];
      ["x"; "o"; " "; " "; " "; " "; " "];
      ["x"; "o"; " "; " "; " "; " "; " "];
      ["x"; "o"; " "; " "; " "; " "; " "] ] = Ok None.
Proof. reflexivity. Qed.

Example checkwin_short_board : Integrated.checkwin [[" "; " "; " "]] = Raise IndexError.
Proof. reflexivity. Qed.

Section integrated_facts.
Import Integrated.

Lemma return_if_four_ok a b c d :
  return_if_four (Ok a) (Ok b) (Ok c) (Ok d)
  = Ok (quad (Some a) (Some b) (Some c) (Some d)).
Proof.
  unfold return_if_four, four_equal, quad. cbn [rbind].
  destruct (String.eqb a b); [|done]. cbn [negb andb].
  destruct (String.eqb b c); [|done]. cbn [negb andb].
  destruct (String.eqb c d); [|done]. cbn [negb andb].
  by destruct (String.eqb a BLANK).
Qed.

Lemma quad_Some c0 c1 c2 c3 p :
  quad c0 c1 c2 c3 = Some p ↔
    p ≠ BLANK ∧ c0 = Some p ∧ c1 = Some p ∧ c2 = Some p ∧ c3 = Some p.
Proof.
  unfold quad. split.
  - destruct c0 as [a|], c1 as [b|], c2 as [c|], c3 as [d|]; try done.
    destruct (String.eqb a b) eqn:Hab; [|done].
    destruct (String.eqb b c) eqn:Hbc; [|done].
    destruct (String.eqb c d) eqn:Hcd; [|done].
    destruct (String.eqb a BLANK) eqn:Ha; [done|]. cbn [negb andb].
    apply String.eqb_eq in Hab, Hbc, Hcd. apply String.eqb_neq in Ha.
    intros [= <-]. by subst.
  - intros (Hp & -> & -> & -> & ->). rewrite !String.eqb_refl.
    apply String.eqb_neq in Hp. by rewrite Hp.
Qed.

Lemma at_cell b j i s : cell b j i = Some s -> at_ b j i = Ok s.
Proof.
  intros Hs. destruct (cell_Some_nonneg _ _ _ _ Hs) as [Hj Hi].
  rewrite cell_lookup in Hs by done.
  destruct (b !! Z.to_nat j) as [row|] eqn:Hrow; [|done]. simpl in Hs.
  unfold at_. rewrite (getitem_lookup _ _ _ Hj Hrow). cbn [rbind].
  by apply getitem_lookup.
Qed.

Lemma for_ret_search {A R} (xs : list A) (body : A -> result (option R))
    (f : A -> option R) :
  (∀ x, x ∈ xs -> body x = Ok (f x)) ->
  for_ret xs body = Ok (search f xs).
Proof.
  induction xs as [|x xs IH]; intros Hbody; [done|].
  cbn [for_ret]. rewrite (Hbody x) by left. cbn [rbind]. rewrite search_cons.
  destruct (f x); [done|]. apply IH. intros y Hy. apply Hbody. by right.
Qed.

(** The test of [checkwin] on four cells of the board. *)
Lemma window_ok b r0 c0 r1 c1 r2 c2 r3 c3 :
  wf_board b ->
  0 <= r0 < ROWS -> 0 <= c0 < COLS -> 0 <= r1 < ROWS -> 0 <= c1 < COLS ->
  0 <= r2 < ROWS -> 0 <= c2 < COLS -> 0 <= r3 < ROWS -> 0 <= c3 < COLS ->
  return_if_four (at_ b r0 c0) (at_ b r1 c1) (at_ b r2 c2) (at_ b r3 c3)
  = Ok (quad (cell b r0 c0) (cell b r1 c1) (cell b r2 c2) (cell b r3 c3)).
Proof.
  intros Hwf ? ? ? ? ? ? ? ?.
  destruct (proj2 (cell_is_Some b r0 c0 Hwf)) as [s0 Hs0]; [done|].
  destruct (proj2 (cell_is_Some b r1 c1 Hwf)) as [s1 Hs1]; [done|].
  destruct (proj2 (cell_is_Some b r2 c2 Hwf)) as [s2 Hs2]; [done|].
  destruct (proj2 (cell_is_Some b r3 c3 Hwf)) as [s3 Hs3]; [done|].
  rewrite (at_cell _ _ _ _ Hs0), (at_cell _ _ _ _ Hs1),
          (at_cell _ _ _ _ Hs2), (at_cell _ _ _ _ Hs3).
  rewrite Hs0, Hs1, Hs2, Hs3. apply return_if_four_ok.
Qed.

Lemma row_window_ok b (row : list string) i :
  wf_board b -> row ∈ b -> 0 <= i < 4 ->
  return_if_four (Py.getitem row i) (Py.getitem row (i + 1))
                 (Py.getitem row (i + 2)) (Py.getitem row (i + 3))
  = Ok (quad (row !! Z.to_nat i) (row !! Z.to_nat (i + 1))
             (row !! Z.to_nat (i + 2)) (row !! Z.to_nat (i + 3))).
Proof.
  intros Hwf [k Hk]%list_elem_of_lookup Hi.
  pose proof (wf_row _ _ _ Hwf Hk) as Hlen. unfold COLS in Hlen.
  destruct (lookup_lt_is_Some_2 row (Z.to_nat i)) as [s0 Hs0]; [lia|].
  destruct (lookup_lt_is_Some_2 row (Z.to_nat (i + 1))) as [s1 Hs1]; [lia|].
  destruct (lookup_lt_is_Some_2 row (Z.to_nat (i + 2))) as [s2 Hs2]; [lia|].
  destruct (lookup_lt_is_Some_2 row (Z.to_nat (i + 3))) as [s3 Hs3]; [lia|].
  rewrite (getitem_lookup row i _ ltac:(lia) Hs0),
          (getitem_lookup row (i + 1) _ ltac:(lia) Hs1),
          (getitem_lookup row (i + 2) _ ltac:(lia) Hs2),
          (getitem_lookup row (i + 3) _ ltac:(lia) Hs3).
  rewrite Hs0, Hs1, Hs2, Hs3. apply return_if_four_ok.
Qed.

Lemma or_else_ok {R} (o1 o2 : option R) (k : result (option R)) :
  k = Ok o2 -> or_else (Ok o1) k = Ok (first_of o1 o2).
Proof. intros ->. by destruct o1. Qed.

Lemma checkwin_wf b : wf_board b -> checkwin b = Ok (checkwin_found b).
Proof.
  intros Hwf. unfold checkwin, checkwin_found.
  erewrite for_ret_search; last first.
  { intros row Hrow. apply for_ret_search.
    intros i Hi%elem_of_range. by apply (row_window_ok b). }
  apply or_else_ok.
  erewrite for_ret_search; last first.
  { intros i Hi%elem_of_range. apply for_ret_search.
    intros j Hj%elem_of_seqZ. apply window_ok; unfold ROWS, COLS; (done || lia). }
  apply or_else_ok.
  erewrite for_ret_search; last first.
  { intros i Hi%elem_of_seqZ. apply for_ret_search.
    intros j Hj%elem_of_seqZ. apply window_ok; unfold ROWS, COLS; (done || lia). }
  apply or_else_ok.
  erewrite for_ret_search; last first.
  { intros i Hi%elem_of_range. apply for_ret_search.
    intros j Hj%elem_of_range. apply window_ok; unfold ROWS, COLS; (done || lia). }
  unfold or_else. cbn [rbind]. by destruct (search _ (Py.range 7)).
Qed.
End integrated_facts.

(** ** The two win checks compared *)

Section comparison.
Import Integrated.

Lemma first_of_is_Some {R} (o1 o2 : option R) :
  is_Some (first_of o1 o2) ↔ is_Some o1 ∨ is_Some o2.
Proof.
  destruct o1 as [r|]; simpl.
  - split; eauto.
  - split; [by right|]. by intros [[? [=]]|?].
Qed.

Lemma cell_row b r c (row : list string) :
  0 <= r -> 0 <= c -> b !! Z.to_nat r = Some row ->
  cell b r c = row !! Z.to_nat c.
Proof. intros Hr Hc Hrow. rewrite cell_lookup by done. by rewrite Hrow. Qed.

Lemma run_intro b p r c d r1 c1 r2 c2 r3 c3 :
  cell b r c = Some p -> cell b r1 c1 = Some p ->
  cell b r2 c2 = Some p -> cell b r3 c3 = Some p ->
  r1 = r + d.1 * 1 -> c1 = c + d.2 * 1 ->
  r2 = r + d.1 * 2 -> c2 = c + d.2 * 2 ->
  r3 = r + d.1 * 3 -> c3 = c + d.2 * 3 ->
  run b p r c d 4.
Proof.
  intros H0 H1 H2 H3 -> -> -> -> -> -> i Hi.
  assert (i = 0 ∨ i = 1 ∨ i = 2 ∨ i = 3) as Hcases by lia.
  destruct Hcases as [->|[->|[->| ->]]]; rewrite ?Z.mul_0_r, ?Z.add_0_r; done.
Qed.

Lemma run_cells b p r c d r1 c1 :
  run b p r c d 4 ->
  (∃ i, 0 <= i < 4 ∧ r1 = r + d.1 * i ∧ c1 = c + d.2 * i) ->
  cell b r1 c1 = Some p.
Proof. intros Hrun (i & Hi & -> & ->). by apply Hrun. Qed.

Lemma checkwin_found_sound b p :
  checkwin_found b = Some p -> blank_four b p.
Proof.
  unfold checkwin_found, first_of.
  destruct (search _ b) as [q|] eqn:Hh.
  { intros [= ->].
    apply search_Some in Hh as (row & [k Hk]%list_elem_of_lookup & Hh).
    apply search_Some in Hh as (i & Hi%elem_of_range & (Hp & H0 & H1 & H2 & H3)%quad_Some).
    split; [done|]. exists (Z.of_nat k), i, (0, 1). split; [repeat constructor|].
    assert (Hrow : b !! Z.to_nat (Z.of_nat k) = Some row) by by rewrite Nat2Z.id.
    apply (run_intro _ _ _ _ _ (Z.of_nat k) (i + 1) (Z.of_nat k) (i + 2) (Z.of_nat k) (i + 3));
      simpl; try lia; by rewrite (cell_row _ _ _ row) by (lia || done). }
  destruct (search _ (Py.range 4)) as [q|] eqn:Hd1.
  { intros [= ->].
    apply search_Some in Hd1 as (i & Hi%elem_of_range & Hd1).
    apply search_Some in Hd1 as (j & Hj%elem_of_seqZ & (Hp & H0 & H1 & H2 & H3)%quad_Some).
    split; [done|]. exists (j - 3), (i + 3), (1, -1). split; [repeat constructor|].
    apply (run_intro _ _ _ _ _ (j - 2) (i + 2) (j - 1) (i + 1) j i);
      simpl; (done || lia). }
  destruct (search _ (Py.range2 3 7)) as [q|] eqn:Hd2.
  { intros [= ->].
    apply search_Some in Hd2 as (i & Hi%elem_of_seqZ & Hd2).
    apply search_Some in Hd2 as (j & Hj%elem_of_seqZ & (Hp & H0 & H1 & H2 & H3)%quad_Some).
    split; [done|]. exists (j - 3), (i - 3), (1, 1). split; [repeat constructor|].
    apply (run_intro _ _ _ _ _ (j - 2) (i - 2) (j - 1) (i - 1) j i);
      simpl; (done || lia). }
  intros Hv.
  apply search_Some in Hv as (i & Hi%elem_of_range & Hv).
  apply search_Some in Hv as (j & Hj%elem_of_range & (Hp & H0 & H1 & H2 & H3)%quad_Some).
  split; [done|]. exists j, i, (1, 0). split; [repeat constructor|].
  apply (run_intro _ _ _ _ _ (j + 1) i (j + 2) i (j + 3) i); simpl; (done || lia).
Qed.
End comparison.

Section comparison_complete.
Import Integrated.
Variable b : Board.
Hypothesis Hwf : wf_board b.

Lemma run_bounds p r c d i :
  run b p r c d 4 -> 0 <= i < 4 ->
  0 <= r + d.1 * i < ROWS ∧ 0 <= c + d.2 * i < COLS.
Proof.
  intros Hrun Hi. apply (cell_is_Some b _ _ Hwf). by rewrite (Hrun i Hi).
Qed.

Lemma checkwin_found_complete p :
  blank_four b p -> is_Some (checkwin_found b).
Proof.
  intros (Hp & r & c & d & Hd & Hrun).
  pose proof (run_bounds _ _ _ _ 0 Hrun ltac:(lia)) as [Hr0 Hc0].
  pose proof (run_bounds _ _ _ _ 3 Hrun ltac:(lia)) as [Hr3 Hc3].
  unfold ROWS, COLS in *.
  unfold checkwin_found. rewrite !first_of_is_Some.
  apply list_elem_of_In in Hd. simpl in Hd.
  destruct Hd as [<-|[<-|[<-|[<-|[]]]]]; simpl in *.
  - left. destruct (lookup_lt_is_Some_2 b (Z.to_nat r)) as [row Hrow].
    { destruct Hwf as [-> _]. unfold ROWS. lia. }
    apply search_is_Some. exists row. split; [by eapply list_elem_of_lookup_2|].
    apply search_is_Some. exists c. rewrite elem_of_range. split; [lia|].
    exists p. apply quad_Some. split_and!; [done|..];
      rewrite <- (cell_row b r) by (lia || done);
      apply (run_cells b p r c (0, 1)); try done;
      [exists 0|exists 1|exists 2|exists 3]; simpl; lia.
  - right. right. right.
    apply search_is_Some. exists c. rewrite elem_of_range. split; [lia|].
    apply search_is_Some. exists r. rewrite elem_of_range. split; [lia|].
    exists p. apply quad_Some. split_and!; [done|..];
      apply (run_cells b p r c (1, 0)); try done;
      [exists 0|exists 1|exists 2|exists 3]; simpl; lia.
  - right. right. left.
    apply search_is_Some. exists (c + 3). unfold Py.range2. rewrite elem_of_seqZ.
    split; [lia|].
    apply search_is_Some. exists (r + 3). unfold Py.range2. rewrite elem_of_seqZ.
    split; [lia|].
    exists p. apply quad_Some. split_and!; [done|..];
      apply (run_cells b p r c (1, 1)); try done;
      [exists 3|exists 2|exists 1|exists 0]; simpl; lia.
  - right. left.
    apply search_is_Some. exists (c - 3). rewrite elem_of_range. split; [lia|].
    apply search_is_Some. exists (r + 3). unfold Py.range2. rewrite elem_of_seqZ.
    split; [lia|].
    exists p. apply quad_Some. split_and!; [done|..];
      apply (run_cells b p r c (1, -1)); try done;
      [exists 3|exists 2|exists 1|exists 0]; simpl; lia.
Qed.

Lemma checkwin_found_is_Some :
  is_Some (checkwin_found b) ↔ ∃ p, blank_four b p.
Proof.
  split.
  - intros [p Hp]. exists p. by apply checkwin_found_sound.
  - intros [p Hp]. by eapply checkwin_found_complete.
Qed.
End comparison_complete.

Section conversion.
Import Integrated.

Lemma convert_cell_inj s t :
  xo s -> xo t -> convert_cell s = convert_cell t -> s = t.
Proof. intros [->|[->| ->]] [->|[->| ->]]; by vm_compute. Qed.

Lemma convert_cell_blank s : xo s -> convert_cell s = EMPTY -> s = BLANK.
Proof. intros [->|[->| ->]]; by vm_compute. Qed.

Lemma convert_cell_taken s : xo s -> s ≠ BLANK -> convert_cell s ≠ EMPTY.
Proof. intros [->|[->| ->]]; by vm_compute. Qed.

Lemma cell_convert b r c :
  cell (convert_board_to_baml_format b) r c = convert_cell <$> cell b r c.
Proof.
  unfold cell. destruct ((0 <=? r) && (0 <=? c)); [|done].
  unfold convert_board_to_baml_format.
  rewrite (list_lookup_fmap _ b (Z.to_nat r)).
  destruct (b !! Z.to_nat r) as [row|]; [|done].
  cbn [fmap option_fmap option_map mbind option_bind].
  apply (list_lookup_fmap _ row (Z.to_nat c)).
Qed.

Lemma convert_wf b : wf_board b -> wf_board (convert_board_to_baml_format b).
Proof.
  intros [Hlen Hall]. split; unfold convert_board_to_baml_format.
  - by rewrite length_fmap.
  - apply Forall_fmap. eapply Forall_impl; [done|].
    intros row Hrow. simpl. by rewrite length_fmap.
Qed.

Lemma xo_cell b r c s : xo_board b -> cell b r c = Some s -> xo s.
Proof.
  intros Hxo (row & Hrow & Hs)%cell_elem_of.
  unfold xo_board in Hxo. rewrite Forall_forall in Hxo.
  specialize (Hxo row Hrow). rewrite Forall_forall in Hxo. by apply Hxo.
Qed.

Lemma four_convert b :
  xo_board b ->
  (∃ p', four_in_a_row (convert_board_to_baml_format b) p') ↔ (∃ p, blank_four b p).
Proof.
  intros Hxo. split.
  - intros (p' & Hp' & r & c & d & n & Hd & Hn & Hrun).
    assert (Hpre : ∀ i, 0 <= i < 4 ->
              ∃ s, cell b (r + d.1 * i) (c + d.2 * i) = Some s ∧ convert_cell s = p').
    { intros i Hi. specialize (Hrun i ltac:(lia)). rewrite cell_convert in Hrun.
      destruct (cell b _ _) as [s|]; [|done]. exists s. split; [done|].
      by injection Hrun. }
    destruct (Hpre 0 ltac:(lia)) as (s0 & Hs0 & Hc0).
    exists s0. split.
    + intros ->. apply Hp'. by rewrite <- Hc0.
    + exists r, c, d. split; [done|]. intros i Hi.
      destruct (Hpre i Hi) as (s & Hs & Hc). rewrite Hs. f_equal.
      apply convert_cell_inj; [by eapply xo_cell..|congruence].
  - intros (p & Hp & r & c & d & Hd & Hrun).
    exists (convert_cell p). split.
    + apply convert_cell_taken; [|done].
      apply (xo_cell b (r + d.1 * 0) (c + d.2 * 0)); [done|]. apply Hrun. lia.
    + exists r, c, d, 4. split_and!; [done|lia|].
      intros i Hi. by rewrite cell_convert, (Hrun i Hi).
Qed.
End conversion.

Lemma gravityb_sound b : wf_board b -> gravityb b = true -> gravity b.
Proof.
  intros Hwf Hb r r' c s Hs Hne Hlt Hempty.
  destruct (proj1 (cell_is_Some b r c Hwf)) as [Hr Hc]; [by rewrite Hs|].
  unfold gravityb in Hb. rewrite forallb_forall in Hb.
  specialize (Hb c). rewrite <- list_elem_of_In, elem_of_range in Hb.
  specialize (Hb Hc). rewrite forallb_forall in Hb.
  specialize (Hb r). rewrite <- list_elem_of_In, elem_of_range in Hb.
  specialize (Hb Hr). rewrite (owned_false _ _ _ _ _ Hs Hne) in Hb.
  cbn [orb] in Hb. rewrite forallb_forall in Hb.
  specialize (Hb r'). rewrite <- list_elem_of_In in Hb.
  unfold Py.range2 in Hb. rewrite elem_of_seqZ in Hb.
  apply owned_true in Hempty. rewrite Hempty in Hb.
  discriminate Hb. lia.
Qed.

(** * Part III: the claims *)

(** C1: on a 6x7 board, [check_winner] returns a player exactly when some
    cell starts a run of at least four cells of one player along one of the
    four directions; the player returned owns such a run, the object is left
    as it was, and on a board without any such run the result is [None]. *)
Theorem check_winner_iff_four_in_a_row (g : Game) :
  wf_board (board g) ->
  ((∃ p, check_winner g = Ok (Some p, g)) ↔ (∃ p, four_in_a_row (board g) p))
  ∧ (∀ p, check_winner g = Ok (Some p, g) -> four_in_a_row (board g) p)
  ∧ ((∀ p, ¬ four_in_a_row (board g) p) -> check_winner g = Ok (None, g)).
Proof.
  intros Hwf. rewrite (check_winner_scan g Hwf). split_and!.
  - rewrite (four_in_a_row_first_win _ Hwf). split.
    + intros [p [= Hp]]. by rewrite Hp.
    + intros [p Hp]. exists p. by rewrite Hp.
  - intros p [= Hp]. by apply first_win_sound.
  - intros Hno. destruct (first_win (board g)) as [p|] eqn:Hp; [|done].
    destruct (Hno p). by apply first_win_sound.
Qed.

Lemma check_winner_iff_four_in_a_row_witness :
  wf_board (board (game_on blocked_board))
  ∧ (∀ p, ¬ four_in_a_row (board (game_on blocked_board)) p)
  ∧ check_winner (game_on blocked_board) = Ok (None, game_on blocked_board).
Proof.
  assert (H1 : wf_board (board (game_on blocked_board))) by solve_wf.
  assert (H2 : ∀ p, ¬ four_in_a_row (board (game_on blocked_board)) p).
  { intros p Hp.
    assert (Hsome : is_Some (first_win (board (game_on blocked_board)))).
    { apply (four_in_a_row_first_win _ H1). by exists p. }
    vm_compute in Hsome. by destruct Hsome. }
  split; [exact H1|]. split; [exact H2|].
  destruct (check_winner_iff_four_in_a_row (game_on blocked_board) H1)
    as (_ & _ & Hnone).
  exact (Hnone H2).
Defined.

(** C2: a column index outside [0, COLS), or a column whose top cell is
    taken, is refused: [is_valid_column] answers [False], [drop_piece]
    answers [False], neither raises, and the object (the grid with it) is
    the same afterwards. *)
Theorem invalid_column_refused (g : Game) (col : Z) (p : string) :
  col < 0 ∨ COLS <= col ∨ (∃ s, cell (board g) 0 col = Some s ∧ s ≠ EMPTY) ->
  is_valid_column col g = Ok (false, g) ∧ drop_piece col p g = Ok (false, g).
Proof. apply column_refused. Qed.

Lemma invalid_column_refused_witness :
  (0 < 0 ∨ COLS <= 0
   ∨ ∃ s, cell (board (game_on (column_0_filled p1 p2 6))) 0 0 = Some s ∧ s ≠ EMPTY)
  ∧ is_valid_column 0 (game_on (column_0_filled p1 p2 6))
    = Ok (false, game_on (column_0_filled p1 p2 6))
  ∧ drop_piece 0 p1 (game_on (column_0_filled p1 p2 6))
    = Ok (false, game_on (column_0_filled p1 p2 6)).
Proof.
  assert (H : 0 < 0 ∨ COLS <= 0
    ∨ ∃ s, cell (board (game_on (column_0_filled p1 p2 6))) 0 0 = Some s ∧ s ≠ EMPTY).
  { right. right. exists p2. split; [reflexivity|discriminate]. }
  split; [exact H|].
  exact (invalid_column_refused (game_on (column_0_filled p1 p2 6)) 0 p1 H).
Defined.

(** C3, as stated, fails: a session that ended with a win still accepts a
    drop into a free column, and the grid changes. *)
Lemma drop_after_win_accepted :
  init "pvp" = Ok new_game
  ∧ play [0; 1; 0; 1; 0; 1; 0] new_game = Ok (tt, won_game)
  ∧ game_over won_game = true
  ∧ drop_piece 2 p2 won_game = Ok (true, set_board (place (board won_game) 5 2 p2) won_game)
  ∧ cell (board won_game) 5 2 = Some EMPTY
  ∧ cell (place (board won_game) 5 2 p2) 5 2 = Some p2.
Proof. vm_compute. by repeat split. Qed.

(** C3, amended: once a session started by [init] has ended, the game loop
    [play] makes no further move and returns the session as it is; and when
    it ended without a winner (a draw), every [drop_piece] call is refused
    and leaves the object, the grid with it, unchanged. *)
Theorem terminal_session_frozen (mode0 : string) (cols : list Z) (g0 g : Game) :
  init mode0 = Ok g0 -> play cols g0 = Ok (tt, g) -> game_over g = true ->
  (∀ more, play more g = Ok (tt, g))
  ∧ (winner g = None -> ∀ col p, drop_piece col p g = Ok (false, g)).
Proof.
  intros Hinit Hplay Hover. split.
  - intros more. by apply play_terminal.
  - intros Hnone col p.
    destruct (play_inv _ _ _ (init_inv _ _ Hinit) Hplay) as [Hwf Hdraw].
    apply column_refused.
    destruct (decide (0 <= col < COLS)) as [Hcol|Hcol]; [|lia].
    right. right. by apply Hdraw.
Qed.

Lemma terminal_session_frozen_witness :
  init "pvp" = Ok new_game
  ∧ play draw_moves new_game = Ok (tt, drawn_game)
  ∧ game_over drawn_game = true
  ∧ (∀ more, play more drawn_game = Ok (tt, drawn_game))
  ∧ (winner drawn_game = None ->
     ∀ col p, drop_piece col p drawn_game = Ok (false, drawn_game)).
Proof.
  assert (H1 : init "pvp" = Ok new_game) by reflexivity.
  assert (H2 : play draw_moves new_game = Ok (tt, drawn_game)) by (vm_compute; reflexivity).
  assert (H3 : game_over drawn_game = true) by reflexivity.
  split; [exact H1|]. split; [exact H2|]. split; [exact H3|].
  exact (terminal_session_frozen "pvp" draw_moves new_game drawn_game H1 H2 H3).
Defined.

(** C4: when [drop_piece] answers [True] on a 6x7 board, the cell it wrote
    is the free cell of that column nearest to the bottom; it now holds the
    player, every other cell is as before (and so is the rest of the object),
    and for a real player that one cell did change. *)
Theorem drop_piece_changes_one_cell (g g' : Game) (col : Z) (p : string) :
  wf_board (board g) ->
  drop_piece col p g = Ok (true, g') ->
  ∃ r, 0 <= r < ROWS ∧ 0 <= col < COLS
     ∧ cell (board g) r col = Some EMPTY
     ∧ (∀ r', r < r' < ROWS -> cell (board g) r' col ≠ Some EMPTY)
     ∧ cell (board g') r col = Some p
     ∧ (∀ r' c', (r', c') ≠ (r, col) -> cell (board g') r' c' = cell (board g) r' c')
     ∧ (p ≠ EMPTY -> cell (board g') r col ≠ cell (board g) r col)
     ∧ g' = set_board (board g') g.
Proof.
  intros Hwf. rewrite (drop_piece_wf _ _ _ Hwf).
  destruct (owned (board g) EMPTY 0 col) eqn:Htop; [|done].
  destruct (lowest_empty (board g) col) as [r|] eqn:Hr; [|done].
  intros [= <-]. apply lowest_empty_spec in Hr as (Hr & Hc & Hlow).
  assert (Hcol : 0 <= col < COLS).
  { apply (cell_is_Some (board g) r col Hwf). by rewrite Hc. }
  exists r. do 4 (split; [done|]). simpl. split; [|split; [|split]].
  - by eapply cell_place_eq.
  - intros r' c' Hne. apply cell_place_ne; [lia..|done].
  - intros Hp. rewrite (cell_place_eq _ _ _ _ _ Hc), Hc. congruence.
  - done.
Qed.

Lemma drop_piece_changes_one_cell_witness :
  wf_board (board new_game)
  ∧ drop_piece 3 p1 new_game = Ok (true, game_on (place init_board 5 3 p1))
  ∧ ∃ r, 0 <= r < ROWS ∧ 0 <= 3 < COLS
     ∧ cell (board new_game) r 3 = Some EMPTY
     ∧ (∀ r', r < r' < ROWS -> cell (board new_game) r' 3 ≠ Some EMPTY)
     ∧ cell (board (game_on (place init_board 5 3 p1))) r 3 = Some p1
     ∧ (∀ r' c', (r', c') ≠ (r, 3) ->
          cell (board (game_on (place init_board 5 3 p1))) r' c'
          = cell (board new_game) r' c')
     ∧ (p1 ≠ EMPTY ->
        cell (board (game_on (place init_board 5 3 p1))) r 3 ≠ cell (board new_game) r 3)
     ∧ game_on (place init_board 5 3 p1)
       = set_board (board (game_on (place init_board 5 3 p1))) new_game.
Proof.
  assert (H1 : wf_board (board new_game)) by solve_wf.
  assert (H2 : drop_piece 3 p1 new_game = Ok (true, game_on (place init_board 5 3 p1)))
    by (vm_compute; reflexivity).
  split; [exact H1|]. split; [exact H2|].
  exact (drop_piece_changes_one_cell new_game _ 3 p1 H1 H2).
Defined.

(** C5: the board of a freshly created game is 6x7 and obeys gravity; and
    on a 6x7 board that obeys gravity every [drop_piece] call, accepted or
    refused, returns without raising and leaves a 6x7 board that obeys it
    too, while [is_valid_column], [check_winner] and [is_board_full] return
    and leave the object as it was. *)
Theorem gravity_preserved (g : Game) (col : Z) (p : string) :
  wf_board (board g) -> gravity (board g) ->
  (∀ mode0 g0, init mode0 = Ok g0 -> wf_board (board g0) ∧ gravity (board g0))
  ∧ (∃ ok g', drop_piece col p g = Ok (ok, g')
              ∧ wf_board (board g') ∧ gravity (board g'))
  ∧ (∃ v, is_valid_column col g = Ok (v, g))
  ∧ (∃ w, check_winner g = Ok (w, g))
  ∧ (∃ full, is_board_full g = Ok (full, g)).
Proof.
  intros Hwf Hg. split; [|split; [|split; [|split]]].
  - intros mode0 g0 ->%init_board_fresh.
    split; [apply init_board_wf|apply gravity_init_board].
  - rewrite (drop_piece_wf _ _ _ Hwf).
    destruct (owned (board g) EMPTY 0 col); [|by eauto].
    destruct (lowest_empty (board g) col) as [r|] eqn:Hr; [|by eauto].
    eexists _, _. split; [done|]. simpl. split.
    + by apply place_wf.
    + by apply gravity_place.
  - eexists. by apply is_valid_column_wf.
  - eexists. by apply check_winner_scan.
  - eexists. by apply is_board_full_wf.
Qed.

Lemma gravity_preserved_witness :
  wf_board (board (game_on (column_0_filled p1 p2 3)))
  ∧ gravity (board (game_on (column_0_filled p1 p2 3)))
  ∧ (∀ mode0 g0, init mode0 = Ok g0 -> wf_board (board g0) ∧ gravity (board g0))
  ∧ (∃ ok g', drop_piece 0 p2 (game_on (column_0_filled p1 p2 3)) = Ok (ok, g')
              ∧ wf_board (board g') ∧ gravity (board g'))
  ∧ (∃ v, is_valid_column 0 (game_on (column_0_filled p1 p2 3))
          = Ok (v, game_on (column_0_filled p1 p2 3)))
  ∧ (∃ w, check_winner (game_on (column_0_filled p1 p2 3))
          = Ok (w, game_on (column_0_filled p1 p2 3)))
  ∧ (∃ full, is_board_full (game_on (column_0_filled p1 p2 3))
             = Ok (full, game_on (column_0_filled p1 p2 3))).
Proof.
  assert (H1 : wf_board (board (game_on (column_0_filled p1 p2 3)))) by solve_wf.
  assert (H2 : gravity (board (game_on (column_0_filled p1 p2 3)))).
  { apply gravityb_sound; [exact H1|vm_compute; reflexivity]. }
  split; [exact H1|]. split; [exact H2|].
  exact (gravity_preserved (game_on (column_0_filled p1 p2 3)) 0 p2 H1 H2).
Defined.

(** C6: on the empty board six drops into column 0, two players taking
    turns, are all accepted and fill the column from row 5 up to row 0, one
    row per drop; the seventh drop into column 0 is refused. *)
Theorem column_0_fills_bottom_up (A B : string) :
  A ≠ EMPTY -> B ≠ EMPTY ->
  column_0_filled A B 0 = init_board
  ∧ drop_piece 0 A (game_on (column_0_filled A B 0)) = Ok (true, game_on (column_0_filled A B 1))
  ∧ drop_piece 0 B (game_on (column_0_filled A B 1)) = Ok (true, game_on (column_0_filled A B 2))
  ∧ drop_piece 0 A (game_on (column_0_filled A B 2)) = Ok (true, game_on (column_0_filled A B 3))
  ∧ drop_piece 0 B (game_on (column_0_filled A B 3)) = Ok (true, game_on (column_0_filled A B 4))
  ∧ drop_piece 0 A (game_on (column_0_filled A B 4)) = Ok (true, game_on (column_0_filled A B 5))
  ∧ drop_piece 0 B (game_on (column_0_filled A B 5)) = Ok (true, game_on (column_0_filled A B 6))
  ∧ drop_piece 0 A (game_on (column_0_filled A B 6)) = Ok (false, game_on (column_0_filled A B 6))
  ∧ column (column_0_filled A B 1) 0
    = [Some EMPTY; Some EMPTY; Some EMPTY; Some EMPTY; Some EMPTY; Some A]
  ∧ column (column_0_filled A B 2) 0
    = [Some EMPTY; Some EMPTY; Some EMPTY; Some EMPTY; Some B; Some A]
  ∧ column (column_0_filled A B 3) 0
    = [Some EMPTY; Some EMPTY; Some EMPTY; Some A; Some B; Some A]
  ∧ column (column_0_filled A B 4) 0
    = [Some EMPTY; Some EMPTY; Some B; Some A; Some B; Some A]
  ∧ column (column_0_filled A B 5) 0
    = [Some EMPTY; Some A; Some B; Some A; Some B; Some A]
  ∧ column (column_0_filled A B 6) 0
    = [Some B; Some A; Some B; Some A; Some B; Some A].
Proof.
  intros HA HB. unfold EMPTY in HA, HB.
  split; [reflexivity|].
  split; [solve_drop 5|]. split; [solve_drop 4|]. split; [solve_drop 3|].
  split; [solve_drop 2|]. split; [solve_drop 1|]. split; [solve_drop 0|].
  split; [|by repeat split].
  apply column_refused. right. right. exists B. by split.
Qed.

Lemma column_0_fills_bottom_up_witness :
  p1 ≠ EMPTY ∧ p2 ≠ EMPTY ∧
  (column_0_filled p1 p2 0 = init_board
  ∧ drop_piece 0 p1 (game_on (column_0_filled p1 p2 0)) = Ok (true, game_on (column_0_filled p1 p2 1))
  ∧ drop_piece 0 p2 (game_on (column_0_filled p1 p2 1)) = Ok (true, game_on (column_0_filled p1 p2 2))
  ∧ drop_piece 0 p1 (game_on (column_0_filled p1 p2 2)) = Ok (true, game_on (column_0_filled p1 p2 3))
  ∧ drop_piece 0 p2 (game_on (column_0_filled p1 p2 3)) = Ok (true, game_on (column_0_filled p1 p2 4))
  ∧ drop_piece 0 p1 (game_on (column_0_filled p1 p2 4)) = Ok (true, game_on (column_0_filled p1 p2 5))
  ∧ drop_piece 0 p2 (game_on (column_0_filled p1 p2 5)) = Ok (true, game_on (column_0_filled p1 p2 6))
  ∧ drop_piece 0 p1 (game_on (column_0_filled p1 p2 6)) = Ok (false, game_on (column_0_filled p1 p2 6))
  ∧ column (column_0_filled p1 p2 1) 0
    = [Some EMPTY; Some EMPTY; Some EMPTY; Some EMPTY; Some EMPTY; Some p1]
  ∧ column (column_0_filled p1 p2 2) 0
    = [Some EMPTY; Some EMPTY; Some EMPTY; Some EMPTY; Some p2; Some p1]
  ∧ column (column_0_filled p1 p2 3) 0
    = [Some EMPTY; Some EMPTY; Some EMPTY; Some p1; Some p2; Some p1]
  ∧ column (column_0_filled p1 p2 4) 0
    = [Some EMPTY; Some EMPTY; Some p2; Some p1; Some p2; Some p1]
  ∧ column (column_0_filled p1 p2 5) 0
    = [Some EMPTY; Some p1; Some p2; Some p1; Some p2; Some p1]
  ∧ column (column_0_filled p1 p2 6) 0
    = [Some p2; Some p1; Some p2; Some p1; Some p2; Some p1]).
Proof.
  assert (H1 : p1 ≠ EMPTY) by discriminate.
  assert (H2 : p2 ≠ EMPTY) by discriminate.
  split; [exact H1|]. split; [exact H2|].
  exact (column_0_fills_bottom_up p1 p2 H1 H2).
Defined.

(** C7: each orientation is found.  For every player [A]: four drops by [A]
    into columns 0 to 3 of the empty board put [A] on row 5 of those columns,
    and [check_winner] then returns [A]; four drops by [A] into column 0 make
    it return [A]; so do four cells of [A] going down to the right and four
    cells of [A] going down to the left, on a grid that holds nothing else. *)
Theorem each_orientation_detected (A : string) :
  A ≠ EMPTY ->
  (drop_piece 0 A ;; drop_piece 1 A ;; drop_piece 2 A ;; drop_piece 3 A ;;
   check_winner) new_game
  = Ok (Some A, game_on (bottom_row_filled A 4))
  ∧ (drop_piece 0 A ;; drop_piece 0 A ;; drop_piece 0 A ;; drop_piece 0 A ;;
     check_winner) new_game
    = Ok (Some A, game_on (column_0_filled A A 4))
  ∧ check_winner (game_on (diagonal_down_right A))
    = Ok (Some A, game_on (diagonal_down_right A))
  ∧ check_winner (game_on (diagonal_down_left A))
    = Ok (Some A, game_on (diagonal_down_left A)).
Proof.
  intros HA. split_and!.
  - change new_game with (game_on (bottom_row_filled A 0)).
    unfold EMPTY in HA.
    rewrite (bind_ok _ _ _ true (game_on (bottom_row_filled A 1))) by solve_drop 5.
    rewrite (bind_ok _ _ _ true (game_on (bottom_row_filled A 2))) by solve_drop 5.
    rewrite (bind_ok _ _ _ true (game_on (bottom_row_filled A 3))) by solve_drop 5.
    rewrite (bind_ok _ _ _ true (game_on (bottom_row_filled A 4))) by solve_drop 5.
    solve_winner 5 0 (0, 1).
  - change new_game with (game_on (column_0_filled A A 0)).
    unfold EMPTY in HA.
    rewrite (bind_ok _ _ _ true (game_on (column_0_filled A A 1))) by solve_drop 5.
    rewrite (bind_ok _ _ _ true (game_on (column_0_filled A A 2))) by solve_drop 4.
    rewrite (bind_ok _ _ _ true (game_on (column_0_filled A A 3))) by solve_drop 3.
    rewrite (bind_ok _ _ _ true (game_on (column_0_filled A A 4))) by solve_drop 2.
    solve_winner 2 0 (1, 0).
  - solve_winner 2 0 (1, 1).
  - solve_winner 2 6 (1, -1).
Qed.

Lemma each_orientation_detected_witness :
  p1 ≠ EMPTY ∧
  ((drop_piece 0 p1 ;; drop_piece 1 p1 ;; drop_piece 2 p1 ;; drop_piece 3 p1 ;;
   check_winner) new_game
  = Ok (Some p1, game_on (bottom_row_filled p1 4))
  ∧ (drop_piece 0 p1 ;; drop_piece 0 p1 ;; drop_piece 0 p1 ;; drop_piece 0 p1 ;;
     check_winner) new_game
    = Ok (Some p1, game_on (column_0_filled p1 p1 4))
  ∧ check_winner (game_on (diagonal_down_right p1))
    = Ok (Some p1, game_on (diagonal_down_right p1))
  ∧ check_winner (game_on (diagonal_down_left p1))
    = Ok (Some p1, game_on (diagonal_down_left p1))).
Proof.
  assert (H1 : p1 ≠ EMPTY) by discriminate.
  split; [exact H1|].
  exact (each_orientation_detected p1 H1).
Defined.

(** C8: on a 6x7 board [is_board_full] returns, without raising or
    changing the object, [True] exactly when the top cell of each of the 7
    columns is taken; and when all 42 cells are taken and nobody has four
    in a row, [is_board_full] is [True] and [check_winner] is [None]. *)
Theorem board_full_iff_top_row_taken (g : Game) :
  wf_board (board g) ->
  (∃ full, is_board_full g = Ok (full, g)
           ∧ (full = true ↔ top_row_taken (board g)))
  ∧ (all_taken (board g) -> (∀ p, ¬ four_in_a_row (board g) p) ->
     is_board_full g = Ok (true, g) ∧ check_winner g = Ok (None, g)).
Proof.
  intros Hwf. rewrite (is_board_full_wf _ Hwf). split.
  - eexists. split; [done|]. by apply forallb_top_row.
  - intros Hall Hno. split.
    + do 2 f_equal. apply forallb_top_row; [done|].
      intros c Hc. apply Hall; [done|]. done.
    + rewrite (check_winner_scan _ Hwf).
      destruct (first_win (board g)) as [p|] eqn:Hp; [|done].
      destruct (Hno p). by apply first_win_sound.
Qed.

Lemma board_full_iff_top_row_taken_witness :
  wf_board (board drawn_game)
  ∧ all_taken (board drawn_game)
  ∧ (∀ p, ¬ four_in_a_row (board drawn_game) p)
  ∧ (∃ full, is_board_full drawn_game = Ok (full, drawn_game)
             ∧ (full = true ↔ top_row_taken (board drawn_game)))
  ∧ is_board_full drawn_game = Ok (true, drawn_game)
  ∧ check_winner drawn_game = Ok (None, drawn_game).
Proof.
  assert (H1 : wf_board (board drawn_game)) by solve_wf.
  assert (H2 : all_taken (board drawn_game)).
  { intros r c Hr Hc. unfold COLS in Hc. rows_cases r Hr;
      assert (c = 0 ∨ c = 1 ∨ c = 2 ∨ c = 3 ∨ c = 4 ∨ c = 5 ∨ c = 6) as Hcc by lia;
      destruct Hcc as [->|[->|[->|[->|[->|[->| ->]]]]]];
      eexists; (split; [reflexivity|discriminate]). }
  assert (H3 : ∀ p, ¬ four_in_a_row (board drawn_game) p).
  { intros p Hp.
    assert (Hsome : is_Some (first_win (board drawn_game))).
    { apply (four_in_a_row_first_win _ H1). by exists p. }
    vm_compute in Hsome. by destruct Hsome. }
  split; [exact H1|]. split; [exact H2|]. split; [exact H3|].
  destruct (board_full_iff_top_row_taken drawn_game H1) as [Hfull Hdraw].
  split; [exact Hfull|]. exact (Hdraw H2 H3).
Defined.

(** C9: on a 6x7 board [check_winner] changes nothing, so two calls in a
    row give the same answer [w] and leave the object as it was; [w] is the
    owner at the first origin and direction, in the order of [scan_order],
    from which four cells of one player run; and [scan_order] lists origins
    row by row, left to right, with the four directions in their fixed order
    at each origin. *)
Theorem check_winner_deterministic (g : Game) :
  wf_board (board g) ->
  ∃ w,
    (w1 <- check_winner ;; w2 <- check_winner ;; ret (w1, w2)) g = Ok ((w, w), g)
    ∧ check_winner g = Ok (w, g)
    ∧ (∀ p, w = Some p ↔
         ∃ i r c d, scan_order !! i = Some (r, c, d)
           ∧ run_owner (board g) r c d = Some p
           ∧ ∀ j r' c' d', (j < i)%nat -> scan_order !! j = Some (r', c', d') ->
                           run_owner (board g) r' c' d' = None)
    ∧ (∀ r c k d, 0 <= r < ROWS -> 0 <= c < COLS -> directions !! k = Some d ->
         scan_order !! (Z.to_nat ((r * COLS + c) * 4) + k)%nat = Some (r, c, d))
    ∧ directions = [(0, 1); (1, 0); (1, 1); (1, -1)].
Proof.
  intros Hwf. exists (first_win (board g)).
  pose proof (check_winner_scan g Hwf) as Hscan. split_and!.
  - by rewrite !(bind_ok _ _ _ _ _ Hscan).
  - done.
  - intros p. unfold first_win. rewrite search_first. split.
    + intros (i & [[r c] d] & Hi & Hp & Hbefore). exists i, r, c, d.
      split_and!; [done..|]. intros j r' c' d' Hj Hlook.
      apply (Hbefore j (r', c', d') Hj Hlook).
    + intros (i & r & c & d & Hi & Hp & Hbefore). exists i, (r, c, d).
      split_and!; [done..|]. intros j [[r' c'] d'] Hj Hlook. by eapply Hbefore.
  - apply scan_order_lookup.
  - done.
Qed.

Lemma check_winner_deterministic_witness :
  wf_board (board (game_on (diagonal_down_left p2))) ∧
  (∃ w,
    (w1 <- check_winner ;; w2 <- check_winner ;; ret (w1, w2)) (game_on (diagonal_down_left p2)) = Ok ((w, w), (game_on (diagonal_down_left p2)))
    ∧ check_winner (game_on (diagonal_down_left p2)) = Ok (w, (game_on (diagonal_down_left p2)))
    ∧ (∀ p, w = Some p ↔
         ∃ i r c d, scan_order !! i = Some (r, c, d)
           ∧ run_owner (board (game_on (diagonal_down_left p2))) r c d = Some p
           ∧ ∀ j r' c' d', (j < i)%nat -> scan_order !! j = Some (r', c', d') ->
                           run_owner (board (game_on (diagonal_down_left p2))) r' c' d' = None)
    ∧ (∀ r c k d, 0 <= r < ROWS -> 0 <= c < COLS -> directions !! k = Some d ->
         scan_order !! (Z.to_nat ((r * COLS + c) * 4) + k)%nat = Some (r, c, d))
    ∧ directions = [(0, 1); (1, 0); (1, 1); (1, -1)]).
Proof.
  assert (H1 : wf_board (board (game_on (diagonal_down_left p2)))) by solve_wf.
  split; [exact H1|].
  exact (check_winner_deterministic (game_on (diagonal_down_left p2)) H1).
Defined.

(** C10: on a 6x7 grid of ['x'], ['o'] and [' '], [checkwin] and
    [check_winner] on the grid translated by [convert_board_to_baml_format]
    both return without raising, and one returns a winner exactly when the
    other does. *)
Theorem checkwin_agrees_with_check_winner (b : Board) (g : Game) :
  wf_board b -> Integrated.xo_board b ->
  board g = Integrated.convert_board_to_baml_format b ->
  ∃ v w, Integrated.checkwin b = Ok v
         ∧ check_winner g = Ok (w, g)
         ∧ (v ≠ None ↔ w ≠ None).
Proof.
  intros Hwf Hxo Hg.
  assert (Hwf' : wf_board (board g)) by (rewrite Hg; by apply convert_wf).
  exists (checkwin_found b), (first_win (board g)).
  split; [by apply checkwin_wf|]. split; [by apply check_winner_scan|].
  rewrite !not_eq_None_Some.
  rewrite (checkwin_found_is_Some b Hwf), <- (four_in_a_row_first_win _ Hwf').
  rewrite Hg. symmetry. by apply four_convert.
Qed.

Lemma checkwin_agrees_with_check_winner_witness :
  wf_board xo_won_board
  ∧ Integrated.xo_board xo_won_board
  ∧ board (game_on (Integrated.convert_board_to_baml_format xo_won_board))
    = Integrated.convert_board_to_baml_format xo_won_board
  ∧ ∃ v w, Integrated.checkwin xo_won_board = Ok v
           ∧ check_winner (game_on (Integrated.convert_board_to_baml_format xo_won_board))
             = Ok (w, game_on (Integrated.convert_board_to_baml_format xo_won_board))
           ∧ (v ≠ None ↔ w ≠ None).
Proof.
  assert (H1 : wf_board xo_won_board) by solve_wf.
  assert (H2 : Integrated.xo_board xo_won_board).
  { unfold Integrated.xo_board. vm_compute.
    repeat match goal with
           | |- Forall _ _ => constructor
           | |- _ ∨ _ => first [left; reflexivity
                               | right; left; reflexivity
                               | right; right; reflexivity]
           end. }
  split; [exact H1|]. split; [exact H2|]. split; [reflexivity|].
  exact (checkwin_agrees_with_check_winner xo_won_board
           (game_on (Integrated.convert_board_to_baml_format xo_won_board))
           H1 H2 eq_refl).
Defined.

(** * Part IV: further properties of the code *)

(** ** Sessions reached by play *)

Lemma mover_get_current_player g cp :
  0 <= current_player_index g -> mover g = Some cp ->
  get_current_player g = Ok (cp, g).
Proof.
  intros Hi Hcp. unfold get_current_player, bind, get_self, lift.
  by rewrite (getitem_lookup _ _ _ Hi Hcp).
Qed.

Lemma get_current_player_mover g cp :
  0 <= current_player_index g -> get_current_player g = Ok (cp, g) ->
  mover g = Some cp.
Proof.
  intros Hi. unfold get_current_player, bind, get_self, lift, Py.getitem.
  rewrite norm_index_nonneg by done. unfold mover.
  destruct (_ <? _); [|done].
  destruct (players g !! Z.to_nat (current_player_index g)); [|done].
  by intros [= ->].
Qed.

(** [play_turn] on a 6x7 board when the current player exists. *)
Lemma play_turn_eq g col cp :
  wf_board (board g) -> get_current_player g = Ok (cp, g) ->
  play_turn col g = Ok (tt, after_turn g col cp).
Proof.
  intros Hwf Hcp. unfold play_turn.
  rewrite (bind_ok _ _ _ _ _ Hcp).
  unfold is_ai_turn. rewrite (bind_ok _ _ _ _ _ (bind_ok _ _ _ _ _ Hcp)).
  pose proof (drop_piece_wf g col cp Hwf) as Hdrop.
  unfold after_turn.
  destruct (if owned (board g) EMPTY 0 col then lowest_empty (board g) col else None)
    as [r|]; rewrite (bind_ok _ _ _ _ _ Hdrop); [|done].
  cbn [negb]. set (g2 := set_board (place (board g) r col cp) g).
  assert (Hwf2 : wf_board (board g2)) by by apply place_wf.
  rewrite (bind_ok _ _ _ _ _ (check_winner_scan _ Hwf2)). cbv zeta.
  destruct (Py.truthy (first_win (board g2))); [done|].
  rewrite (bind_ok _ _ _ _ _ (is_board_full_wf _ Hwf2)).
  by destruct (forallb _ (Py.range COLS)).
Qed.

(** A run of four that appears when one free cell is filled goes through
    that cell, so it belongs to the player who filled it. *)
Lemma place_four b r col cp p :
  wf_board b -> cell b r col = Some EMPTY -> first_win b = None ->
  four_in_a_row (place b r col cp) p -> p = cp.
Proof.
  intros Hwf Hc Hnone (Hp & r0 & c0 & d & n & Hd & Hn & Hrun).
  destruct (cell_Some_nonneg _ _ _ _ Hc) as [Hr Hcol].
  assert (Hhit : ∀ i, 0 <= i < 4 -> (r0 + d.1 * i, c0 + d.2 * i) = (r, col) -> p = cp).
  { intros i Hi [= Hri Hci]. specialize (Hrun i ltac:(lia)).
    rewrite Hri, Hci, (cell_place_eq _ _ _ _ _ Hc) in Hrun. congruence. }
  destruct (decide ((r0 + d.1 * 0, c0 + d.2 * 0) = (r, col))) as [?|H0]; [by eapply (Hhit 0)|].
  destruct (decide ((r0 + d.1 * 1, c0 + d.2 * 1) = (r, col))) as [?|H1]; [by eapply (Hhit 1)|].
  destruct (decide ((r0 + d.1 * 2, c0 + d.2 * 2) = (r, col))) as [?|H2]; [by eapply (Hhit 2)|].
  destruct (decide ((r0 + d.1 * 3, c0 + d.2 * 3) = (r, col))) as [?|H3]; [by eapply (Hhit 3)|].
  exfalso. assert (Hsome : is_Some (first_win b)); [|rewrite Hnone in Hsome; by destruct Hsome].
  apply (first_win_complete b p Hwf). split; [done|].
  exists r0, c0, d, 4. split; [done|]. split; [lia|].
  intros i Hi.
  assert (Hmiss : (r0 + d.1 * i, c0 + d.2 * i) ≠ (r, col)).
  { assert (i = 0 ∨ i = 1 ∨ i = 2 ∨ i = 3) as Hcases by lia.
    by destruct Hcases as [->|[->|[->| ->]]]. }
  rewrite <- (cell_place_ne b r col cp _ _ Hr Hcol Hmiss). apply Hrun. lia.
Qed.

Lemma cells_of_place ps b r col cp :
  cells_of ps b -> cp ∈ ps -> cells_of ps (place b r col cp).
Proof.
  intros Hcells Hcp. unfold cells_of, place.
  apply Forall_alter; [done|]. intros row Hrow Hall.
  apply Forall_insert; [done|]. by right.
Qed.

Lemma cells_of_cell ps b r c s :
  cells_of ps b -> cell b r c = Some s -> s = EMPTY ∨ s ∈ ps.
Proof.
  intros Hcells (row & Hrow & Hs)%cell_elem_of.
  unfold cells_of in Hcells. rewrite Forall_forall in Hcells.
  specialize (Hcells row Hrow). rewrite Forall_forall in Hcells. by apply Hcells.
Qed.

(** On a board of two proper players a winner found is never the empty
    string, so the test [if winner:] is the test for [None]. *)
Lemma truthy_first_win ps b :
  two_players ps -> cells_of ps b ->
  Py.truthy (first_win b) = false -> first_win b = None.
Proof.
  intros (A & B & -> & _ & _ & _ & HA & HB) Hcells Htruthy.
  destruct (first_win b) as [w|] eqn:Hw; [|done]. exfalso.
  simpl in Htruthy. apply negb_false_iff, String.eqb_eq in Htruthy as ->.
  apply first_win_sound in Hw as (Hne & r & c & d & n & _ & Hn & Hrun).
  pose proof (Hrun 0 ltac:(lia)) as H0.
  destruct (cells_of_cell _ _ _ _ _ Hcells H0) as [?|Hin]; [done|].
  apply elem_of_cons in Hin as [?|Hin]; [done|].
  apply elem_of_cons in Hin as [?|Hin]; [done|]. by apply elem_of_nil in Hin.
Qed.

Lemma two_players_mover g :
  two_players (players g) -> 0 <= current_player_index g < 2 ->
  ∃ cp, mover g = Some cp ∧ cp ∈ players g ∧ cp ≠ EMPTY ∧ cp ≠ "".
Proof.
  intros (A & B & Hps & _ & HA & HB & HA' & HB') Hi. unfold mover. rewrite Hps.
  assert (current_player_index g = 0 ∨ current_player_index g = 1) as [->| ->] by lia.
  - exists A. split_and!; [done|left|done..].
  - exists B. split_and!; [done|right; left|done..].
Qed.

Lemma session_ok_intro g :
  wf_board (board g) -> gravity (board g) -> two_players (players g) ->
  0 <= current_player_index g < 2 -> cells_of (players g) (board g) ->
  (game_over g = false ->
   winner g = None ∧ first_win (board g) = None ∧ ¬ top_row_taken (board g)) ->
  (game_over g = true ->
   (∃ w, winner g = Some w ∧ four_in_a_row (board g) w ∧ mover g = Some w)
   ∨ (winner g = None ∧ top_row_taken (board g) ∧ first_win (board g) = None)) ->
  session_ok g.
Proof. intros. unfold session_ok. repeat (split; [assumption|]). assumption. Qed.

Lemma after_turn_ok g col cp :
  session_ok g -> game_over g = false -> mover g = Some cp ->
  session_ok (after_turn g col cp).
Proof.
  intros Hsame Hover Hcp.
  pose proof Hsame as (Hwf & Hgrav & Hps & Hi & Hcells & Hrun & _).
  destruct (Hrun Hover) as (Hwin & Hnone & Hfree).
  destruct (two_players_mover g Hps Hi) as (cp' & Hcp' & Hin & Hne & Hne').
  assert (cp' = cp) as -> by congruence.
  unfold after_turn.
  destruct (owned (board g) EMPTY 0 col) eqn:Htop; [|done].
  destruct (lowest_empty (board g) col) as [r|] eqn:Hr; [|done].
  pose proof (proj1 (lowest_empty_spec _ _ _) Hr) as (Hr' & Hc & Hlow).
  set (g2 := set_board (place (board g) r col cp) g).
  assert (Hwf2 : wf_board (board g2)) by by apply place_wf.
  assert (Hgrav2 : gravity (board g2)) by by apply gravity_place.
  assert (Hcells2 : cells_of (players g2) (board g2)) by by apply cells_of_place.
  cbv zeta. destruct (Py.truthy (first_win (board g2))) eqn:Hw.
  - destruct (first_win (board g2)) as [w|] eqn:Hfw; [|done].
    assert (w = cp) as ->.
    { apply (place_four (board g) r col cp w Hwf Hc Hnone).
      by apply first_win_sound. }
    apply session_ok_intro; try done. intros _. left. exists cp.
    split; [done|]. split; [|done]. by apply first_win_sound.
  - apply (truthy_first_win _ _ Hps Hcells2) in Hw.
    destruct (forallb _ (Py.range COLS)) eqn:Hfull.
    + apply session_ok_intro; try done. intros _. right.
      split; [done|]. split; [|done]. by apply forallb_top_row.
    + apply session_ok_intro; try done.
      * simpl. destruct Hps as (A & B & HAB & _). rewrite HAB. simpl.
        apply Z.mod_pos_bound. lia.
      * intros _. split; [done|]. split; [done|].
        intros Htaken. apply (forallb_top_row (board g2) Hwf2) in Htaken. congruence.
      * simpl. congruence.
Qed.

Lemma init_cases mode0 g :
  init mode0 = Ok g ->
  (Py.lower mode0 = "pvp" ∧ g = mkGame "pvp" init_board ["p1"; "p2"] 0 false None)
  ∨ (Py.lower mode0 = "ava" ∧ g = mkGame "ava" init_board ["a1"; "a2"] 0 false None)
  ∨ (Py.lower mode0 = "pva" ∧ g = mkGame "pva" init_board ["p1"; "a1"] 0 false None).
Proof.
  unfold init.
  destruct (String.eqb (Py.lower mode0) "pvp") eqn:H1.
  { apply String.eqb_eq in H1. rewrite H1. intros [= <-]. by left. }
  destruct (String.eqb (Py.lower mode0) "ava") eqn:H2.
  { apply String.eqb_eq in H2. rewrite H2. intros [= <-]. right. by left. }
  destruct (String.eqb (Py.lower mode0) "pva") eqn:H3; [|done].
  apply String.eqb_eq in H3. rewrite H3. intros [= <-]. right. by right.
Qed.

Lemma init_ok mode0 g : init mode0 = Ok g -> session_ok g.
Proof.
  intros Hg.
  assert (board g = init_board ∧ game_over g = false ∧ winner g = None
          ∧ current_player_index g = 0 ∧ two_players (players g))
    as (Hb & Ho & Hw & Hi & Hps).
  { destruct (init_cases _ _ Hg) as [[_ ->]|[[_ ->]|[_ ->]]];
      (split; [done|]); (split; [done|]); (split; [done|]); (split; [done|]);
      eexists _, _; (split; [reflexivity|]); by repeat split. }
  apply session_ok_intro; try done.
  - rewrite Hb. apply init_board_wf.
  - rewrite Hb. apply gravity_init_board.
  - lia.
  - rewrite Hb. unfold cells_of.
    change init_board with (replicate 6 (replicate 7 EMPTY)).
    apply Forall_replicate, Forall_replicate. by left.
  - intros _. split; [done|]. split.
    + rewrite Hb. by vm_compute.
    + rewrite Hb. intros Htaken. destruct (Htaken 0) as (s & Hs & Hne); [done|].
      apply cell_init_board in Hs. done.
  - congruence.
Qed.

(** [play] never raises on a session that is in order, and leaves one in
    order, with the same players and mode. *)
Lemma play_ok cols g :
  session_ok g ->
  ∃ g', play cols g = Ok (tt, g') ∧ session_ok g'
        ∧ players g' = players g ∧ mode g' = mode g.
Proof.
  revert g. induction cols as [|col cols IH]; intros g Hok.
  - by exists g.
  - cbn [play]. unfold bind at 1, get_self at 1.
    destruct (game_over g) eqn:Hover; [by exists g|].
    destruct Hok as (Hwf & Hgrav & Hps & Hi & Hrest).
    destruct (two_players_mover g Hps Hi) as (cp & Hcp & _).
    assert (Hok : session_ok g) by done.
    rewrite (bind_ok _ _ _ _ _
               (play_turn_eq g col cp Hwf (mover_get_current_player g cp (proj1 Hi) Hcp))).
    destruct (IH _ (after_turn_ok g col cp Hok Hover Hcp)) as (g' & Hplay & Hok' & Hps' & Hm').
    exists g'. split_and!; [done..| |].
    + rewrite Hps'. unfold after_turn. by repeat case_match.
    + rewrite Hm'. unfold after_turn. by repeat case_match.
Qed.

Lemma reachable_ok g : reachable g -> session_ok g.
Proof.
  intros (mode0 & g0 & cols & Hinit & Hplay).
  destruct (play_ok cols g0 (init_ok _ _ Hinit)) as (g' & Hplay' & Hok & _).
  congruence.
Qed.

(** A property kept by every turn of a running session holds of whatever
    [play] leaves. *)
Lemma play_invariant (P : Game -> Prop) :
  (∀ g col cp, session_ok g -> game_over g = false -> mover g = Some cp ->
               P g -> P (after_turn g col cp)) ->
  ∀ cols g g', session_ok g -> P g -> play cols g = Ok (tt, g') -> P g'.
Proof.
  intros Hstep cols. induction cols as [|col cols IH]; intros g g' Hok HP.
  - by intros [= <-].
  - cbn [play]. unfold bind at 1, get_self at 1.
    destruct (game_over g) eqn:Hover; [by intros [= <-]|].
    pose proof Hok as (Hwf & _ & Hps & Hi & _).
    destruct (two_players_mover g Hps Hi) as (cp & Hcp & _).
    rewrite (bind_ok _ _ _ _ _
               (play_turn_eq g col cp Hwf (mover_get_current_player g cp (proj1 Hi) Hcp))).
    apply IH; [by apply after_turn_ok|by apply Hstep].
Qed.

Lemma place_insert b r c v (row : list string) :
  b !! Z.to_nat r = Some row ->
  place b r c v = <[Z.to_nat r := <[Z.to_nat c := v]> row]> b.
Proof.
  intros Hrow. unfold place. apply list_eq. intros i.
  destruct (decide (i = Z.to_nat r)) as [->|Hne].
  - rewrite list_lookup_insert_eq by (by eapply lookup_lt_Some).
    by rewrite list_lookup_alter_eq, Hrow.
  - by rewrite list_lookup_insert_ne, list_lookup_alter_ne.
Qed.

Lemma filter_insert_length (p : string) (l : list string) i old v :
  l !! i = Some old ->
  (length (filter (λ s, s = p) (<[i := v]> l)) + (if decide (old = p) then 1 else 0)
   = length (filter (λ s, s = p) l) + (if decide (v = p) then 1 else 0))%nat.
Proof.
  intros Hold. rewrite insert_take_drop by (by eapply lookup_lt_Some).
  rewrite <- (take_drop_middle l i old Hold) at 3.
  rewrite !filter_app, !filter_cons, !length_app.
  destruct (decide (old = p)), (decide (v = p)); simpl; lia.
Qed.

(** Writing [v] over a cell that held [old] moves one piece from the count
    of [old] to the count of [v]. *)
Lemma pieces_place p b r c old v :
  cell b r c = Some old ->
  (pieces p (place b r c v) + (if decide (old = p) then 1 else 0)
   = pieces p b + (if decide (v = p) then 1 else 0))%nat.
Proof.
  intros Hold. destruct (cell_Some_nonneg _ _ _ _ Hold) as [Hr Hc].
  rewrite cell_lookup in Hold by done.
  destruct (b !! Z.to_nat r) as [row|] eqn:Hrow; [|done]. simpl in Hold.
  rewrite (place_insert _ _ _ _ row Hrow). unfold pieces.
  rewrite insert_take_drop by (by eapply lookup_lt_Some).
  rewrite <- (take_drop_middle b (Z.to_nat r) row Hrow) at 3.
  rewrite !concat_app, !concat_cons, !filter_app, !length_app.
  pose proof (filter_insert_length p row (Z.to_nat c) old v Hold). lia.
Qed.

Lemma play_cons col cols g :
  play (col :: cols) g
  = if game_over g then Ok (tt, g) else bind (play_turn col) (λ _, play cols) g.
Proof. cbn [play]. unfold bind at 1, get_self at 1. by destruct (game_over g). Qed.

Lemma play_app cols1 cols2 g g1 :
  play cols1 g = Ok (tt, g1) -> play (cols1 ++ cols2) g = play cols2 g1.
Proof.
  revert g. induction cols1 as [|c cols1 IH]; intros g.
  - by intros [= ->].
  - cbn [app]. rewrite !play_cons. destruct (game_over g) eqn:Hover.
    + intros [= <-]. by rewrite play_terminal.
    + intros ([] & g' & Hturn & Hrest)%bind_inv.
      rewrite (bind_ok _ _ _ _ _ Hturn). by apply IH.
Qed.

Lemma reachable_play_more g cols :
  reachable g -> ∃ g', play cols g = Ok (tt, g') ∧ reachable g'.
Proof.
  intros Hreach. destruct (play_ok cols g (reachable_ok g Hreach)) as (g' & Hplay & _).
  exists g'. split; [done|].
  destruct Hreach as (mode0 & g0 & cols0 & Hinit & Hplay0).
  exists mode0, g0, (cols0 ++ cols)%list. split; [done|].
  by rewrite (play_app _ _ _ _ Hplay0).
Qed.



(** X2: in a session reached by play a recorded winner has four in a row
    and is the player at the turn index, the one who moved last (the turn is
    not passed on after a win), and the game is over; while the game is on
    nobody has four in a row and no winner is recorded. *)
Theorem winner_is_last_mover (g : Game) :
  reachable g ->
  (∀ w, winner g = Some w ->
        game_over g = true ∧ four_in_a_row (board g) w
        ∧ get_current_player g = Ok (w, g))
  ∧ (game_over g = false -> winner g = None ∧ ∀ p, ¬ four_in_a_row (board g) p).
Proof.
  intros (Hwf & _ & _ & Hi & _ & Hrun & Hend)%reachable_ok. split.
  - intros w Hw. destruct (game_over g) eqn:Hover.
    + destruct (Hend eq_refl) as [(w' & Hw' & Hfour & Hmover)|(Hnone & _)]; [|congruence].
      assert (w' = w) as -> by congruence.
      split; [done|]. split; [done|]. apply mover_get_current_player; [lia|done].
    + destruct (Hrun eq_refl) as (Hnone & _). congruence.
  - intros Hover. destruct (Hrun Hover) as (Hnone & Hfirst & _). split; [done|].
    intros p Hp. destruct (first_win_complete _ _ Hwf Hp) as [w Hw]. congruence.
Qed.

Lemma winner_is_last_mover_witness :
  reachable won_game
  ∧ (∀ w, winner won_game = Some w ->
          game_over won_game = true ∧ four_in_a_row (board won_game) w
          ∧ get_current_player won_game = Ok (w, won_game))
  ∧ (game_over won_game = false ->
     winner won_game = None ∧ ∀ p, ¬ four_in_a_row (board won_game) p).
Proof.
  assert (H1 : reachable won_game).
  { exists "pvp", new_game, [0; 1; 0; 1; 0; 1; 0]. split; vm_compute; reflexivity. }
  split; [exact H1|]. exact (winner_is_last_mover won_game H1).
Defined.

(** X3: in a session reached by play [game_over] is set exactly when a
    winner is recorded or the top row is full; and a session that is over
    without a winner is a real draw, full and with no four in a row. *)
Theorem game_over_iff_won_or_full (g : Game) :
  reachable g ->
  (game_over g = true ↔ winner g ≠ None ∨ top_row_taken (board g))
  ∧ (game_over g = true -> winner g = None ->
     top_row_taken (board g) ∧ ∀ p, ¬ four_in_a_row (board g) p).
Proof.
  intros (Hwf & _ & _ & _ & _ & Hrun & Hend)%reachable_ok. split; [split|].
  - intros Hover. destruct (Hend Hover) as [(w & Hw & _)|(_ & Htop & _)].
    + left. congruence.
    + by right.
  - intros Hor. destruct (game_over g) eqn:Hover; [done|].
    destruct (Hrun eq_refl) as (Hnone & _ & Hfree). by destruct Hor.
  - intros Hover Hnone.
    destruct (Hend Hover) as [(w & Hw & _)|(_ & Htop & Hfirst)]; [congruence|].
    split; [done|]. intros p Hp.
    destruct (first_win_complete _ _ Hwf Hp) as [w Hw]. congruence.
Qed.

Lemma game_over_iff_won_or_full_witness :
  reachable drawn_game
  ∧ (game_over drawn_game = true
     ↔ winner drawn_game ≠ None ∨ top_row_taken (board drawn_game))
  ∧ (game_over drawn_game = true -> winner drawn_game = None ->
     top_row_taken (board drawn_game) ∧ ∀ p, ¬ four_in_a_row (board drawn_game) p).
Proof.
  assert (H1 : reachable drawn_game).
  { exists "pvp", new_game, draw_moves. split; vm_compute; reflexivity. }
  split; [exact H1|]. exact (game_over_iff_won_or_full drawn_game H1).
Defined.

(** X4: one turn of a running session never raises.  A column that
    [is_valid_column] refuses changes nothing at all, so the same player is
    to move again; a column it accepts gets the mover's piece on its lowest
    free cell, and then either the game is over with the turn index still on
    the mover, or it goes on with the index on the other player. *)
Theorem turn_refused_or_passed (g : Game) (col : Z) :
  reachable g -> game_over g = false ->
  ∃ cp g', mover g = Some cp ∧ play_turn col g = Ok (tt, g')
    ∧ ((is_valid_column col g = Ok (false, g) ∧ g' = g)
       ∨ (is_valid_column col g = Ok (true, g)
          ∧ ∃ r, lowest_empty (board g) col = Some r
              ∧ board g' = place (board g) r col cp
              ∧ players g' = players g
              ∧ ((game_over g' = true
                  ∧ current_player_index g' = current_player_index g)
                 ∨ (game_over g' = false ∧ winner g' = None
                    ∧ current_player_index g' = 1 - current_player_index g)))).
Proof.
  intros Hok%reachable_ok Hover.
  pose proof Hok as (Hwf & _ & Hps & Hi & _ & Hrun & _).
  destruct (Hrun Hover) as (Hnone & _).
  destruct (two_players_mover g Hps Hi) as (cp & Hcp & _).
  exists cp, (after_turn g col cp). split; [done|]. split.
  { apply play_turn_eq; [done|]. apply mover_get_current_player; [lia|done]. }
  rewrite (is_valid_column_wf _ _ Hwf). unfold after_turn.
  destruct (owned (board g) EMPTY 0 col) eqn:Htop; [|by left].
  right. split; [done|].
  destruct (lowest_empty_top _ _ Hwf (proj1 (owned_true _ _ _ _) Htop)) as [r Hr].
  rewrite Hr. exists r. split; [done|]. cbv zeta.
  destruct (Py.truthy _); [split; [done|]; split; [done|]; by left|].
  destruct (forallb _ (Py.range COLS)); [split; [done|]; split; [done|]; by left|].
  split; [done|]. split; [done|]. right. simpl.
  split; [done|]. split; [done|].
  destruct Hps as (A & B & -> & _). simpl.
  assert (current_player_index g = 0 ∨ current_player_index g = 1) as [->| ->] by lia;
    reflexivity.
Qed.

Lemma turn_refused_or_passed_witness :
  reachable (game_on (column_0_filled p1 p2 6))
  ∧ game_over (game_on (column_0_filled p1 p2 6)) = false
  ∧ ∃ cp g', mover (game_on (column_0_filled p1 p2 6)) = Some cp
    ∧ play_turn 0 (game_on (column_0_filled p1 p2 6)) = Ok (tt, g')
    ∧ ((is_valid_column 0 (game_on (column_0_filled p1 p2 6))
        = Ok (false, game_on (column_0_filled p1 p2 6))
        ∧ g' = game_on (column_0_filled p1 p2 6))
       ∨ (is_valid_column 0 (game_on (column_0_filled p1 p2 6))
          = Ok (true, game_on (column_0_filled p1 p2 6))
          ∧ ∃ r, lowest_empty (board (game_on (column_0_filled p1 p2 6))) 0 = Some r
              ∧ board g' = place (board (game_on (column_0_filled p1 p2 6))) r 0 cp
              ∧ players g' = players (game_on (column_0_filled p1 p2 6))
              ∧ ((game_over g' = true
                  ∧ current_player_index g'
                    = current_player_index (game_on (column_0_filled p1 p2 6)))
                 ∨ (game_over g' = false ∧ winner g' = None
                    ∧ current_player_index g'
                      = 1 - current_player_index (game_on (column_0_filled p1 p2 6)))))).
Proof.
  assert (H1 : reachable (game_on (column_0_filled p1 p2 6))).
  { exists "pvp", new_game, [0; 0; 0; 0; 0; 0]. split; vm_compute; reflexivity. }
  assert (H2 : game_over (game_on (column_0_filled p1 p2 6)) = false) by reflexivity.
  split; [exact H1|]. split; [exact H2|].
  exact (turn_refused_or_passed (game_on (column_0_filled p1 p2 6)) 0 H1 H2).
Defined.

Lemma pieces_init (p : string) : p ≠ EMPTY -> pieces p init_board = 0%nat.
Proof.
  intros Hp. unfold pieces.
  change (concat init_board) with (replicate 42 EMPTY).
  generalize 42%nat. intros n. induction n as [|n IH]; [done|].
  cbn [replicate]. rewrite filter_cons. by destruct (decide (EMPTY = p)).
Qed.

Lemma pieces_balance g A B :
  reachable g -> players g = [A; B] ->
  Z.of_nat (pieces A (board g))
  = Z.of_nat (pieces B (board g))
    + (if game_over g then 1 - current_player_index g else current_player_index g).
Proof.
  intros (mode0 & g0 & cols & Hinit & Hplay).
  revert A B.
  apply (play_invariant
    (λ g, ∀ A B, players g = [A; B] ->
       Z.of_nat (pieces A (board g))
       = Z.of_nat (pieces B (board g))
         + (if game_over g then 1 - current_player_index g else current_player_index g))
    ) with (cols := cols) (g := g0); [| by apply (init_ok mode0) | | done].
  - clear. intros g col cp Hok Hover Hcp HP A B.
    pose proof Hok as (Hwf & _ & Hps & Hi & _).
    unfold after_turn.
    destruct (owned (board g) EMPTY 0 col) eqn:Htop; [|by apply HP].
    destruct (lowest_empty (board g) col) as [r|] eqn:Hr; [|by apply HP].
    apply lowest_empty_spec in Hr as (_ & Hc & _).
    assert (Hps' : ∀ g', players g' = players g -> players g' = [A; B] ->
      Z.of_nat (pieces A (place (board g) r col cp))
      = Z.of_nat (pieces B (place (board g) r col cp))
        + (1 - current_player_index g)
      ∧ 0 <= current_player_index g < 2).
    { intros g' Hsame HAB. rewrite Hsame in HAB.
      specialize (HP A B HAB). rewrite Hover in HP.
      destruct Hps as (A' & B' & HAB' & Hne & HA & HB & _).
      assert (A' = A ∧ B' = B) as [-> ->] by (split; congruence).
      pose proof (pieces_place A _ _ _ _ cp Hc) as HcA.
      pose proof (pieces_place B _ _ _ _ cp Hc) as HcB.
      destruct (decide (EMPTY = A)); [done|]. destruct (decide (EMPTY = B)); [done|].
      unfold mover in Hcp. rewrite HAB in Hcp.
      assert (current_player_index g = 0 ∨ current_player_index g = 1) as [Hz|Hz] by lia;
        rewrite Hz in *; simpl in Hcp; injection Hcp as <-.
      - destruct (decide (A = A)); [|done]. destruct (decide (A = B)); [done|]. lia.
      - destruct (decide (B = B)); [|done]. destruct (decide (B = A)); [done|]. lia. }
    cbv zeta. destruct (Py.truthy _).
    { intros HAB. simpl. by apply (Hps' g). }
    destruct (forallb _ (Py.range COLS)).
    { intros HAB. simpl. by apply (Hps' g). }
    intros HAB. simpl in *. destruct (Hps' g eq_refl HAB) as [Heq Hi'].
    rewrite HAB. simpl.
    assert (current_player_index g = 0 ∨ current_player_index g = 1) as [Hz|Hz] by lia;
      rewrite Hz in *; rewrite Hover;
      [change ((0 + 1) `mod` Z.of_nat 2) with 1
      |change ((1 + 1) `mod` Z.of_nat 2) with 0]; lia.
  - intros A B HAB.
    destruct (init_cases _ _ Hinit) as [[_ ->]|[[_ ->]|[_ ->]]];
      injection HAB as <- <-; by rewrite !pieces_init.
Qed.

(** X5: the players take turns strictly.  In a session reached by play the
    first player has as many pieces on the grid as the second when it is the
    first player's turn, and one more when it is the second player's turn;
    so the two counts never differ by more than one, refused moves
    included. *)
Theorem players_alternate (g : Game) (A B : string) :
  reachable g -> players g = [A; B] ->
  (game_over g = false ->
   Z.of_nat (pieces A (board g))
   = Z.of_nat (pieces B (board g)) + current_player_index g)
  ∧ (pieces B (board g) <= pieces A (board g) <= pieces B (board g) + 1)%nat.
Proof.
  intros Hreach HAB.
  pose proof (pieces_balance g A B Hreach HAB) as Hbal.
  pose proof (reachable_ok g Hreach) as (_ & _ & _ & Hi & _).
  split.
  - intros Hover. by rewrite Hover in Hbal.
  - destruct (game_over g); lia.
Qed.

Lemma players_alternate_witness :
  reachable won_game ∧ players won_game = [p1; p2]
  ∧ (game_over won_game = false ->
     Z.of_nat (pieces p1 (board won_game))
     = Z.of_nat (pieces p2 (board won_game)) + current_player_index won_game)
  ∧ (pieces p2 (board won_game) <= pieces p1 (board won_game)
     <= pieces p2 (board won_game) + 1)%nat.
Proof.
  assert (H1 : reachable won_game).
  { exists "pvp", new_game, [0; 1; 0; 1; 0; 1; 0]. split; vm_compute; reflexivity. }
  assert (H2 : players won_game = [p1; p2]) by reflexivity.
  split; [exact H1|]. split; [exact H2|].
  exact (players_alternate won_game p1 p2 H1 H2).
Defined.

(** ** Input and the AI *)

Example play_turn_io_human :
  play_turn_io [None; Some 9; Some 2; Some 4] (Raise ValueError) new_game
  = Ok (Got tt [Some 4], set_current_player_index 1 (game_on (place init_board 5 2 p1))).
Proof. vm_compute. reflexivity. Qed.

Lemma play_turn_finish col :
  play_turn col
  = (current_player <- get_current_player ;; _ <- is_ai_turn ;;
     finish_turn col current_player).
Proof. reflexivity. Qed.



Lemma finish_turn_eq g col cp :
  wf_board (board g) -> finish_turn col cp g = Ok (tt, after_turn g col cp).
Proof.
  intros Hwf. unfold finish_turn.
  pose proof (drop_piece_wf g col cp Hwf) as Hdrop.
  unfold after_turn.
  destruct (if owned (board g) EMPTY 0 col then lowest_empty (board g) col else None)
    as [r|]; rewrite (bind_ok _ _ _ _ _ Hdrop); [|done].
  cbn [negb]. set (g2 := set_board (place (board g) r col cp) g).
  assert (Hwf2 : wf_board (board g2)) by by apply place_wf.
  rewrite (bind_ok _ _ _ _ _ (check_winner_scan _ Hwf2)). cbv zeta.
  destruct (Py.truthy (first_win (board g2))); [done|].
  rewrite (bind_ok _ _ _ _ _ (is_board_full_wf _ Hwf2)).
  by destruct (forallb _ (Py.range COLS)).
Qed.

Lemma finish_turn_refused g col cp :
  is_valid_column col g = Ok (false, g) -> finish_turn col cp g = Ok (tt, g).
Proof.
  intros Hv. unfold finish_turn.
  by rewrite (bind_ok _ _ _ _ _ (drop_piece_rejected g col cp Hv)).
Qed.

Lemma get_player_input_valid g inputs col rest g' :
  wf_board (board g) ->
  get_player_input inputs g = Ok (Got col rest, g') ->
  g' = g ∧ owned (board g) EMPTY 0 col = true.
Proof.
  intros Hwf. induction inputs as [|[c|] inputs IH]; [done| |done].
  cbn [get_player_input].
  rewrite (bind_ok _ _ _ _ _ (is_valid_column_wf g c Hwf)).
  destruct (owned (board g) EMPTY 0 c) eqn:Hc; [|done].
  by intros [= <- <- <-].
Qed.

Lemma is_ai_turn_inv g v g' :
  is_ai_turn g = Ok (v, g') ->
  g' = g ∧ ∃ cp, get_current_player g = Ok (cp, g) ∧ v = Py.startswith cp "a".
Proof.
  unfold is_ai_turn. intros (cp & g1 & Hcp & [= <- <-])%bind_inv.
  pose proof (get_current_player_inv _ _ _ Hcp) as ->. eauto.
Qed.

Lemma get_ai_move_ok g answer cp :
  get_current_player g = Ok (cp, g) ->
  get_ai_move answer g = Ok (ai_column answer, g).
Proof.
  intros Hcp. unfold get_ai_move, try_except.
  rewrite (bind_ok _ _ _ _ _ Hcp). by destruct answer.
Qed.

(** X7: a human player's move is never refused by [play_turn].  In a
    running session reached by play, when it is a human's turn and
    [get_player_input] returns a column, the turn puts the mover's piece on
    the lowest free cell of that column and reads no input beyond what
    [get_player_input] consumed. *)
Theorem human_move_never_refused (g : Game) (inputs rest : list (option Z))
    (answer : result Z) (col : Z) :
  reachable g -> game_over g = false ->
  is_ai_turn g = Ok (false, g) ->
  get_player_input inputs g = Ok (Got col rest, g) ->
  ∃ cp r g', mover g = Some cp
             ∧ lowest_empty (board g) col = Some r
             ∧ play_turn_io inputs answer g = Ok (Got tt rest, g')
             ∧ board g' = place (board g) r col cp.
Proof.
  intros Hok%reachable_ok Hover Hai Hin.
  pose proof Hok as (Hwf & _ & _ & Hi & _).
  destruct (is_ai_turn_inv _ _ _ Hai) as (_ & cp & Hcp & _).
  destruct (get_player_input_valid _ _ _ _ _ Hwf Hin) as (_ & Htop).
  destruct (lowest_empty_top _ _ Hwf (proj1 (owned_true _ _ _ _) Htop)) as [r Hr].
  exists cp, r, (after_turn g col cp).
  split; [by apply get_current_player_mover; [lia|]|]. split; [done|].
  unfold play_turn_io.
  rewrite (bind_ok _ _ _ _ _ Hcp), (bind_ok _ _ _ _ _ Hai), (bind_ok _ _ _ _ _ Hin).
  rewrite (bind_ok _ _ _ _ _ (finish_turn_eq g col cp Hwf)).
  split; [done|]. unfold after_turn. rewrite Htop, Hr. cbv zeta.
  by repeat case_match.
Qed.

Lemma human_move_never_refused_witness :
  reachable (game_on (column_0_filled p1 p2 6))
  ∧ game_over (game_on (column_0_filled p1 p2 6)) = false
  ∧ is_ai_turn (game_on (column_0_filled p1 p2 6))
    = Ok (false, game_on (column_0_filled p1 p2 6))
  ∧ get_player_input [None; Some 7; Some 0; Some 5; Some 1]
      (game_on (column_0_filled p1 p2 6))
    = Ok (Got 5 [Some 1], game_on (column_0_filled p1 p2 6))
  ∧ ∃ cp r g', mover (game_on (column_0_filled p1 p2 6)) = Some cp
      ∧ lowest_empty (board (game_on (column_0_filled p1 p2 6))) 5 = Some r
      ∧ play_turn_io [None; Some 7; Some 0; Some 5; Some 1] (Raise ValueError)
          (game_on (column_0_filled p1 p2 6))
        = Ok (Got tt [Some 1], g')
      ∧ board g' = place (board (game_on (column_0_filled p1 p2 6))) r 5 cp.
Proof.
  assert (H1 : reachable (game_on (column_0_filled p1 p2 6))).
  { exists "pvp", new_game, [0; 0; 0; 0; 0; 0]. split; vm_compute; reflexivity. }
  assert (H2 : game_over (game_on (column_0_filled p1 p2 6)) = false) by reflexivity.
  assert (H3 : is_ai_turn (game_on (column_0_filled p1 p2 6))
               = Ok (false, game_on (column_0_filled p1 p2 6))) by reflexivity.
  assert (H4 : get_player_input [None; Some 7; Some 0; Some 5; Some 1]
                 (game_on (column_0_filled p1 p2 6))
               = Ok (Got 5 [Some 1], game_on (column_0_filled p1 p2 6)))
    by (vm_compute; reflexivity).
  split; [exact H1|]. split; [exact H2|]. split; [exact H3|]. split; [exact H4|].
  exact (human_move_never_refused _ _ _ (Raise ValueError) 5 H1 H2 H3 H4).
Defined.

Lemma play_turn_io_ai_refused g inputs answer :
  is_ai_turn g = Ok (true, g) ->
  is_valid_column (ai_column answer) g = Ok (false, g) ->
  play_turn_io inputs answer g = Ok (Got tt inputs, g).
Proof.
  intros Hai Hv. destruct (is_ai_turn_inv _ _ _ Hai) as (_ & cp & Hcp & _).
  unfold play_turn_io.
  rewrite (bind_ok _ _ _ _ _ Hcp), (bind_ok _ _ _ _ _ Hai).
  rewrite (bind_ok _ _ _ _ _ (get_ai_move_ok g answer cp Hcp)).
  by rewrite (bind_ok _ _ _ _ _ (finish_turn_refused g _ cp Hv)).
Qed.

(** X8: an AI's turn whose column is refused changes nothing, and the game
    loop asks the AI again.  So as long as the AI's answers are refused (an
    answer out of range or into a full column, or a failing call while
    column 3, which [get_ai_move] falls back on, is full) the loop makes no
    progress: however many passes it makes, the session is as it was and
    still running, and no keyboard input is read. *)
Theorem refused_ai_makes_no_progress (g : Game) (answers : list (result Z))
    (inputs : list (option Z)) :
  game_over g = false ->
  is_ai_turn g = Ok (true, g) ->
  Forall (λ answer, is_valid_column (ai_column answer) g = Ok (false, g)) answers ->
  play_io answers inputs g = Ok (StillRunning inputs, g).
Proof.
  intros Hover Hai Hall. induction Hall as [|answer answers Hv _ IH].
  - cbn [play_io]. unfold bind, get_self, ret. by rewrite Hover.
  - cbn [play_io]. unfold bind at 1, get_self at 1. rewrite Hover.
    by rewrite (bind_ok _ _ _ _ _ (play_turn_io_ai_refused g inputs answer Hai Hv)).
Qed.

Lemma refused_ai_makes_no_progress_witness :
  (∃ g0, init "ava" = Ok g0 ∧ play [3; 3; 3; 3; 3; 3] g0 = Ok (tt, stuck_game))
  ∧ game_over stuck_game = false
  ∧ is_ai_turn stuck_game = Ok (true, stuck_game)
  ∧ Forall (λ answer, is_valid_column (ai_column answer) stuck_game = Ok (false, stuck_game))
           [Raise ValueError; Ok 9; Raise IndexError; Ok 3; Ok (-1)]
  ∧ play_io [Raise ValueError; Ok 9; Raise IndexError; Ok 3; Ok (-1)] [Some 2] stuck_game
    = Ok (StillRunning [Some 2], stuck_game).
Proof.
  assert (H0 : ∃ g0, init "ava" = Ok g0 ∧ play [3; 3; 3; 3; 3; 3] g0 = Ok (tt, stuck_game)).
  { eexists. split; [reflexivity|]. vm_compute. reflexivity. }
  assert (H1 : game_over stuck_game = false) by reflexivity.
  assert (H2 : is_ai_turn stuck_game = Ok (true, stuck_game)) by reflexivity.
  assert (H3 : Forall (λ answer,
                 is_valid_column (ai_column answer) stuck_game = Ok (false, stuck_game))
                 [Raise ValueError; Ok 9; Raise IndexError; Ok 3; Ok (-1)]).
  { repeat constructor. }
  split; [exact H0|]. split; [exact H1|]. split; [exact H2|]. split; [exact H3|].
  exact (refused_ai_makes_no_progress stuck_game _ [Some 2] H1 H2 H3).
Defined.

(** X9: who is asked for a move.  In a session made by [__init__] and
    carried on by play, the mode is one of pvp, ava and pva; [is_ai_turn]
    never raises and is [False] on every turn of a pvp session, [True] on
    every turn of an ava session, and in a pva session [True] exactly on the
    second player's turns, so that the human moves first. *)
Theorem ai_turns_by_mode (mode0 : string) (g0 g : Game) (cols : list Z) :
  init mode0 = Ok g0 -> play cols g0 = Ok (tt, g) ->
  (mode g = "pvp" ∧ is_ai_turn g = Ok (false, g))
  ∨ (mode g = "ava" ∧ is_ai_turn g = Ok (true, g))
  ∨ (mode g = "pva"
     ∧ is_ai_turn g = Ok (bool_decide (current_player_index g = 1), g)).
Proof.
  intros Hinit Hplay.
  destruct (play_ok cols g0 (init_ok _ _ Hinit)) as (g' & Hplay' & Hok & Hps & Hm).
  assert (g' = g) as -> by congruence.
  destruct Hok as (_ & _ & _ & Hi & _).
  assert (Hturn : ∀ A B, players g = [A; B] ->
            is_ai_turn g
            = Ok (Py.startswith (if bool_decide (current_player_index g = 1) then B else A) "a", g)).
  { intros A B HAB. unfold is_ai_turn, get_current_player, bind, get_self, lift.
    rewrite HAB.
    assert (current_player_index g = 0 ∨ current_player_index g = 1) as [->| ->] by lia;
      reflexivity. }
  destruct (init_cases _ _ Hinit) as [[_ ->]|[[_ ->]|[_ ->]]]; simpl in Hps, Hm.
  - left. split; [done|]. rewrite (Hturn _ _ Hps). by case_bool_decide.
  - right. left. split; [done|]. rewrite (Hturn _ _ Hps). by case_bool_decide.
  - right. right. split; [done|]. rewrite (Hturn _ _ Hps). by case_bool_decide.
Qed.

Lemma ai_turns_by_mode_witness :
  init "PVA" = Ok (mkGame "pva" init_board ["p1"; "a1"] 0 false None)
  ∧ play [3] (mkGame "pva" init_board ["p1"; "a1"] 0 false None)
    = Ok (tt, mkGame "pva" (place init_board 5 3 "p1") ["p1"; "a1"] 1 false None)
  ∧ ((mode (mkGame "pva" (place init_board 5 3 "p1") ["p1"; "a1"] 1 false None) = "pvp"
      ∧ is_ai_turn (mkGame "pva" (place init_board 5 3 "p1") ["p1"; "a1"] 1 false None)
        = Ok (false, mkGame "pva" (place init_board 5 3 "p1") ["p1"; "a1"] 1 false None))
     ∨ (mode (mkGame "pva" (place init_board 5 3 "p1") ["p1"; "a1"] 1 false None) = "ava"
        ∧ is_ai_turn (mkGame "pva" (place init_board 5 3 "p1") ["p1"; "a1"] 1 false None)
          = Ok (true, mkGame "pva" (place init_board 5 3 "p1") ["p1"; "a1"] 1 false None))
     ∨ (mode (mkGame "pva" (place init_board 5 3 "p1") ["p1"; "a1"] 1 false None) = "pva"
        ∧ is_ai_turn (mkGame "pva" (place init_board 5 3 "p1") ["p1"; "a1"] 1 false None)
          = Ok (bool_decide
                  (current_player_index
                     (mkGame "pva" (place init_board 5 3 "p1") ["p1"; "a1"] 1 false None) = 1),
                mkGame "pva" (place init_board 5 3 "p1") ["p1"; "a1"] 1 false None))).
Proof.
  assert (H1 : init "PVA" = Ok (mkGame "pva" init_board ["p1"; "a1"] 0 false None))
    by reflexivity.
  assert (H2 : play [3] (mkGame "pva" init_board ["p1"; "a1"] 0 false None)
               = Ok (tt, mkGame "pva" (place init_board 5 3 "p1") ["p1"; "a1"] 1 false None))
    by (vm_compute; reflexivity).
  split; [exact H1|]. split; [exact H2|].
  exact (ai_turns_by_mode "PVA" _ _ [3] H1 H2).
Defined.

(** ** The moves of [connect4_integrated.py] *)

Example make_ai_move_fallback :
  IntegratedMoves.make_ai_move (Ok 9) xo_won_board
  = Ok [ replicate 7 " ";
         ["o"; " "; " "; " "; " "; " "; " "];
         ["x"; " "; " "; " "; " "; " "; " "];
         ["x"; "o"; " "; " "; " "; " "; " "];
         ["x"; "o"; " "; " "; " "; " "; " "];
         ["x"; "o"; " "; " "; " "; " "; " "] ]
  ∧ IntegratedMoves.make_ai_move (Raise ValueError) xo_won_board
    = IntegratedMoves.make_ai_move (Ok 9) xo_won_board.
Proof. split; reflexivity. Qed.

Example make_ai_move_answer :
  IntegratedMoves.make_ai_move (Ok 2) xo_won_board
  = Ok [ replicate 7 " "; replicate 7 " ";
         ["x"; " "; " "; " "; " "; " "; " "];
         ["x"; "o"; " "; " "; " "; " "; " "];
         ["x"; "o"; " "; " "; " "; " "; " "];
         ["x"; "o"; "o"; " "; " "; " "; " "] ].
Proof. reflexivity. Qed.

Example makeamove_columns_from_1 :
  IntegratedMoves.makeamove
    [IntegratedMoves.NotDigits; IntegratedMoves.Digits 0; IntegratedMoves.Digits 8;
     IntegratedMoves.Digits 3; IntegratedMoves.Digits 1] xo_won_board "x"
  = Ok (Some ([ replicate 7 " "; replicate 7 " ";
                ["x"; " "; " "; " "; " "; " "; " "];
                ["x"; "o"; " "; " "; " "; " "; " "];
                ["x"; "o"; " "; " "; " "; " "; " "];
                ["x"; "o"; "x"; " "; " "; " "; " "] ], [IntegratedMoves.Digits 1])).
Proof. reflexivity. Qed.

Section integrated_moves_facts.
Import Integrated IntegratedMoves.

Lemma set_at_cell b i c s v :
  cell b i c = Some s -> set_at b i c v = Ok (place b i c v).
Proof.
  intros Hs. destruct (cell_Some_nonneg _ _ _ _ Hs) as [Hi Hc].
  rewrite cell_lookup in Hs by done.
  destruct (b !! Z.to_nat i) as [row|] eqn:Hrow; [|done]. simpl in Hs.
  unfold set_at. rewrite (getitem_lookup _ _ _ Hi Hrow). cbn [rbind].
  rewrite (setitem_lookup _ _ _ _ Hc Hs). cbn [rbind].
  rewrite (setitem_lookup _ _ _ _ Hi Hrow). by rewrite (place_insert _ _ _ _ row).
Qed.

Lemma drop_rows_wf b c v rows :
  wf_board b -> 0 <= c < COLS -> (∀ row, row ∈ rows -> 0 <= row < ROWS) ->
  drop_rows rows b c v
  = Ok ((λ r, place b r c v)
        <$> search (λ row, if owned b BLANK row c then Some row else None) rows).
Proof.
  intros Hwf Hc. induction rows as [|row rows IH]; intros Hrows; [done|].
  destruct (proj2 (cell_is_Some b row c Hwf)) as [s Hs].
  { split; [|done]. apply Hrows. left. }
  cbn [drop_rows]. rewrite (at_cell _ _ _ _ Hs). cbn [rbind].
  rewrite search_cons. unfold owned at 1. rewrite Hs.
  destruct (String.eqb s BLANK).
  - by rewrite (set_at_cell _ _ _ _ v Hs).
  - apply IH. intros r Hr. apply Hrows. by right.
Qed.

(** The lowest cell of a column that holds the marker [e]. *)
Lemma lowest_marker_spec (e : string) b col r :
  search (λ row, if owned b e row col then Some row else None) (Py.range_down 5 (-1))
  = Some r ↔
    0 <= r < 6 ∧ cell b r col = Some e ∧ ∀ r', r < r' < 6 -> cell b r' col ≠ Some e.
Proof.
  change (Py.range_down 5 (-1)) with [5; 4; 3; 2; 1; 0].
  rewrite !search_cons, search_nil. split.
  - destruct (owned b e 5 col) eqn:H5;
      [|destruct (owned b e 4 col) eqn:H4;
        [|destruct (owned b e 3 col) eqn:H3;
          [|destruct (owned b e 2 col) eqn:H2;
            [|destruct (owned b e 1 col) eqn:H1;
              [|destruct (owned b e 0 col) eqn:H0; [|done]]]]]];
      intros [= <-]; (split; [done|]); (split; [by apply owned_true|]);
      intros r' Hr' Hc;
      assert (r' = 1 ∨ r' = 2 ∨ r' = 3 ∨ r' = 4 ∨ r' = 5) as Hcases by lia;
      destruct Hcases as [->|[->|[->|[->| ->]]]]; try lia;
      apply owned_true in Hc; congruence.
  - intros (Hr & Hc%owned_true & Hbelow).
    assert (Hnot : ∀ r', r < r' < 6 -> owned b e r' col = false).
    { intros r' Hr'. destruct (owned b e r' col) eqn:Ho; [|done].
      apply owned_true in Ho. by destruct (Hbelow r' Hr'). }
    assert (r = 0 ∨ r = 1 ∨ r = 2 ∨ r = 3 ∨ r = 4 ∨ r = 5) as Hcases by lia.
    destruct Hcases as [->|[->|[->|[->|[->| ->]]]]];
      rewrite ?(Hnot 5), ?(Hnot 4), ?(Hnot 3), ?(Hnot 2), ?(Hnot 1) by lia;
      by rewrite Hc.
Qed.

Lemma lowest_blank_top b c :
  owned b BLANK 0 c = true -> is_Some (lowest_blank b c).
Proof.
  intros Htop. destruct (lowest_blank b c) as [r|] eqn:Hr; [done|].
  unfold lowest_blank in Hr. rewrite search_None in Hr.
  specialize (Hr 0). rewrite elem_of_range_down, Htop in Hr.
  discriminate Hr. lia.
Qed.

(** The first number from 0 below [n] that passes a test. *)
Lemma search_range_first (P : Z -> bool) n c :
  search (λ x, if P x then Some x else None) (Py.range n) = Some c ↔
    0 <= c < n ∧ P c = true ∧ ∀ c', 0 <= c' < c -> P c' = false.
Proof.
  rewrite search_first. unfold Py.range. split.
  - intros (i & x & [-> Hi]%lookup_seqZ & Hx & Hbefore).
    destruct (P (0 + Z.of_nat i)) eqn:HP; [|done]. injection Hx as <-.
    split; [lia|]. split; [done|]. intros c' Hc'.
    specialize (Hbefore (Z.to_nat c') c' ltac:(lia)).
    rewrite lookup_seqZ in Hbefore. specialize (Hbefore ltac:(lia)).
    by destruct (P c').
  - intros (Hc & HP & Hbefore). exists (Z.to_nat c), c.
    rewrite lookup_seqZ. split; [lia|]. rewrite HP. split; [done|].
    intros j y Hj [-> Hj']%lookup_seqZ. by rewrite Hbefore by lia.
Qed.

Lemma first_available_wf b cols :
  wf_board b -> (∀ col, col ∈ cols -> 0 <= col < COLS) ->
  first_available cols b
  = Ok (search (λ col, if owned b BLANK 0 col then Some col else None) cols
        ≫= λ c, (λ r, place b r c "o") <$> lowest_blank b c).
Proof.
  intros Hwf. induction cols as [|col cols IH]; intros Hcols; [done|].
  assert (Hcol : 0 <= col < COLS) by (apply Hcols; left).
  destruct (proj2 (cell_is_Some b 0 col Hwf)) as [s Hs]; [done|].
  cbn [first_available]. rewrite (at_cell _ _ _ _ Hs). cbn [rbind].
  rewrite search_cons. destruct (owned b BLANK 0 col) eqn:Htop.
  - unfold owned in Htop. rewrite Hs in Htop. rewrite Htop.
    rewrite drop_rows_wf; [|done..|intros row Hrow%elem_of_range_down; unfold ROWS; lia].
    cbn [rbind]. fold (lowest_blank b col).
    destruct (lowest_blank_top b col) as [r Hr].
    { unfold owned. by rewrite Hs. }
    cbn [mbind option_bind]. by rewrite Hr.
  - unfold owned in Htop. rewrite Hs in Htop. rewrite Htop.
    apply IH. intros c Hc. apply Hcols. by right.
Qed.

(** [make_ai_move] on a 6x7 grid, in one equation. *)
Lemma make_ai_move_wf answer b :
  wf_board b ->
  make_ai_move answer b
  = Ok (default b (ai_choice answer b ≫= λ c, (λ r, place b r c "o") <$> lowest_blank b c)).
Proof.
  intros Hwf.
  pose proof (first_available_wf b (Py.range 7) Hwf
                ltac:(intros col Hcol%elem_of_range; unfold COLS; lia)) as Hfirst.
  fold (first_free b) in Hfirst.
  unfold make_ai_move, ai_choice. destruct answer as [a|e]; cbn [rbind].
  - replace (a + 1 - 1) with a by lia.
    destruct (owned b BLANK 0 a) eqn:Htop.
    + pose proof (proj1 (owned_true _ _ _ _) Htop) as Hcell.
      destruct (proj1 (cell_is_Some b 0 a Hwf)) as [_ Ha]; [by rewrite Hcell|].
      unfold COLS in Ha.
      destruct (Z.leb_spec 1 (a + 1)), (Z.leb_spec (a + 1) 7); try lia. cbn [andb].
      rewrite (at_cell _ _ _ _ Hcell). cbn [rbind]. rewrite String.eqb_refl.
      rewrite drop_rows_wf; [|done..|intros row Hrow%elem_of_range_down; unfold ROWS; lia].
      cbn [rbind mbind option_bind]. fold (lowest_blank b a).
      by destruct (lowest_blank b a).
    + assert (Hinvalid :
        (if (1 <=? a + 1) && (a + 1 <=? 7)
         then top <-r at_ b 0 a ;; Ok (String.eqb top BLANK)
         else Ok false) = Ok false).
      { destruct (Z.leb_spec 1 (a + 1)), (Z.leb_spec (a + 1) 7); try done. cbn [andb].
        destruct (proj2 (cell_is_Some b 0 a Hwf)) as [s Hs]; [unfold ROWS, COLS; lia|].
        rewrite (at_cell _ _ _ _ Hs). cbn [rbind].
        unfold owned in Htop. by rewrite Hs in Htop; rewrite Htop. }
      rewrite Hinvalid. cbn [rbind]. by rewrite Hfirst.
  - by rewrite Hfirst.
Qed.
End integrated_moves_facts.

Section integrated_extras.
Import Integrated IntegratedMoves.

Lemma fmap_fmap_id (f : string -> string) (P : string -> Prop) (b : Board) :
  (∀ s, P s -> f s = s) -> Forall (Forall P) b ->
  (λ row : list string, f <$> row) <$> b = b.
Proof.
  intros Hf Hb. rewrite <- (list_fmap_id b) at 2.
  apply Forall_fmap_ext. eapply Forall_impl; [done|]. intros row Hrow. simpl.
  rewrite <- (list_fmap_id row) at 2.
  apply Forall_fmap_ext. eapply Forall_impl; [done|]. intros s Hs. by apply Hf.
Qed.

Lemma convert_convert b :
  convert_board_from_baml_format (convert_board_to_baml_format b)
  = (λ row : list string, (unconvert_cell ∘ convert_cell) <$> row) <$> b.
Proof.
  unfold convert_board_from_baml_format, convert_board_to_baml_format.
  rewrite <- list_fmap_compose. apply list_fmap_ext. intros i row _. simpl.
  by rewrite <- list_fmap_compose.
Qed.

Lemma unconvert_unconvert b :
  convert_board_to_baml_format (convert_board_from_baml_format b)
  = (λ row : list string, (convert_cell ∘ unconvert_cell) <$> row) <$> b.
Proof.
  unfold convert_board_from_baml_format, convert_board_to_baml_format.
  rewrite <- list_fmap_compose. apply list_fmap_ext. intros i row _. simpl.
  by rewrite <- list_fmap_compose.
Qed.

(** X10: translating a grid of ['x'], ['o'] and [' '] to the BAML format
    and back gives the same grid, whatever its shape. *)
Theorem convert_round_trip (b : Board) :
  xo_board b ->
  convert_board_from_baml_format (convert_board_to_baml_format b) = b.
Proof.
  intros Hxo. rewrite convert_convert.
  apply (fmap_fmap_id _ (λ s, s = "x" ∨ s = "o" ∨ s = BLANK)); [|done].
  by intros s [->|[->| ->]].
Qed.

Lemma convert_round_trip_witness :
  xo_board xo_won_board
  ∧ convert_board_from_baml_format (convert_board_to_baml_format xo_won_board)
    = xo_won_board.
Proof.
  assert (H1 : xo_board xo_won_board).
  { unfold xo_board. vm_compute.
    repeat match goal with
           | |- Forall _ _ => constructor
           | |- _ ∨ _ => first [left; reflexivity
                               | right; left; reflexivity
                               | right; right; reflexivity]
           end. }
  split; [exact H1|]. exact (convert_round_trip xo_won_board H1).
Defined.

(** X11: translating a BAML grid of ['p1'], ['a1'] and two blanks to the
    game format and back gives the same grid; a cell that holds anything
    else, such as the ['p2'] or ['a2'] of the other modes, comes back as
    two blanks. *)
Theorem baml_round_trip (b : Board) :
  baml_board b ->
  convert_board_to_baml_format (convert_board_from_baml_format b) = b
  ∧ (∀ s, s ≠ "p1" -> s ≠ "a1" -> convert_cell (unconvert_cell s) = EMPTY).
Proof.
  intros Hb. split.
  - rewrite unconvert_unconvert.
    apply (fmap_fmap_id _ (λ s, s = "p1" ∨ s = "a1" ∨ s = EMPTY)); [|done].
    by intros s [->|[->| ->]].
  - intros s H1 H2. unfold unconvert_cell.
    apply String.eqb_neq in H1, H2. by rewrite H1, H2.
Qed.

Lemma baml_round_trip_witness :
  baml_board (convert_board_to_baml_format xo_won_board)
  ∧ convert_board_to_baml_format
      (convert_board_from_baml_format (convert_board_to_baml_format xo_won_board))
    = convert_board_to_baml_format xo_won_board.
Proof.
  assert (H1 : baml_board (convert_board_to_baml_format xo_won_board)).
  { unfold baml_board. vm_compute.
    repeat match goal with
           | |- Forall _ _ => constructor
           | |- _ ∨ _ => first [left; reflexivity
                               | right; left; reflexivity
                               | right; right; reflexivity]
           end. }
  split; [exact H1|].
  exact (proj1 (baml_round_trip (convert_board_to_baml_format xo_won_board) H1)).
Defined.

(** X12: on a 6x7 grid [checkwin] does not raise; it returns a player
    exactly when some player, not the blank, holds four cells in a row
    along one of the four directions, the player it returns holds such a
    four, and otherwise it returns [None]. *)
Theorem checkwin_iff_four (b : Board) :
  wf_board b ->
  (∀ p, checkwin b = Ok (Some p) -> blank_four b p)
  ∧ ((∃ p, blank_four b p) -> ∃ p, checkwin b = Ok (Some p))
  ∧ ((∀ p, ¬ blank_four b p) -> checkwin b = Ok None).
Proof.
  intros Hwf. rewrite (checkwin_wf b Hwf). split; [|split].
  - intros p [= Hp]. by apply checkwin_found_sound.
  - intros [p Hp]. destruct (checkwin_found_complete b Hwf p Hp) as [q Hq].
    exists q. by rewrite Hq.
  - intros Hno. destruct (checkwin_found b) as [p|] eqn:Hp; [|done].
    destruct (Hno p). by apply checkwin_found_sound.
Qed.

Lemma checkwin_iff_four_witness :
  wf_board xo_won_board
  ∧ blank_four xo_won_board "x"
  ∧ ∃ p, checkwin xo_won_board = Ok (Some p).
Proof.
  assert (H1 : wf_board xo_won_board) by solve_wf.
  assert (H2 : blank_four xo_won_board "x").
  { split; [discriminate|]. exists 2, 0, (1, 0). split; [repeat constructor|].
    intros i Hi. assert (i = 0 ∨ i = 1 ∨ i = 2 ∨ i = 3) as Hc by lia.
    destruct Hc as [->|[->|[->| ->]]]; reflexivity. }
  split; [exact H1|]. split; [exact H2|].
  destruct (checkwin_iff_four xo_won_board H1) as (_ & Hsome & _).
  exact (Hsome (ex_intro _ "x" H2)).
Defined.
End integrated_extras.

Section integrated_against_engine.
Import Integrated IntegratedMoves.

Lemma four_convert_to b p :
  xo_board b -> blank_four b p ->
  four_in_a_row (convert_board_to_baml_format b) (convert_cell p).
Proof.
  intros Hxo (Hp & r & c & d & Hd & Hrun). split.
  - apply convert_cell_taken; [|done].
    apply (xo_cell b (r + d.1 * 0) (c + d.2 * 0)); [done|]. apply Hrun. lia.
  - exists r, c, d, 4. split; [done|]. split; [lia|].
    intros i Hi. by rewrite cell_convert, (Hrun i Hi).
Qed.

Lemma four_convert_from b q :
  xo_board b -> four_in_a_row (convert_board_to_baml_format b) q ->
  ∃ p, blank_four b p ∧ q = convert_cell p.
Proof.
  intros Hxo (Hq & r & c & d & n & Hd & Hn & Hrun).
  assert (Hpre : ∀ i, 0 <= i < 4 ->
            ∃ s, cell b (r + d.1 * i) (c + d.2 * i) = Some s ∧ convert_cell s = q).
  { intros i Hi. specialize (Hrun i ltac:(lia)). rewrite cell_convert in Hrun.
    destruct (cell b _ _) as [s|]; [|done]. exists s. split; [done|].
    by injection Hrun. }
  destruct (Hpre 0 ltac:(lia)) as (s0 & Hs0 & Hc0).
  exists s0. split; [|done]. split.
  - intros ->. apply Hq. by rewrite <- Hc0.
  - exists r, c, d. split; [done|]. intros i Hi.
    destruct (Hpre i Hi) as (s & Hs & Hc). rewrite Hs. f_equal.
    apply convert_cell_inj; [by eapply xo_cell..|congruence].
Qed.

(** When at most one player holds a four, the two scans find the same
    winner. *)
Lemma first_win_convert b :
  wf_board b -> xo_board b ->
  (∀ p p', blank_four b p -> blank_four b p' -> p = p') ->
  first_win (convert_board_to_baml_format b) = convert_cell <$> checkwin_found b.
Proof.
  intros Hwf Hxo Hone.
  destruct (checkwin_found b) as [p|] eqn:Hp.
  - apply checkwin_found_sound in Hp as Hfour.
    destruct (first_win_complete _ _ (convert_wf b Hwf) (four_convert_to b p Hxo Hfour))
      as [q Hq].
    rewrite Hq. simpl. f_equal.
    destruct (four_convert_from b q Hxo (first_win_sound _ _ Hq)) as (p' & Hp' & ->).
    by rewrite (Hone p p' Hfour Hp').
  - destruct (first_win (convert_board_to_baml_format b)) as [q|] eqn:Hq; [|done].
    destruct (four_convert_from b q Hxo (first_win_sound _ _ Hq)) as (p' & Hp' & _).
    destruct (checkwin_found_complete b Hwf p' Hp') as [v Hv]. congruence.
Qed.

(** When both players hold a four the two checks may name different
    winners: [checkwin] tries the rows first, [check_winner] goes cell by
    cell from the top left. *)
Example winners_may_differ :
  checkwin xo_two_winners = Ok (Some "o")
  ∧ check_winner (game_on (convert_board_to_baml_format xo_two_winners))
    = Ok (Some "p1", game_on (convert_board_to_baml_format xo_two_winners)).
Proof. split; vm_compute; reflexivity. Qed.

(** X13: on a 6x7 grid of ['x'], ['o'] and [' '] on which at most one
    player holds a four, as after every single move of a game, the two
    checks name the same winner: [check_winner] on the translated grid
    returns the translation of what [checkwin] returns. *)
Theorem winners_agree (b : Board) (g : Game) :
  wf_board b -> xo_board b -> board g = convert_board_to_baml_format b ->
  (∀ p p', blank_four b p -> blank_four b p' -> p = p') ->
  ∃ v, checkwin b = Ok v ∧ check_winner g = Ok (convert_cell <$> v, g).
Proof.
  intros Hwf Hxo Hg Hone.
  assert (Hwf' : wf_board (board g)) by (rewrite Hg; by apply convert_wf).
  exists (checkwin_found b). split; [by apply checkwin_wf|].
  rewrite (check_winner_scan g Hwf'), Hg. by rewrite first_win_convert.
Qed.

Lemma owned_convert b r c :
  xo_board b ->
  owned (convert_board_to_baml_format b) EMPTY r c = owned b BLANK r c.
Proof.
  intros Hxo. unfold owned. rewrite cell_convert.
  destruct (cell b r c) as [s|] eqn:Hs; [|done]. simpl.
  pose proof (xo_cell _ _ _ _ Hxo Hs) as [->|[->| ->]]; reflexivity.
Qed.

Lemma lowest_convert b c :
  xo_board b -> lowest_empty (convert_board_to_baml_format b) c = lowest_blank b c.
Proof.
  intros Hxo. unfold lowest_empty, lowest_blank.
  apply search_ext. intros row _. by rewrite owned_convert.
Qed.

Lemma place_convert b r c v :
  convert_board_to_baml_format (place b r c v)
  = place (convert_board_to_baml_format b) r c (convert_cell v).
Proof.
  unfold convert_board_to_baml_format, place.
  apply list_fmap_alter, Forall_true. intros row. apply list_fmap_insert.
Qed.

(** A piece let fall by the integrated variant lands where the engine's
    [drop_piece] puts it. *)
Lemma drop_rows_drop_piece b g a v :
  wf_board b -> xo_board b -> board g = convert_board_to_baml_format b ->
  cell b 0 a = Some BLANK ->
  ∃ r, lowest_blank b a = Some r
       ∧ drop_piece a (convert_cell v) g
         = Ok (true, set_board (convert_board_to_baml_format (place b r a v)) g).
Proof.
  intros Hwf Hxo Hg Htop.
  assert (Hwf' : wf_board (board g)) by (rewrite Hg; by apply convert_wf).
  assert (Htop' : cell (board g) 0 a = Some EMPTY) by by rewrite Hg, cell_convert, Htop.
  destruct (drop_piece_accepted g a (convert_cell v) Hwf' Htop') as (r & Hr & Hdrop).
  exists r. rewrite Hg, lowest_convert in Hr by done. split; [done|].
  by rewrite Hdrop, Hg, place_convert.
Qed.
End integrated_against_engine.

Section integrated_moves_extras.
Import Integrated IntegratedMoves.

Lemma run_holds_four b p r c d :
  wf_board b -> d ∈ directions -> run b p r c d 4 -> holds_four b p = true.
Proof.
  intros Hwf Hd Hrun. unfold holds_four. apply existsb_exists.
  exists (r, c, d). split.
  - apply list_elem_of_In, elem_of_scan_order.
    pose proof (Hrun 0 ltac:(lia)) as H0. rewrite !Z.mul_0_r, !Z.add_0_r in H0.
    destruct (proj1 (cell_is_Some b r c Hwf)) as [Hr Hc]; [by rewrite H0|done].
  - cbn [forallb]. rewrite !andb_true_iff, !owned_true.
    repeat split; apply Hrun; lia.
Qed.

Lemma blank_four_xo b p : xo_board b -> blank_four b p -> p = "x" ∨ p = "o".
Proof.
  intros Hxo (Hp & r & c & d & _ & Hrun).
  pose proof (Hrun 0 ltac:(lia)) as H0.
  destruct (xo_cell _ _ _ _ Hxo H0) as [->|[->| ->]]; auto. done.
Qed.

(** At most one player holds a four when [holds_four] fails for one of them. *)
Lemma one_winner b :
  wf_board b -> xo_board b -> holds_four b "x" && holds_four b "o" = false ->
  ∀ p p', blank_four b p -> blank_four b p' -> p = p'.
Proof.
  intros Hwf Hxo Hnot p p' Hp Hp'.
  assert (Hb : ∀ q, blank_four b q -> holds_four b q = true).
  { intros q (_ & r & c & d & Hd & Hrun). by eapply run_holds_four. }
  destruct (blank_four_xo b p Hxo Hp) as [->| ->],
           (blank_four_xo b p' Hxo Hp') as [->| ->]; try done;
    rewrite (Hb _ Hp), (Hb _ Hp') in Hnot; done.
Qed.
End integrated_moves_extras.

Section integrated_moves_theorems.
Import Integrated IntegratedMoves.

Lemma xo_won_board_xo : xo_board xo_won_board.
Proof.
  unfold xo_board. vm_compute.
  repeat match goal with
         | |- Forall _ _ => constructor
         | |- _ ∨ _ => first [left; reflexivity
                             | right; left; reflexivity
                             | right; right; reflexivity]
         end.
Qed.

Lemma winners_agree_witness :
  wf_board xo_won_board
  ∧ xo_board xo_won_board
  ∧ (∀ p p', blank_four xo_won_board p -> blank_four xo_won_board p' -> p = p')
  ∧ ∃ v, checkwin xo_won_board = Ok v
         ∧ check_winner (game_on (convert_board_to_baml_format xo_won_board))
           = Ok (convert_cell <$> v, game_on (convert_board_to_baml_format xo_won_board)).
Proof.
  assert (H1 : wf_board xo_won_board) by solve_wf.
  pose proof xo_won_board_xo as H2.
  assert (H3 : ∀ p p', blank_four xo_won_board p -> blank_four xo_won_board p' -> p = p')
    by (apply one_winner; [exact H1|exact H2|reflexivity]).
  split; [exact H1|]. split; [exact H2|]. split; [exact H3|].
  exact (winners_agree xo_won_board
           (game_on (convert_board_to_baml_format xo_won_board)) H1 H2 eq_refl H3).
Defined.

(** The lowest blank cell of a column. *)
Lemma lowest_blank_spec b c r :
  lowest_blank b c = Some r ↔
    0 <= r < 6 ∧ cell b r c = Some BLANK ∧ ∀ r', r < r' < 6 -> cell b r' c ≠ Some BLANK.
Proof. apply lowest_marker_spec. Qed.

Lemma first_free_spec b c :
  first_free b = Some c ↔
    0 <= c < 7 ∧ cell b 0 c = Some BLANK ∧ ∀ c', 0 <= c' < c -> cell b 0 c' ≠ Some BLANK.
Proof.
  unfold first_free. rewrite (search_range_first (λ col, owned b BLANK 0 col)).
  rewrite owned_true. split.
  - intros (Hc & Htop & Hleft). split; [done|]. split; [done|].
    intros c' Hc' Hcell%owned_true. by rewrite (Hleft c' Hc') in Hcell.
  - intros (Hc & Htop & Hleft). split; [done|]. split; [done|].
    intros c' Hc'. destruct (owned b BLANK 0 c') eqn:Ho; [|done].
    apply owned_true in Ho. by destruct (Hleft c' Hc').
Qed.

Lemma first_free_None b :
  first_free b = None ↔ ∀ c, 0 <= c < 7 -> cell b 0 c ≠ Some BLANK.
Proof.
  unfold first_free. rewrite search_None. split.
  - intros Hnone c Hc Hcell%owned_true.
    specialize (Hnone c). rewrite elem_of_range, Hcell in Hnone.
    by specialize (Hnone Hc).
  - intros Hnone c Hc%elem_of_range. destruct (owned b BLANK 0 c) eqn:Ho; [|done].
    apply owned_true in Ho. by destruct (Hnone c Hc).
Qed.

(** X14: on a 6x7 grid [make_ai_move] never raises, whatever the AI
    answers.  On a grid whose top row is full it leaves the grid as it is.
    When the AI's column has a blank top cell, one ['o'] goes to the lowest
    blank cell of that column.  When it has not (off the grid, full, or the
    call failed), one ['o'] goes to the lowest blank cell of the leftmost
    column that is not full. *)
Theorem make_ai_move_legal (answer : result Z) (b : Board) :
  wf_board b ->
  ∃ b', make_ai_move answer b = Ok b'
    ∧ ((∀ c, 0 <= c < 7 -> cell b 0 c ≠ Some BLANK) -> b' = b)
    ∧ (∀ a, answer = Ok a -> cell b 0 a = Some BLANK ->
         ∃ r, 0 <= r < 6 ∧ cell b r a = Some BLANK
              ∧ (∀ r', r < r' < 6 -> cell b r' a ≠ Some BLANK)
              ∧ b' = place b r a "o")
    ∧ ((∀ a, answer = Ok a -> cell b 0 a ≠ Some BLANK) ->
       ∀ c, 0 <= c < 7 -> cell b 0 c = Some BLANK ->
            (∀ c', 0 <= c' < c -> cell b 0 c' ≠ Some BLANK) ->
         ∃ r, 0 <= r < 6 ∧ cell b r c = Some BLANK
              ∧ (∀ r', r < r' < 6 -> cell b r' c ≠ Some BLANK)
              ∧ b' = place b r c "o").
Proof.
  intros Hwf. eexists. split; [by apply make_ai_move_wf|].
  assert (Hdrop : ∀ c, cell b 0 c = Some BLANK ->
            ∃ r, 0 <= r < 6 ∧ cell b r c = Some BLANK
                 ∧ (∀ r', r < r' < 6 -> cell b r' c ≠ Some BLANK)
                 ∧ default b ((λ r, place b r c "o") <$> lowest_blank b c)
                   = place b r c "o").
  { intros c Hc%owned_true. destruct (lowest_blank_top b c Hc) as [r Hr].
    exists r. rewrite Hr. apply lowest_blank_spec in Hr as (? & ? & ?). done. }
  split; [|split].
  - intros Hfull. apply first_free_None in Hfull. unfold ai_choice.
    destruct answer as [a|e]; [|by rewrite Hfull].
    destruct (owned b BLANK 0 a) eqn:Ho; [|by rewrite Hfull].
    apply owned_true in Ho.
    destruct (proj1 (cell_is_Some b 0 a Hwf)) as [_ Ha]; [by rewrite Ho|].
    rewrite first_free_None in Hfull. by destruct (Hfull a Ha).
  - intros a -> Htop. unfold ai_choice.
    rewrite (proj2 (owned_true _ _ _ _) Htop). cbn [mbind option_bind].
    by apply Hdrop.
  - intros Hbad c Hc Htop Hleft.
    assert (Hfree : first_free b = Some c) by by apply first_free_spec.
    assert (Hchoice : ai_choice answer b = Some c).
    { unfold ai_choice. destruct answer as [a|e]; [|done].
      destruct (owned b BLANK 0 a) eqn:Ho; [|done].
      apply owned_true in Ho. by destruct (Hbad a eq_refl). }
    rewrite Hchoice. cbn [mbind option_bind]. by apply Hdrop.
Qed.

Lemma make_ai_move_legal_witness :
  wf_board xo_won_board
  ∧ ∃ b', make_ai_move (Ok 7) xo_won_board = Ok b'
      ∧ ∃ r, 0 <= r < 6 ∧ cell xo_won_board r 0 = Some BLANK
             ∧ b' = place xo_won_board r 0 "o".
Proof.
  assert (H1 : wf_board xo_won_board) by solve_wf.
  split; [exact H1|].
  destruct (make_ai_move_legal (Ok 7) xo_won_board H1) as (b' & Hrun & _ & _ & Hfallback).
  exists b'. split; [exact Hrun|].
  destruct (Hfallback ltac:(by intros a [= <-]) 0 ltac:(lia) eq_refl ltac:(intros; lia))
    as (r & Hr & Hcell & _ & Hb').
  exists r. done.
Defined.

Lemma makeamove_skip b player skipped inputs :
  wf_board b -> Forall (turned_down b) skipped ->
  makeamove (skipped ++ inputs) b player = makeamove inputs b player.
Proof.
  intros Hwf. induction 1 as [|e skipped He _ IH]; [done|].
  destruct e as [n| |]; [|done|exact IH].
  cbn [app makeamove]. simpl in He.
  destruct (Z.leb_spec 1 n), (Z.leb_spec n 7); cbn [andb rbind]; try exact IH.
  destruct (proj2 (cell_is_Some b 0 (n - 1) Hwf)) as [s Hs]; [unfold ROWS, COLS; lia|].
  rewrite (at_cell _ _ _ _ Hs). cbn [rbind].
  destruct (String.eqb s BLANK) eqn:Heq; [|exact IH].
  apply String.eqb_eq in Heq as ->. destruct He. split; [lia|done].
Qed.

Lemma makeamove_accept b player n rest :
  wf_board b -> 1 <= n <= 7 -> cell b 0 (n - 1) = Some BLANK ->
  makeamove (Digits n :: rest) b player
  = Ok (Some (default b ((λ r, place b r (n - 1) player) <$> lowest_blank b (n - 1)), rest)).
Proof.
  intros Hwf Hn Htop. cbn [makeamove].
  destruct (Z.leb_spec 1 n), (Z.leb_spec n 7); try lia. cbn [andb].
  rewrite (at_cell _ _ _ _ Htop). cbn [rbind]. rewrite String.eqb_refl.
  rewrite drop_rows_wf;
    [|done|unfold COLS; lia|intros row Hrow%elem_of_range_down; unfold ROWS; lia].
  done.
Qed.

(** X15: on a 6x7 grid [makeamove] passes over every line that is not a
    number, or is a number outside 1..7, or names a column whose top cell
    is taken; at the first line with a number [n] from 1 to 7 whose column
    [n - 1] has a blank top cell it puts the player's piece on the lowest
    blank cell of that column and reads no further.  When no such line
    comes the grid is never written. *)
Theorem makeamove_first_accepted
    (skipped rest : list line) (n : Z) (b : Board) (player : string) :
  wf_board b -> Forall (turned_down b) skipped ->
  1 <= n <= 7 -> cell b 0 (n - 1) = Some BLANK ->
  makeamove skipped b player = Ok None
  ∧ ∃ r, 0 <= r < 6 ∧ cell b r (n - 1) = Some BLANK
         ∧ (∀ r', r < r' < 6 -> cell b r' (n - 1) ≠ Some BLANK)
         ∧ makeamove (skipped ++ Digits n :: rest) b player
           = Ok (Some (place b r (n - 1) player, rest)).
Proof.
  intros Hwf Hskip Hn Htop. split.
  - rewrite <- (app_nil_r skipped). by rewrite makeamove_skip.
  - rewrite makeamove_skip, makeamove_accept by done.
    destruct (lowest_blank_top b (n - 1)) as [r Hr]; [by apply owned_true|].
    exists r. rewrite Hr. apply lowest_blank_spec in Hr as (? & ? & ?). done.
Qed.

Lemma makeamove_first_accepted_witness :
  wf_board xo_won_board
  ∧ Forall (turned_down xo_won_board) [NotDigits; Digits 0; Digits 8]
  ∧ 1 <= 2 <= 7
  ∧ cell xo_won_board 0 (2 - 1) = Some BLANK
  ∧ ∃ r, 0 <= r < 6
         ∧ makeamove ([NotDigits; Digits 0; Digits 8] ++ Digits 2 :: [Digits 5])
                     xo_won_board "x"
           = Ok (Some (place xo_won_board r (2 - 1) "x", [Digits 5])).
Proof.
  assert (H1 : wf_board xo_won_board) by solve_wf.
  assert (H2 : Forall (turned_down xo_won_board) [NotDigits; Digits 0; Digits 8]).
  { repeat constructor; simpl; intros [? _]; lia. }
  assert (H3 : 1 <= 2 <= 7) by lia.
  assert (H4 : cell xo_won_board 0 (2 - 1) = Some BLANK) by reflexivity.
  split; [exact H1|]. split; [exact H2|]. split; [exact H3|]. split; [exact H4|].
  destruct (makeamove_first_accepted [NotDigits; Digits 0; Digits 8] [Digits 5]
              2 xo_won_board "x" H1 H2 H3 H4) as (_ & r & Hr & _ & _ & Hmove).
  exists r. split; [exact Hr|exact Hmove].
Defined.

(** A line of digits that [int] refuses, such as a superscript two, ends
    [makeamove] with [ValueError]. *)
Example makeamove_digit_not_int :
  makeamove [Digits 9; NoInt; Digits 1] xo_won_board "x" = Raise ValueError.
Proof. reflexivity. Qed.

(** X16: a move of the integrated game is a move of the engine.  On a 6x7
    grid of ['x'], ['o'] and [' '] whose column [c] has a blank top cell,
    the human's move into column [c + 1] and the AI's move into its column
    [c] change the grid as [drop_piece] of column [c] changes the
    translated grid, for ['p1'] and for ['a1']. *)
Theorem integrated_moves_are_drop_piece (c : Z) (rest : list line) (b : Board) (g : Game) :
  wf_board b -> xo_board b -> board g = convert_board_to_baml_format b ->
  cell b 0 c = Some BLANK ->
  ∃ bx bo,
    makeamove (Digits (c + 1) :: rest) b "x" = Ok (Some (bx, rest))
    ∧ drop_piece c "p1" g = Ok (true, set_board (convert_board_to_baml_format bx) g)
    ∧ make_ai_move (Ok c) b = Ok bo
    ∧ drop_piece c "a1" g = Ok (true, set_board (convert_board_to_baml_format bo) g).
Proof.
  intros Hwf Hxo Hg Htop.
  destruct (proj1 (cell_is_Some b 0 c Hwf)) as [_ Hc]; [by rewrite Htop|].
  unfold COLS in Hc.
  destruct (drop_rows_drop_piece b g c "x" Hwf Hxo Hg Htop) as (r & Hr & Hx).
  destruct (drop_rows_drop_piece b g c "o" Hwf Hxo Hg Htop) as (r' & Hr' & Ho).
  assert (r' = r) as -> by congruence.
  exists (place b r c "x"), (place b r c "o"). split; [|split; [exact Hx|split; [|exact Ho]]].
  - rewrite makeamove_accept; replace (c + 1 - 1) with c by lia; [|done|lia|done].
    by rewrite Hr.
  - rewrite make_ai_move_wf by done. unfold ai_choice.
    rewrite (proj2 (owned_true _ _ _ _) Htop). cbn [mbind option_bind]. by rewrite Hr.
Qed.

Lemma integrated_moves_are_drop_piece_witness :
  wf_board xo_won_board
  ∧ xo_board xo_won_board
  ∧ cell xo_won_board 0 1 = Some BLANK
  ∧ ∃ bx bo,
      makeamove (Digits (1 + 1) :: []) xo_won_board "x" = Ok (Some (bx, []))
      ∧ drop_piece 1 "p1" (game_on (convert_board_to_baml_format xo_won_board))
        = Ok (true, set_board (convert_board_to_baml_format bx)
                      (game_on (convert_board_to_baml_format xo_won_board)))
      ∧ make_ai_move (Ok 1) xo_won_board = Ok bo
      ∧ drop_piece 1 "a1" (game_on (convert_board_to_baml_format xo_won_board))
        = Ok (true, set_board (convert_board_to_baml_format bo)
                      (game_on (convert_board_to_baml_format xo_won_board))).
Proof.
  assert (H1 : wf_board xo_won_board) by solve_wf.
  pose proof xo_won_board_xo as H2.
  assert (H3 : cell xo_won_board 0 1 = Some BLANK) by reflexivity.
  split; [exact H1|]. split; [exact H2|]. split; [exact H3|].
  exact (integrated_moves_are_drop_piece 1 [] xo_won_board
           (game_on (convert_board_to_baml_format xo_won_board)) H1 H2 eq_refl H3).
Defined.
End integrated_moves_theorems.

Section integrated_loop_facts.
Import Integrated IntegratedMoves IntegratedLoop.

Lemma forallb_eq {A} (f f' : A -> bool) (l : list A) :
  (∀ x, f x = f' x) -> forallb f l = forallb f' l.
Proof. intros Hf. induction l as [|x l IH]; [done|]. cbn [forallb]. by rewrite Hf, IH. Qed.

Lemma top_row_full_wf b cols :
  wf_board b -> (∀ col, col ∈ cols -> 0 <= col < COLS) ->
  top_row_full cols b = Ok (forallb (λ col, negb (owned b BLANK 0 col)) cols).
Proof.
  intros Hwf. induction cols as [|col cols IH]; intros Hcols; [done|].
  destruct (proj2 (cell_is_Some b 0 col Hwf)) as [s Hs].
  { split; [done|]. apply Hcols. left. }
  cbn [top_row_full forallb]. rewrite (at_cell _ _ _ _ Hs). cbn [rbind].
  unfold owned at 1. rewrite Hs.
  destruct (String.eqb s BLANK); [done|]. cbn [negb andb].
  apply IH. intros c Hc. apply Hcols. by right.
Qed.

Lemma xo_place b r c v :
  xo_board b -> v = "x" ∨ v = "o" -> xo_board (place b r c v).
Proof.
  intros Hxo Hv. unfold xo_board, place.
  apply Forall_alter; [done|]. intros row Hrow Hall.
  apply Forall_insert; [done|]. destruct Hv as [->| ->]; auto.
Qed.

Lemma after_turn_placed g col cp r :
  owned (board g) EMPTY 0 col = true -> lowest_empty (board g) col = Some r ->
  after_turn g col cp
  = let g2 := set_board (place (board g) r col cp) g in
    let w := first_win (board g2) in
    if Py.truthy w then set_winner w (set_game_over true g2)
    else if forallb (λ c, negb (owned (board g2) EMPTY 0 c)) (Py.range COLS)
         then set_game_over true g2
         else set_current_player_index
                ((current_player_index g2 + 1) `mod` Z.of_nat (length (players g2))) g2.
Proof. intros Htop Hlow. unfold after_turn. by rewrite Htop, Hlow. Qed.

(** One move of the integrated game, by either player, against one turn
    of the engine. *)
Lemma integrated_half_move b g c v :
  wf_board b -> xo_board b -> board g = convert_board_to_baml_format b ->
  session_ok g -> game_over g = false ->
  v = "x" ∨ v = "o" -> mover g = Some (convert_cell v) ->
  cell b 0 c = Some BLANK ->
  ∃ r g1,
    lowest_blank b c = Some r
    ∧ play [c] g = Ok (tt, g1)
    ∧ wf_board (place b r c v) ∧ xo_board (place b r c v)
    ∧ board g1 = convert_board_to_baml_format (place b r c v)
    ∧ session_ok g1 ∧ players g1 = players g
    ∧ (∀ q, blank_four (place b r c v) q -> q = v)
    ∧ match checkwin_found (place b r c v) with
      | Some q =>
          q = v ∧ game_over g1 = true ∧ winner g1 = Some (convert_cell v)
          ∧ current_player_index g1 = current_player_index g
      | None =>
          winner g1 = None
          ∧ if forallb (λ col, negb (owned (place b r c v) BLANK 0 col)) (Py.range 7)
            then game_over g1 = true
                 ∧ current_player_index g1 = current_player_index g
            else game_over g1 = false
                 ∧ current_player_index g1
                   = (current_player_index g + 1) `mod` Z.of_nat (length (players g))
      end.
Proof.
  intros Hwf Hxo Hg Hok Hover Hv Hcp Htop.
  pose proof Hok as (Hwfg & _ & _ & Hidx & _ & Hrun & _).
  destruct (Hrun Hover) as (Hwin & Hnone & _).
  assert (Htop' : owned (board g) EMPTY 0 c = true).
  { rewrite Hg, owned_convert by done. by apply owned_true. }
  destruct (lowest_blank_top b c) as [r Hr]; [by apply owned_true|].
  assert (Hlow : lowest_empty (board g) c = Some r) by (by rewrite Hg, lowest_convert).
  exists r, (after_turn g c (convert_cell v)).
  pose proof (after_turn_ok g c _ Hok Hover Hcp) as Hok1.
  assert (Hxo1 : xo_board (place b r c v)) by by apply xo_place.
  assert (Hwf1 : wf_board (place b r c v)) by by apply place_wf.
  assert (Hone : ∀ q, blank_four (place b r c v) q -> q = v).
  { intros q Hq.
    apply convert_cell_inj.
    - destruct (blank_four_xo _ _ Hxo1 Hq) as [->| ->]; unfold xo; auto.
    - destruct Hv as [->| ->]; unfold xo; auto.
    - apply (place_four (board g) r c (convert_cell v)); [done| |done|].
      + by apply lowest_empty_spec in Hlow as (_ & ? & _).
      + rewrite Hg, <- place_convert. by apply four_convert_to. }
  assert (Hfw : first_win (convert_board_to_baml_format (place b r c v))
                = convert_cell <$> checkwin_found (place b r c v)).
  { apply first_win_convert; try done. intros p p' Hp Hp'. by rewrite (Hone p), (Hone p'). }
  assert (Hfull : forallb (λ c0, negb (owned (convert_board_to_baml_format (place b r c v))
                                              EMPTY 0 c0)) (Py.range COLS)
                  = forallb (λ col, negb (owned (place b r c v) BLANK 0 col)) (Py.range 7)).
  { change COLS with 7. apply forallb_eq. intros col. by rewrite owned_convert. }
  split; [done|]. split.
  { rewrite play_cons, Hover. unfold bind.
    rewrite (play_turn_eq g c (convert_cell v) Hwfg); [done|].
    apply mover_get_current_player; [lia|done]. }
  split; [done|]. split; [done|].
  rewrite (after_turn_placed g c _ r Htop' Hlow) in Hok1 |- *. cbv zeta in Hok1 |- *.
  assert (Hb1 : board (set_board (place (board g) r c (convert_cell v)) g)
                = convert_board_to_baml_format (place b r c v)).
  { simpl. by rewrite Hg, place_convert. }
  rewrite Hb1, Hfw, Hfull in Hok1 |- *.
  destruct (checkwin_found (place b r c v)) as [q|] eqn:Hq.
  - apply checkwin_found_sound in Hq as Hfour. pose proof (Hone q Hfour) as ->.
    assert (Htruthy : Py.truthy (convert_cell <$> Some v) = true)
      by (by destruct Hv as [->| ->]).
    rewrite Htruthy in Hok1 |- *.
    split; [simpl; by rewrite Hg, place_convert|]. split; [exact Hok1|]. done.
  - cbn [fmap option_fmap option_map Py.truthy] in Hok1 |- *.
    destruct (forallb _ (Py.range 7));
      (split; [simpl; by rewrite Hg, place_convert|]); (split; [exact Hok1|]); done.
Qed.

Lemma makeamove_cases inputs b player :
  wf_board b ->
  (makeamove inputs b player = Raise ValueError ∧ NoInt ∈ inputs)
  ∨ makeamove inputs b player = Ok None
  ∨ ∃ pre n rest,
      inputs = (pre ++ Digits n :: rest)%list
      ∧ 1 <= n <= 7 ∧ cell b 0 (n - 1) = Some BLANK
      ∧ makeamove inputs b player
        = Ok (Some (default b ((λ r, place b r (n - 1) player) <$> lowest_blank b (n - 1)),
                    rest)).
Proof.
  intros Hwf. induction inputs as [|e inputs IH]; [by right; left|].
  assert (Hskip : turned_down b e ->
    (makeamove (e :: inputs) b player = Raise ValueError ∧ NoInt ∈ e :: inputs)
    ∨ makeamove (e :: inputs) b player = Ok None
    ∨ ∃ pre n rest,
        e :: inputs = (pre ++ Digits n :: rest)%list
        ∧ 1 <= n <= 7 ∧ cell b 0 (n - 1) = Some BLANK
        ∧ makeamove (e :: inputs) b player
          = Ok (Some (default b ((λ r, place b r (n - 1) player) <$> lowest_blank b (n - 1)),
                      rest))).
  { intros He.
    change (e :: inputs) with ([e] ++ inputs)%list at 1 3 5.
    rewrite (makeamove_skip b player [e] inputs Hwf) by (by constructor).
    destruct IH as [[Hraise Hin]|[Hend|(pre & n & rest & -> & Hn & Htop & Hmove)]].
    - left. split; [done|by right].
    - by right; left.
    - right; right. by exists (e :: pre), n, rest. }
  destruct e as [n| |].
  - destruct (decide (1 <= n <= 7 ∧ cell b 0 (n - 1) = Some BLANK)) as [[Hn Htop]|Hno].
    + right; right. exists [], n, inputs. split; [done|]. split; [done|]. split; [done|].
      by apply makeamove_accept.
    + by apply Hskip.
  - left. split; [done|left].
  - by apply Hskip.
Qed.

Lemma ai_choice_free answer b :
  forallb (λ col, negb (owned b BLANK 0 col)) (Py.range 7) = false ->
  ∃ c, ai_choice answer b = Some c ∧ cell b 0 c = Some BLANK.
Proof.
  intros Hnot.
  assert (Hfree : ∃ c, first_free b = Some c ∧ cell b 0 c = Some BLANK).
  { destruct (first_free b) as [c|] eqn:Hf.
    - exists c. split; [done|]. by apply first_free_spec in Hf as (_ & ? & _).
    - rewrite first_free_None in Hf.
      assert (Hall : forallb (λ col, negb (owned b BLANK 0 col)) (Py.range 7) = true);
        [|congruence].
      apply forallb_forall. intros col Hcol%list_elem_of_In%elem_of_range.
      destruct (owned b BLANK 0 col) eqn:Ho; [|done].
      apply owned_true in Ho. by destruct (Hf col Hcol). }
  destruct Hfree as (c & Hf & Hc). unfold ai_choice.
  destruct answer as [a|e]; [|eauto].
  destruct (owned b BLANK 0 a) eqn:Ho; [|eauto].
  exists a. split; [done|by apply owned_true].
Qed.

Lemma loop_head_no_four b g q : loop_head b g -> ¬ blank_four b q.
Proof.
  intros (Hwf & Hxo & Hg & Hok & _ & Hover & _) Hq.
  destruct Hok as (_ & _ & _ & _ & _ & Hrun & _).
  destruct (Hrun Hover) as (_ & Hnone & _).
  destruct (first_win_complete _ _ (convert_wf b Hwf) (four_convert_to b q Hxo Hq))
    as [p Hp].
  rewrite <- Hg in Hp. congruence.
Qed.
End integrated_loop_facts.

Section integrated_loop_simulation.
Import Integrated IntegratedMoves IntegratedLoop.

Lemma checkwin_found_None b q :
  wf_board b -> checkwin_found b = None -> ¬ blank_four b q.
Proof.
  intros Hwf Hnone Hq. destruct (checkwin_found_complete b Hwf q Hq) as [p Hp]. congruence.
Qed.

Lemma loop_left_early out b g :
  loop_head b g -> is_break out = false -> loop_left out b g.
Proof.
  intros Hhead Hout. pose proof Hhead as (Hwf & Hxo & Hg & Hok & Hps & Hover & Hidx).
  destruct Hok as (? & ? & ? & ? & ? & Hrun & ?). destruct (Hrun Hover) as (Hwin & _).
  unfold loop_left. split_and!; try done.
  - by rewrite Hout.
  - rewrite Hwin. by destruct out.
  - rewrite Hidx. by destruct out.
  - intros q Hq. by destruct (loop_head_no_four b g q Hhead).
Qed.

(** Every run of [startgame] is a run of the engine's [play] on the
    columns played, from a session that stands for the grid. *)
Lemma startgame_sim answers :
  ∀ inputs b g, loop_head b g ->
    (startgame answers inputs b = Raise ValueError ∧ NoInt ∈ inputs)
    ∨ ∃ out b' cols g',
        startgame answers inputs b = Ok (out, b')
        ∧ play cols g = Ok (tt, g') ∧ loop_left out b' g'.
Proof.
  induction answers as [|answer answers IH]; intros inputs b g Hhead.
  { right. exists Cut, b, [], g. split; [done|]. split; [done|].
    by apply loop_left_early. }
  pose proof Hhead as (Hwf & Hxo & Hg & Hok & Hps & Hover & Hidx).
  cbn [startgame].
  destruct (makeamove_cases inputs b "x" Hwf)
    as [[Hraise Hin]|[Hend|(pre & n & rest & -> & Hn & Htop & Hmove)]].
  { left. by rewrite Hraise. }
  { right. rewrite Hend. cbn [rbind]. exists InputEnds, b, [], g.
    split; [done|]. split; [done|]. by apply loop_left_early. }
  rewrite Hmove. cbn [rbind]. clear Hmove.
  destruct (integrated_half_move b g (n - 1) "x" Hwf Hxo Hg Hok Hover)
    as (r & g1 & Hr & Hplay1 & Hwf1 & Hxo1 & Hg1 & Hok1 & Hps1 & Hone1 & Hcase1);
    [by left|by unfold mover; rewrite Hps, Hidx|done|].
  rewrite Hr. cbn [fmap option_fmap option_map default from_option id].
  rewrite (checkwin_wf _ Hwf1). cbn [rbind].
  rewrite Hps in Hps1.
  destruct (checkwin_found (place b r (n - 1) "x")) as [q|] eqn:Hq1.
  { destruct Hcase1 as (-> & Hover1 & Hwin1 & Hidx1). right.
    exists YouWin, (place b r (n - 1) "x"), [n - 1], g1.
    split; [done|]. split; [done|]. unfold loop_left. split_and!; try done.
    - by rewrite Hidx1.
    - intros q Hq. by rewrite (Hone1 q Hq). }
  destruct Hcase1 as (Hwin1 & Hcase1). cbn [Py.truthy].
  rewrite top_row_full_wf by (done || intros col Hcol%elem_of_range; unfold COLS; lia).
  cbn [rbind].
  destruct (forallb _ (Py.range 7)) eqn:Hfull1.
  { destruct Hcase1 as (Hover1 & Hidx1). right.
    exists DrawAfterYou, (place b r (n - 1) "x"), [n - 1], g1.
    split; [done|]. split; [done|]. unfold loop_left. split_and!; try done.
    - by rewrite Hidx1.
    - intros q Hq. by destruct (checkwin_found_None _ q Hwf1 Hq1). }
  destruct Hcase1 as (Hover1 & Hidx1). rewrite Hps, Hidx in Hidx1.
  change ((0 + 1) `mod` Z.of_nat (length ["p1"; "a1"])) with 1 in Hidx1.
  destruct (ai_choice_free answer _ Hfull1) as (c2 & Hchoice & Htop2).
  rewrite (make_ai_move_wf answer _ Hwf1), Hchoice. cbn [mbind option_bind rbind].
  destruct (integrated_half_move _ g1 c2 "o" Hwf1 Hxo1 Hg1 Hok1 Hover1)
    as (r2 & g2 & Hr2 & Hplay2 & Hwf2 & Hxo2 & Hg2 & Hok2 & Hps2 & Hone2 & Hcase2);
    [by right|by unfold mover; rewrite Hps1, Hidx1|done|].
  rewrite Hr2. cbn [fmap option_fmap option_map default from_option id].
  rewrite (checkwin_wf _ Hwf2). cbn [rbind].
  rewrite Hps1 in Hps2.
  assert (Hplay12 : play [n - 1; c2] g = Ok (tt, g2)).
  { change [n - 1; c2] with ([n - 1] ++ [c2])%list. by rewrite (play_app _ _ _ _ Hplay1). }
  destruct (checkwin_found (place (place b r (n - 1) "x") r2 c2 "o")) as [q|] eqn:Hq2.
  { destruct Hcase2 as (-> & Hover2 & Hwin2 & Hidx2). right.
    exists AIWins, (place (place b r (n - 1) "x") r2 c2 "o"), [n - 1; c2], g2.
    split; [done|]. split; [done|]. unfold loop_left. split_and!; try done.
    - by rewrite Hidx2.
    - intros q Hq. by rewrite (Hone2 q Hq). }
  destruct Hcase2 as (Hwin2 & Hcase2). cbn [Py.truthy].
  rewrite top_row_full_wf by (done || intros col Hcol%elem_of_range; unfold COLS; lia).
  cbn [rbind].
  revert Hcase2.
  destruct (forallb (λ col, negb (owned (place (place b r (n - 1) "x") r2 c2 "o") BLANK 0 col))
                    (Py.range 7)) eqn:Hfull2; intros (Hover2 & Hidx2).
  { right.
    exists DrawAfterAI, (place (place b r (n - 1) "x") r2 c2 "o"), [n - 1; c2], g2.
    split; [done|]. split; [done|]. unfold loop_left. split_and!; try done.
    - by rewrite Hidx2.
    - intros q Hq. by destruct (checkwin_found_None _ q Hwf2 Hq2). }
  rewrite Hps1, Hidx1 in Hidx2.
  change ((1 + 1) `mod` Z.of_nat (length ["p1"; "a1"])) with 0 in Hidx2.
  destruct (IH rest (place (place b r (n - 1) "x") r2 c2 "o") g2)
    as [[Hraise Hin]|(out & b' & cols & g' & Hrun & Hplay & Hleft)].
  { unfold loop_head. by split_and!. }
  - left. split; [done|]. rewrite elem_of_app. right. by right.
  - right. exists out, b', ([n - 1; c2] ++ cols)%list, g'.
    split; [done|]. split; [|done]. by rewrite (play_app _ _ _ _ Hplay12).
Qed.

Lemma loop_head_start : loop_head gameboard pva_game.
Proof.
  unfold loop_head. split; [solve_wf|]. split.
  { unfold xo_board, gameboard.
    repeat match goal with
           | |- Forall _ _ => constructor
           | |- _ ∨ _ => right; right; reflexivity
           end. }
  split; [reflexivity|]. split; [exact (init_ok "pva" pva_game eq_refl)|].
  repeat split.
Qed.

Lemma length_concat_rows {A} (b : list (list A)) n :
  Forall (λ r, length r = n) b -> length (concat b) = (length b * n)%nat.
Proof.
  induction 1 as [|row b Hrow _ IH]; [done|].
  cbn [concat length]. rewrite length_app, IH, Hrow. lia.
Qed.

Lemma count_two (A B : string) (l : list string) :
  A ≠ B -> Forall (λ s, s = A ∨ s = B) l ->
  (length (filter (λ s, s = A) l) + length (filter (λ s, s = B) l) = length l)%nat.
Proof.
  intros Hne. induction 1 as [|s l Hs _ IH]; [done|].
  rewrite !filter_cons. cbn [length].
  destruct Hs as [->| ->].
  - destruct (decide (A = A)); [|done]. destruct (decide (A = B)); [done|].
    cbn [length]. lia.
  - destruct (decide (B = A)); [by subst|]. destruct (decide (B = B)); [|done].
    cbn [length]. lia.
Qed.

Lemma top_row_all_taken b :
  wf_board b -> gravity b -> top_row_taken b -> all_taken b.
Proof.
  intros Hwf Hgrav Htop r c Hr Hc.
  destruct (proj2 (cell_is_Some b r c Hwf)) as [s Hs]; [done|].
  exists s. split; [done|]. intros ->.
  destruct (Htop c Hc) as (s0 & Hs0 & Hne).
  destruct (decide (r = 0)) as [->|Hr0]; [congruence|].
  by destruct (Hgrav 0 r c s0 Hs0 Hne ltac:(lia)).
Qed.

Lemma all_taken_count b A B :
  wf_board b -> all_taken b -> cells_of [A; B] b -> A ≠ B ->
  (pieces A b + pieces B b = 42)%nat.
Proof.
  intros Hwf Hall Hcells Hne. unfold pieces.
  rewrite count_two; [|done|].
  - destruct Hwf as [Hlen Hrows]. by rewrite (length_concat_rows b _ Hrows), Hlen.
  - apply Forall_concat. apply Forall_lookup. intros i row Hrow.
    apply Forall_lookup. intros j s Hs.
    assert (Hcell : cell b (Z.of_nat i) (Z.of_nat j) = Some s).
    { rewrite cell_lookup by lia. rewrite !Nat2Z.id, Hrow. done. }
    destruct (proj1 (cell_is_Some b (Z.of_nat i) (Z.of_nat j) Hwf)) as [Hi Hj];
      [by rewrite Hcell|].
    destruct (Hall _ _ Hi Hj) as (s' & Hs' & Hne').
    assert (s' = s) as -> by congruence.
    destruct (cells_of_cell _ _ _ _ _ Hcells Hcell) as [->|Hin]; [done|].
    apply list_elem_of_In in Hin. simpl in Hin. destruct Hin as [<-|[<-|[]]]; auto.
Qed.
End integrated_loop_simulation.

Section integrated_loop_theorems.
Import Integrated IntegratedMoves IntegratedLoop.

Lemma startgame_reaches answers inputs out b' :
  startgame answers inputs gameboard = Ok (out, b') ->
  ∃ cols g, play cols pva_game = Ok (tt, g) ∧ loop_left out b' g.
Proof.
  intros Hrun.
  destruct (startgame_sim answers inputs gameboard pva_game loop_head_start)
    as [[Hraise _]|(out' & b'' & cols & g & Hrun' & Hplay & Hleft)]; [congruence|].
  rewrite Hrun in Hrun'. injection Hrun' as <- <-. eauto.
Qed.




(** X19: what [startgame] announces is right.  From the module's blank
    grid the loop is left with "You win" only when ['x'] holds a four and
    ['o'] none, with "AI wins" only when ['o'] holds a four and ['x']
    none, and with a draw only after the AI's move, all 42 cells taken and
    no four on the grid; the draw check after the human's move never
    succeeds.  Wherever else the run stops, nobody holds a four. *)
Theorem startgame_verdict
    (answers : list (result Z)) (inputs : list line) (out : left_at) (b' : Board) :
  startgame answers inputs gameboard = Ok (out, b') ->
  match out with
  | YouWin => blank_four b' "x" ∧ ¬ blank_four b' "o"
  | AIWins => blank_four b' "o" ∧ ¬ blank_four b' "x"
  | DrawAfterYou => False
  | DrawAfterAI =>
      (∀ r c, 0 <= r < 6 -> 0 <= c < 7 -> ∃ s, cell b' r c = Some s ∧ s ≠ BLANK)
      ∧ ∀ p, ¬ blank_four b' p
  | InputEnds | Cut => ∀ p, ¬ blank_four b' p
  end.
Proof.
  intros Hrun.
  destruct (startgame_reaches _ _ _ _ Hrun)
    as (cols & g & Hplay & Hwf & Hxo & Hg & Hok & Hps & Hover & Hwin & Hidx & Hone).
  assert (Hreach : reachable g).
  { exists "pva", pva_game, cols. split; [reflexivity|done]. }
  pose proof Hok as (Hwfg & Hgrav & _ & _ & Hcells & _ & Hend).
  assert (Hnone : winner g = None -> ∀ p, ¬ blank_four b' p).
  { intros Hw p Hp. specialize (Hone p Hp). congruence. }
  assert (Hwon : ∀ v, v = "x" ∨ v = "o" -> winner g = Some (convert_cell v) ->
                 game_over g = true -> blank_four b' v).
  { intros v Hv Hw Ho. destruct (Hend Ho) as [(w & Hw' & Hfour & _)|(Hw' & _)]; [|congruence].
    rewrite Hg in Hfour.
    destruct (four_convert_from b' w Hxo Hfour) as (p & Hp & Hwp).
    assert (p = v) as ->; [|done].
    apply convert_cell_inj; [|destruct Hv as [->| ->]; unfold xo; auto|congruence].
    destruct (blank_four_xo _ _ Hxo Hp) as [->| ->]; unfold xo; auto. }
  assert (Hdraw : game_over g = true -> winner g = None ->
                  all_taken (board g) ∧ current_player_index g = 1).
  { intros Ho Hw. destruct (Hend Ho) as [(w & Hw' & _)|(_ & Htop & _)]; [congruence|].
    pose proof (top_row_all_taken _ Hwfg Hgrav Htop) as Hall. split; [done|].
    rewrite Hps in Hcells.
    pose proof (all_taken_count _ "p1" "a1" Hwfg Hall Hcells ltac:(done)) as Hcount.
    pose proof (pieces_balance g "p1" "a1" Hreach Hps) as Hbal. rewrite Ho in Hbal.
    destruct Hok as (_ & _ & _ & Hi & _). lia. }
  destruct out; simpl in Hover, Hwin, Hidx.
  - split; [by apply Hwon; [left|..]|]. intros Ho. specialize (Hone _ Ho). by rewrite Hwin in Hone.
  - destruct (Hdraw Hover Hwin) as [_ Hi]. lia.
  - split; [by apply Hwon; [right|..]|]. intros Ho. specialize (Hone _ Ho). by rewrite Hwin in Hone.
  - split; [|by apply Hnone]. intros r c Hr Hc.
    destruct (Hdraw Hover Hwin) as [Hall _].
    destruct (Hall r c Hr Hc) as (s & Hs & Hne).
    rewrite Hg, cell_convert in Hs.
    destruct (cell b' r c) as [s'|]; [|done]. exists s'. split; [done|].
    intros ->. by injection Hs as <-.
  - by apply Hnone.
  - by apply Hnone.
Qed.

Lemma startgame_verdict_witness :
  startgame draw_answers draw_lines gameboard = Ok (DrawAfterAI, xo_draw_board)
  ∧ (∀ r c, 0 <= r < 6 -> 0 <= c < 7 -> ∃ s, cell xo_draw_board r c = Some s ∧ s ≠ BLANK)
  ∧ ∀ p, ¬ blank_four xo_draw_board p.
Proof.
  assert (H1 : startgame draw_answers draw_lines gameboard = Ok (DrawAfterAI, xo_draw_board))
    by (vm_compute; reflexivity).
  split; [exact H1|].
  exact (startgame_verdict draw_answers draw_lines DrawAfterAI xo_draw_board H1).
Defined.
End integrated_loop_theorems.

(** X20: a game of the engine that ends without a winner ends on a grid
    with all 42 cells taken, 21 by each player, and the second player made
    the last move. *)
Theorem draw_fills_the_board (g : Game) (A B : string) :
  reachable g -> players g = [A; B] ->
  game_over g = true -> winner g = None ->
  all_taken (board g)
  ∧ pieces A (board g) = 21%nat ∧ pieces B (board g) = 21%nat
  ∧ current_player_index g = 1.
Proof.
  intros Hreach Hps Hover Hwin.
  pose proof (reachable_ok g Hreach) as (Hwf & Hgrav & Htwo & Hi & Hcells & _ & Hend).
  destruct (Hend Hover) as [(w & Hw & _)|(_ & Htop & _)]; [congruence|].
  pose proof (top_row_all_taken _ Hwf Hgrav Htop) as Hall. split; [done|].
  rewrite Hps in Hcells.
  assert (Hne : A ≠ B).
  { destruct Htwo as (A' & B' & HAB & Hne & _). rewrite Hps in HAB. congruence. }
  pose proof (all_taken_count _ A B Hwf Hall Hcells Hne) as Hcount.
  pose proof (pieces_balance g A B Hreach Hps) as Hbal. rewrite Hover in Hbal.
  lia.
Qed.

Lemma draw_fills_the_board_witness :
  reachable drawn_game
  ∧ all_taken (board drawn_game)
  ∧ pieces p1 (board drawn_game) = 21%nat ∧ pieces p2 (board drawn_game) = 21%nat
  ∧ current_player_index drawn_game = 1.
Proof.
  assert (H1 : reachable drawn_game).
  { exists "pvp", new_game, draw_moves. split; vm_compute; reflexivity. }
  split; [exact H1|].
  exact (draw_fills_the_board drawn_game p1 p2 H1 eq_refl eq_refl eq_refl).
Defined.

(** ** Choosing the mode *)

(** X21: [choose_game_mode] passes over every answer other than ["1"],
    ["2"] and ["3"] and returns the mode of the first that is one of them;
    [__init__] accepts every mode it returns, so [main] never fails with
    "Invalid mode", and the session starts with a blank grid, its first
    player to move and the game not over. *)
Theorem choose_game_mode_accepted (choices : list string) (m : string) (rest : list string) :
  choose_game_mode choices = Some (m, rest) ->
  ∃ skipped choice g,
    choices = (skipped ++ choice :: rest)%list
    ∧ Forall (λ s, ∀ m', (s, m') ∉ mode_choices) skipped
    ∧ (choice, m) ∈ mode_choices
    ∧ init m = Ok g
    ∧ mode g = m ∧ board g = init_board
    ∧ current_player_index g = 0 ∧ game_over g = false ∧ winner g = None.
Proof.
  induction choices as [|choice choices IH]; [done|]. cbn [choose_game_mode].
  destruct (String.eqb choice "1") eqn:H1.
  { apply String.eqb_eq in H1 as ->. intros [= <- <-].
    exists [], "1", (mkGame "pvp" init_board ["p1"; "p2"] 0 false None).
    split_and!; try done. apply list_elem_of_In. simpl. auto. }
  destruct (String.eqb choice "2") eqn:H2.
  { apply String.eqb_eq in H2 as ->. intros [= <- <-].
    exists [], "2", (mkGame "ava" init_board ["a1"; "a2"] 0 false None).
    split_and!; try done. apply list_elem_of_In. simpl. auto. }
  destruct (String.eqb choice "3") eqn:H3.
  { apply String.eqb_eq in H3 as ->. intros [= <- <-].
    exists [], "3", (mkGame "pva" init_board ["p1"; "a1"] 0 false None).
    split_and!; try done. apply list_elem_of_In. simpl. auto. }
  intros Hrest. destruct (IH Hrest) as (skipped & c & g & -> & Hskip & Hrest').
  exists (choice :: skipped), c, g. split; [done|]. split; [|done].
  constructor; [|done]. intros m' Hin.
  apply String.eqb_neq in H1, H2, H3.
  apply list_elem_of_In in Hin. simpl in Hin.
  destruct Hin as [[= ? ?]|[[= ? ?]|[[= ? ?]|[]]]]; congruence.
Qed.

Lemma choose_game_mode_accepted_witness :
  choose_game_mode ["4"; "pva"; "3"; "1"] = Some ("pva", ["1"])
  ∧ ∃ skipped choice g,
      ["4"; "pva"; "3"; "1"] = (skipped ++ choice :: ["1"])%list
      ∧ Forall (λ s, ∀ m', (s, m') ∉ mode_choices) skipped
      ∧ (choice, "pva") ∈ mode_choices
      ∧ init "pva" = Ok g
      ∧ mode g = "pva" ∧ board g = init_board
      ∧ current_player_index g = 0 ∧ game_over g = false ∧ winner g = None.
Proof.
  assert (H1 : choose_game_mode ["4"; "pva"; "3"; "1"] = Some ("pva", ["1"]))
    by reflexivity.
  split; [exact H1|].
  exact (choose_game_mode_accepted ["4"; "pva"; "3"; "1"] "pva" ["1"] H1).
Defined.
